(** * malt: generation of Tripos MOL2 blocks (src/malt/classes.py)

    A shallow embedding of the class [Molecule] of [malt/classes.py] and
    the properties of its constructor, of [elements], of
    [elements_by_index], of [get_external_charges], of [coords], of
    [molecule_block], of [atom_block] and of [bond_block].

    Modelling conventions.
    - A Python exception is a value of [exn]; a computation that may raise
      has type [Result A].
    - The objects of RDKit are records: a molecule is its list of atoms (the
      index of an atom, [GetIdx], is its position in that list), its list of
      bonds and the positions of its conformer 0.
    - What the module takes from libraries and from the file system is a
      field of [World]: the readers of PDB and XYZ files, the Gasteiger
      charges, the rows of a CSV file, [int], [float], ["%.3f" %] and
      [DataFrame.to_string].
    - A dict whose order matters ([element_dict], [mol_by_elements], the
      module constants [bond_types] and [atom_types]) is an association
      list in insertion order; the module global [index_lookup] is a
      [gmap nat nat].
    - A pandas frame is the list of its rows; [sort_values] on several
      columns is a stable sort on the lexicographic key. *)

From Stdlib Require Import ZArith Lia Ascii String.
From Stdlib Require QArith.
From stdpp Require Import base option list sorting gmap strings pretty.

Local Open Scope string_scope.
Local Open Scope list_scope.

(** ** Exceptions and results *)

(** The exception classes the statements of the module can raise.  The last
    two are the names the specification gives to its error kinds;
    [classes.py] defines no exception class and has no [raise] statement. *)
Inductive exn : Set :=
  | AttributeError
  | IndexError
  | KeyError
  | NameError
  | UnboundLocalError
  | TypeError
  | ValueError
  | OSError
  | ParseError
  | StateError.

#[global] Instance exn_eq_dec : EqDecision exn.
Proof. solve_decision. Defined.

Inductive Result (A : Type) : Type :=
  | Ok (a : A)
  | Raise (e : exn).
Arguments Ok {A} a.
Arguments Raise {A} e.

#[global] Instance Result_ret : MRet Result := fun A a => Ok a.
#[global] Instance Result_bind : MBind Result := fun A B f m =>
  match m with
  | Ok a => f a
  | Raise e => Raise e
  end.
#[global] Instance Result_fmap : FMap Result := fun A B f m =>
  match m with
  | Ok a => Ok (f a)
  | Raise e => Raise e
  end.

(** Two results that are both values, or the same exception. *)
Definition same_outcome {A B} (r1 : Result A) (r2 : Result B) : Prop :=
  match r1, r2 with
  | Ok _, Ok _ => True
  | Raise e1, Raise e2 => e1 = e2
  | _, _ => False
  end.

(** [o] when it holds a value, the exception [e] otherwise. *)
Definition or_raise {A} (e : exn) (o : option A) : Result A :=
  match o with
  | Some a => Ok a
  | None => Raise e
  end.

(** A [for] loop whose body may raise: the body is run on each element in
    turn with the state left by the previous one. *)
Fixpoint for_each {A St} (body : St -> A -> Result St) (l : list A) (st : St)
  : Result St :=
  match l with
  | [] => Ok st
  | x :: l' => st' ← body st x; for_each body l' st'
  end.

(** A comprehension [[f x for x in l]] whose [f] may raise. *)
Fixpoint map_result {A B} (f : A -> Result B) (l : list A) : Result (list B) :=
  match l with
  | [] => Ok []
  | x :: l' => y ← f x; ys ← map_result f l'; Ok (y :: ys)
  end.

(** ** Python built-ins *)

(** [l[i]] on a list: a negative [i] counts from the end, and an index
    outside the list raises [IndexError]. *)
Definition py_getitem {A} (l : list A) (i : Z) : Result A :=
  let n := Z.of_nat (length l) in
  if (0 <=? i)%Z then or_raise IndexError (l !! Z.to_nat i)
  else if (0 <=? i + n)%Z then or_raise IndexError (l !! Z.to_nat (i + n))
  else Raise IndexError.

(** [d[k]] on a dict: [KeyError] when the key is absent. *)
Fixpoint dict_get {V} (d : list (string * V)) (k : string) : option V :=
  match d with
  | [] => None
  | (k', v) :: d' => if String.eqb k k' then Some v else dict_get d' k
  end.

Definition dict_getitem {V} (d : list (string * V)) (k : string) : Result V :=
  or_raise KeyError (dict_get d k).

(** [k in d]. *)
Definition dict_contains {V} (d : list (string * V)) (k : string) : bool :=
  bool_decide (is_Some (dict_get d k)).

(** [d[k] = v]: a new key goes to the end, an old one keeps its place. *)
Fixpoint dict_set {V} (d : list (string * V)) (k : string) (v : V)
  : list (string * V) :=
  match d with
  | [] => [(k, v)]
  | (k', v') :: d' =>
      if String.eqb k k' then (k', v) :: d' else (k', v') :: dict_set d' k v
  end.

(** [l.index(x)]: the position of the first occurrence. *)
Fixpoint list_index `{EqDecision A} (x : A) (l : list A) : option nat :=
  match l with
  | [] => None
  | y :: l' => if decide (x = y) then Some 0 else S <$> list_index x l'
  end.

(** [l.remove(x)]: drops the first occurrence. *)
Fixpoint list_remove `{EqDecision A} (x : A) (l : list A) : list A :=
  match l with
  | [] => []
  | y :: l' => if decide (x = y) then l' else y :: list_remove x l'
  end.

(** The atoms of [mol.GetAtoms()] with their [GetIdx()]: RDKit numbers the
    atoms of a molecule from 0 in the order it yields them. *)
Fixpoint enumerate_from {A} (k : nat) (l : list A) : list (nat * A) :=
  match l with
  | [] => []
  | x :: l' => (k, x) :: enumerate_from (S k) l'
  end.

Definition enumerate {A} (l : list A) : list (nat * A) := enumerate_from 0 l.

(** [s.endswith(suffix)]. *)
Definition endswith (s suffix : string) : bool :=
  let n := String.length s in
  let k := String.length suffix in
  (k <=? n)%nat && String.eqb (String.substring (n - k) k s) suffix.

(** [s[:-4]] and [s[1:]]. *)
Definition drop_last4 (s : string) : string :=
  String.substring 0 (String.length s - 4) s.

Definition drop_first (s : string) : string :=
  match s with
  | EmptyString => EmptyString
  | String _ r => r
  end.

(** [os.path.basename]: what follows the last slash. *)
Fixpoint basename_from (cur p : string) : string :=
  match p with
  | EmptyString => cur
  | String c r =>
      if Ascii.eqb c "/"%char then basename_from EmptyString r
      else basename_from (cur +:+ String c EmptyString) r
  end.

Definition basename (p : string) : string := basename_from EmptyString p.

(** [sorted] and pandas' [sort_values] are stable: an element goes before
    the first element of the sorted rest that is not smaller. *)
Fixpoint insert_by {A} (le : A -> A -> bool) (x : A) (l : list A) : list A :=
  match l with
  | [] => [x]
  | y :: l' => if le x y then x :: l else y :: insert_by le x l'
  end.

Definition stable_sort {A} (le : A -> A -> bool) (l : list A) : list A :=
  foldr (insert_by le) [] l.

(** The code of a value in a [pd.Categorical] with the given categories: its
    position among them, and [None] (NaN) for a value that is no category. *)
Definition cat_code (categories : list string) (v : string) : option nat :=
  list_index v categories.

(** The order of [sort_values] on a categorical column followed by a column
    of integers: codes ascending with NaN last, then the integers. *)
Definition code_le (c1 c2 : option nat) : bool :=
  match c1, c2 with
  | Some a, Some b => (a <=? b)%nat
  | Some _, None => true
  | None, Some _ => false
  | None, None => true
  end.

Definition code_lt (c1 c2 : option nat) : bool := negb (code_le c2 c1).

Definition key_le (k1 k2 : option nat * nat) : bool :=
  code_lt k1.1 k2.1 || (code_le k1.1 k2.1 && (k1.2 <=? k2.2)%nat).

(** ** The constants of the module *)

Definition NO_SUBSTRUCTS : nat := 1.
Definition MOLECULE_TYPE : string := "SMALL".

Definition bond_types : list (string * string) :=
  [("AROMATIC", "ar"); ("SINGLE", "1"); ("DOUBLE", "2"); ("TRIPLE", "3")].

Definition atom_types : list (string * string) :=
  [("SP", "1"); ("SP2", "2"); ("SP3", "3"); ("AROMATIC", "ar"); ("S", "")].

(** ** RDKit objects *)

(** [rdkit.Chem.rdchem.HybridizationType]; [str_hybridization] is [str]. *)
Inductive HybridizationType : Set :=
  | HYB_UNSPECIFIED | HYB_S | HYB_SP | HYB_SP2 | HYB_SP3
  | HYB_SP2D | HYB_SP3D | HYB_SP3D2 | HYB_OTHER.

#[global] Instance HybridizationType_eq_dec : EqDecision HybridizationType.
Proof. solve_decision. Defined.

Definition str_hybridization (h : HybridizationType) : string :=
  match h with
  | HYB_UNSPECIFIED => "UNSPECIFIED"
  | HYB_S => "S"
  | HYB_SP => "SP"
  | HYB_SP2 => "SP2"
  | HYB_SP3 => "SP3"
  | HYB_SP2D => "SP2D"
  | HYB_SP3D => "SP3D"
  | HYB_SP3D2 => "SP3D2"
  | HYB_OTHER => "OTHER"
  end.

(** [rdkit.Chem.rdchem.BondType]; [str_bond_type] is [str]. *)
Inductive BondType : Set :=
  | UNSPECIFIED | SINGLE | DOUBLE | TRIPLE | QUADRUPLE | QUINTUPLE | HEXTUPLE
  | ONEANDAHALF | TWOANDAHALF | THREEANDAHALF | FOURANDAHALF | FIVEANDAHALF
  | AROMATIC | IONIC | HYDROGEN | THREECENTER | DATIVEONE | DATIVE | DATIVEL
  | DATIVER | OTHER | ZERO.

#[global] Instance BondType_eq_dec : EqDecision BondType.
Proof. solve_decision. Defined.

Definition str_bond_type (b : BondType) : string :=
  match b with
  | UNSPECIFIED => "UNSPECIFIED" | SINGLE => "SINGLE" | DOUBLE => "DOUBLE"
  | TRIPLE => "TRIPLE" | QUADRUPLE => "QUADRUPLE" | QUINTUPLE => "QUINTUPLE"
  | HEXTUPLE => "HEXTUPLE" | ONEANDAHALF => "ONEANDAHALF"
  | TWOANDAHALF => "TWOANDAHALF" | THREEANDAHALF => "THREEANDAHALF"
  | FOURANDAHALF => "FOURANDAHALF" | FIVEANDAHALF => "FIVEANDAHALF"
  | AROMATIC => "AROMATIC" | IONIC => "IONIC" | HYDROGEN => "HYDROGEN"
  | THREECENTER => "THREECENTER" | DATIVEONE => "DATIVEONE"
  | DATIVE => "DATIVE" | DATIVEL => "DATIVEL" | DATIVER => "DATIVER"
  | OTHER => "OTHER" | ZERO => "ZERO"
  end.

Record Atom : Set := {
  GetSymbol : string;
  GetAtomicNum : nat;
  GetIsAromatic : bool;
  GetHybridization : HybridizationType;
}.

Record Bond : Set := {
  GetBeginAtomIdx : nat;
  GetEndAtomIdx : nat;
  GetBondType : BondType;
}.

(** The module global [index_lookup]: unbound until [atom_block] assigns it,
    and one for all the instances of [Molecule]. *)
Record Globals : Type := {
  index_lookup : option (gmap nat nat);
}.

(** [dict(zip(keys, values))]: a later pair wins over an earlier one. *)
Definition dict_of_pairs (l : list (nat * nat)) : gmap nat nat :=
  list_to_map (reverse l).

Section Malt.

(** The type of Python's floating-point numbers. *)
Context {F : Type}.

(** An RDKit molecule: [GetPositions] is [GetConformer(0).GetPositions()],
    absent when the molecule has no conformer. *)
Record Mol : Type := {
  GetAtoms : list Atom;
  GetBonds : list Bond;
  GetPositions : option (list (F * F * F));
}.

(** The rows of the frame [tripos_atom]. *)
Record AtomRow : Type := {
  rdkit_index : nat;
  atom_name : string;
  x_coord : F;
  y_coord : F;
  z_coord : F;
  sybyl : string;
  substruct : nat;
  substruct_name : option string;
  partial_charge : string;
  atom_symbol : string;
  atom_index_label : nat;
}.

(** The rows of [atom_block_df], the columns that are printed. *)
Record AtomLine : Type := {
  line_atom_name : string;
  line_x_coord : F;
  line_y_coord : F;
  line_z_coord : F;
  line_sybyl : string;
  line_partial_charge : string;
}.

Definition atom_line (r : AtomRow) : AtomLine :=
  {| line_atom_name := atom_name r;
     line_x_coord := x_coord r;
     line_y_coord := y_coord r;
     line_z_coord := z_coord r;
     line_sybyl := sybyl r;
     line_partial_charge := partial_charge r |}.

(** The rows of the frame [tripos_bond]: after the loop, and once the
    columns [begin] and [end] are there. *)
Record BondRow : Set := {
  begin_atom_rdkit : nat;
  end_atom_rdkit : nat;
  bond_type : string;
}.

Record BondLine : Set := {
  begin : nat;
  end' : nat;
  line_bond_type : string;
}.

(** What the module calls and does not define.
    - [MolFromPDBFile]: RDKit's reader, [None] for a file it cannot parse.
    - [mol_from_xyz]: the reader of [malt/xyztomol.py].
    - [ComputeGasteigerCharges]: the property [_GasteigerCharge] of the atom
      of each index, read back as a float.
    - [csv_rows]: [list(csv.reader(file))] on the file of that name.
    - [py_int], [py_float]: [int] and [float] on a string, [None] when they
      raise [ValueError].
    - [format_3f]: ["%.3f" % x].
    - [atoms_to_string], [bonds_to_string]: [to_string(header=False)] on a
      frame whose index is the first component of each row. *)
Record World : Type := {
  MolFromPDBFile : string -> Result (option Mol);
  mol_from_xyz : string -> Result (option Mol);
  ComputeGasteigerCharges : Mol -> Result (nat -> F);
  csv_rows : string -> Result (list (list string));
  py_int : string -> option Z;
  py_float : string -> option F;
  format_3f : F -> string;
  atoms_to_string : list (nat * AtomLine) -> string;
  bonds_to_string : list (nat * BondLine) -> string;
}.

Record Molecule : Type := {
  path_to_xyz : option string;
  _mol : option Mol;
  _pdb_mol : option Mol;
  _xyz_mol : option Mol;
  charges : option (list F);
  name : option string;
  num_bonds : option nat;
  num_atoms : option nat;
  index : option Z;
  _CalculateCharges : bool;
}.

(** The same object with another structure read from the PDB file. *)
Definition with_pdb_mol (self : Molecule) (pdb : option Mol) : Molecule :=
  {| path_to_xyz := path_to_xyz self;
     _mol := _mol self;
     _pdb_mol := pdb;
     _xyz_mol := _xyz_mol self;
     charges := charges self;
     name := name self;
     num_bonds := num_bonds self;
     num_atoms := num_atoms self;
     index := index self;
     _CalculateCharges := _CalculateCharges self |}.

(** The same world with another reader of PDB files. *)
Definition with_pdb_reader (w : World)
    (reader : string -> Result (option Mol)) : World :=
  {| MolFromPDBFile := reader;
     mol_from_xyz := mol_from_xyz w;
     ComputeGasteigerCharges := ComputeGasteigerCharges w;
     csv_rows := csv_rows w;
     py_int := py_int w;
     py_float := py_float w;
     format_3f := format_3f w;
     atoms_to_string := atoms_to_string w;
     bonds_to_string := bonds_to_string w |}.

Definition set_charges (self : Molecule) (c : list F) : Molecule :=
  {| path_to_xyz := path_to_xyz self;
     _mol := _mol self;
     _pdb_mol := _pdb_mol self;
     _xyz_mol := _xyz_mol self;
     charges := Some c;
     name := name self;
     num_bonds := num_bonds self;
     num_atoms := num_atoms self;
     index := index self;
     _CalculateCharges := _CalculateCharges self |}.

Variable w : World.

(** [self._mol.<method>]: an attribute of [None] raises [AttributeError]. *)
Definition the_mol (self : Molecule) : Result Mol :=
  or_raise AttributeError (_mol self).

(** ** [get_external_charges] (lines 115-130) *)

(** The method returns the object with its new charges.  Line 127 first
    stores the row as it was read; that value is seen only when [float]
    raises on a field, and then the result here is the exception. *)
Definition get_external_charges (self : Molecule) (filename : string)
  : Result Molecule :=
  all_charges ← csv_rows w filename;
  i ← or_raise TypeError (index self);
  row ← py_getitem all_charges (i - 1)%Z;
  parsed ← map_result (fun charge => or_raise ValueError (py_float w charge)) row;
  Ok (set_charges self parsed).

(** ** [__init__] (lines 40-84) *)

(** What the loop over [args] assigns. *)
Record InitLocals : Type := {
  l_path_to_xyz : option string;
  l_pdb_mol : option Mol;
  l_xyz_mol : option Mol;
  l_name : option string;
  l_index : option Z;
  path_to_charges : option string;
}.

Definition init_locals : InitLocals :=
  {| l_path_to_xyz := None; l_pdb_mol := None; l_xyz_mol := None;
     l_name := None; l_index := None; path_to_charges := None |}.

Definition init_arg (CalculateCharges : bool) (st : InitLocals) (arg : string)
  : Result InitLocals :=
  if endswith arg ".pdb" then
    pdb ← MolFromPDBFile w arg;
    let nm := drop_last4 (basename arg) in
    i ← or_raise ValueError (py_int w (drop_first nm));
    Ok {| l_path_to_xyz := l_path_to_xyz st; l_pdb_mol := pdb;
          l_xyz_mol := l_xyz_mol st; l_name := Some nm; l_index := Some i;
          path_to_charges := path_to_charges st |}
  else if endswith arg ".xyz" then
    xyz ← mol_from_xyz w arg;
    Ok {| l_path_to_xyz := Some arg; l_pdb_mol := l_pdb_mol st;
          l_xyz_mol := xyz; l_name := l_name st; l_index := l_index st;
          path_to_charges := path_to_charges st |}
  else if negb CalculateCharges then
    Ok {| l_path_to_xyz := l_path_to_xyz st; l_pdb_mol := l_pdb_mol st;
          l_xyz_mol := l_xyz_mol st; l_name := l_name st;
          l_index := l_index st; path_to_charges := Some arg |}
  else Ok st.

Definition __init__ (args : list string) (CalculateCharges : bool)
  : Result Molecule :=
  st ← for_each (init_arg CalculateCharges) args init_locals;
  let mol_field := if l_xyz_mol st is Some _ then l_xyz_mol st else None in
  mol ← or_raise AttributeError mol_field;
  let self :=
    {| path_to_xyz := l_path_to_xyz st;
       _mol := mol_field;
       _pdb_mol := l_pdb_mol st;
       _xyz_mol := l_xyz_mol st;
       charges := None;
       name := l_name st;
       num_bonds := Some (length (GetBonds mol));
       num_atoms := Some (length (GetAtoms mol));
       index := l_index st;
       _CalculateCharges := CalculateCharges |} in
  if CalculateCharges then
    charge_of ← ComputeGasteigerCharges w mol;
    Ok (set_charges self (charge_of <$> seq 0 (length (GetAtoms mol))))
  else
    path ← or_raise UnboundLocalError (path_to_charges st);
    get_external_charges self path.

(** ** [elements] (lines 87-101) and [elements_by_index] (lines 103-113) *)

Definition element_dict (atoms : list Atom) : list (string * nat) :=
  foldl (fun d atom =>
           if dict_contains d (GetSymbol atom) then d
           else dict_set d (GetSymbol atom) (GetAtomicNum atom))
        [] atoms.

Definition elements_of (atoms : list Atom) : list string :=
  let sorted :=
    stable_sort (fun x y => (x.2 <=? y.2)%nat) (element_dict atoms) in
  let elements := sorted.*1 in
  if bool_decide ("H" ∈ elements) then list_remove "H" elements ++ ["H"]
  else elements.

Definition elements (self : Molecule) : Result (list string) :=
  mol ← the_mol self;
  Ok (elements_of (GetAtoms mol)).

Definition mol_by_elements_of (atoms : list Atom) : list (string * list nat) :=
  foldl (fun d '(idx, atom) =>
           let symbol := GetSymbol atom in
           let d := if dict_contains d symbol then d else dict_set d symbol [] in
           dict_set d symbol (default [] (dict_get d symbol) ++ [idx]))
        [] (enumerate atoms).

Definition elements_by_index (self : Molecule)
  : Result (list (string * list nat)) :=
  mol ← the_mol self;
  Ok (mol_by_elements_of (GetAtoms mol)).

(** ** [coords] (lines 132-138) *)

Definition positions_of (m : Mol) : Result (list (F * F * F)) :=
  or_raise ValueError (GetPositions m).

Definition coords (self : Molecule) : Result (list (F * F * F)) :=
  match _xyz_mol self with
  | Some xyz => positions_of xyz
  | None => mol ← the_mol self; positions_of mol
  end.

(** ** [atom_block] (lines 158-216) *)

(** The sybyl code (lines 185-191).  [prev] is what the local variable
    [sybyl] holds from the atoms before, [None] while it is unbound: a
    carbon or a nitrogen that is not aromatic assigns nothing. *)
Definition sybyl_step (prev : option string) (atom : Atom)
  : Result (option string) :=
  let symbol := GetSymbol atom in
  if String.eqb symbol "C" || String.eqb symbol "N" then
    if GetIsAromatic atom then Ok (Some (symbol +:+ ".ar")) else Ok prev
  else if String.eqb symbol "H" then Ok (Some "H")
  else
    code ← dict_getitem atom_types (str_hybridization (GetHybridization atom));
    Ok (Some (symbol +:+ "." +:+ code)).

(** One turn of the loop over the atoms (lines 170-198): the state is the
    frame so far and the local variable [sybyl]. *)
Definition atom_row (self : Molecule) (mol_by_elements : list (string * list nat))
    (st : list AtomRow * option string) (ia : nat * Atom)
  : Result (list AtomRow * option string) :=
  let idx := ia.1 in
  let atom := ia.2 in
  let symbol := GetSymbol atom in
  cs ← or_raise TypeError (charges self);
  charge ← or_raise IndexError (cs !! idx);
  pos ← coords self;
  p ← or_raise IndexError (pos !! idx);
  ids ← dict_getitem mol_by_elements symbol;
  k ← or_raise ValueError (list_index idx ids);
  let label := k + 1 in
  cur ← sybyl_step st.2 atom;
  sy ← or_raise UnboundLocalError cur;
  Ok (st.1 ++ [ {| rdkit_index := idx;
                   atom_name := symbol +:+ pretty label;
                   x_coord := p.1.1;
                   y_coord := p.1.2;
                   z_coord := p.2;
                   sybyl := sy;
                   substruct := NO_SUBSTRUCTS;
                   substruct_name := name self;
                   partial_charge := format_3f w charge;
                   atom_symbol := symbol;
                   atom_index_label := label |} ],
      cur).

Definition atom_rows (self : Molecule) : Result (list AtomRow) :=
  mol_by_elements ← elements_by_index self;
  mol ← the_mol self;
  st ← for_each (atom_row self mol_by_elements)
                (enumerate (GetAtoms mol)) ([], None);
  Ok st.1.

Definition atom_key (categories : list string) (r : AtomRow) : option nat * nat :=
  (cat_code categories (atom_symbol r), atom_index_label r).

(** The frame [tripos_atom] once sorted (lines 201-202). *)
Definition tripos_atom (self : Molecule) : Result (list AtomRow) :=
  rows ← atom_rows self;
  categories ← elements self;
  Ok (stable_sort
        (fun r1 r2 => key_le (atom_key categories r1) (atom_key categories r2))
        rows).

(** [frame.index = np.arange(1, len(frame)+1)]. *)
Definition number_rows {A} (rows : list A) : list (nat * A) :=
  zip (seq 1 (length rows)) rows.

Definition newline : string := String (ascii_of_nat 10) EmptyString.

(** [atom_block] returns the text of the block and assigns the global
    [index_lookup] (lines 206-208); when it raises, the global is as it
    was. *)
Definition atom_block (self : Molecule) (g : Globals) : Result string * Globals :=
  match tripos_atom self with
  | Raise e => (Raise e, g)
  | Ok rows =>
      let index_mapper := zip (rdkit_index <$> rows) (seq 1 (length rows)) in
      (Ok ("@<TRIPOS>ATOM" +:+ newline
           +:+ atoms_to_string w (number_rows (atom_line <$> rows)) +:+ newline),
       {| index_lookup := Some (dict_of_pairs index_mapper) |})
  end.

(** ** [bond_block] (lines 218-243) *)

(** One turn of the loop over the bonds (lines 222-231). *)
Definition bond_row (bond : Bond) : Result BondRow :=
  bt ← dict_getitem bond_types (str_bond_type (GetBondType bond));
  Ok {| begin_atom_rdkit := GetBeginAtomIdx bond;
        end_atom_rdkit := GetEndAtomIdx bond;
        bond_type := bt |}.

(** [index_lookup[k]] in the lambda of lines 234-235: the global is read
    when the lambda runs, [NameError] while it is unbound. *)
Definition lookup_row (g : Globals) (k : nat) : Result nat :=
  lk ← or_raise NameError (index_lookup g);
  or_raise KeyError (lk !! k).

Definition bond_key (l : BondLine) : option nat * nat :=
  (cat_code bond_types.*2 (line_bond_type l), begin l).

(** The frame [tripos_bond] once sorted (lines 219-239).  On a frame
    without rows [DataFrame.apply(..., axis=1)] does not run the lambda: it
    returns a copy of the frame, three columns wide, and the assignment of
    that to the one column [begin] raises [ValueError]. *)
Definition tripos_bond (self : Molecule) (g : Globals) : Result (list BondLine) :=
  mol ← the_mol self;
  rows ← map_result bond_row (GetBonds mol);
  if rows is [] then Raise ValueError
  else
    begins ← map_result (fun r => lookup_row g (begin_atom_rdkit r)) rows;
    ends ← map_result (fun r => lookup_row g (end_atom_rdkit r)) rows;
    let lines :=
      zip_with (fun r be => {| begin := be.1; end' := be.2;
                               line_bond_type := bond_type r |})
               rows (zip begins ends) in
    Ok (stable_sort (fun l1 l2 => key_le (bond_key l1) (bond_key l2)) lines).

Definition bond_block (self : Molecule) (g : Globals) : Result string :=
  lines ← tripos_bond self g;
  Ok ("@<TRIPOS>BOND" +:+ newline
      +:+ bonds_to_string w (number_rows lines) +:+ newline).

End Malt.

Arguments Mol : clear implicits.
Arguments AtomRow : clear implicits.
Arguments AtomLine : clear implicits.
Arguments World : clear implicits.
Arguments Molecule : clear implicits.
Arguments InitLocals : clear implicits.

(** ** The vocabulary of the statements *)

(** A molecule of RDKit gives two atoms the same symbol exactly when they
    have the same atomic number. *)
Definition symbols_valid (atoms : list Atom) : Prop :=
  forall a b, a ∈ atoms -> b ∈ atoms ->
    GetSymbol a = GetSymbol b <-> GetAtomicNum a = GetAtomicNum b.

(** The atoms of symbol [s1] have a smaller atomic number than those of
    symbol [s2]. *)
Definition atomic_num_lt (atoms : list Atom) (s1 s2 : string) : Prop :=
  forall a1 a2, a1 ∈ atoms -> a2 ∈ atoms ->
    GetSymbol a1 = s1 -> GetSymbol a2 = s2 -> GetAtomicNum a1 < GetAtomicNum a2.

(** [lk] is one-to-one from the native indices [0 .. n-1] onto the output
    rows [1 .. n]. *)
Definition index_bijection (lk : gmap nat nat) (n : nat) : Prop :=
  (forall i r, lk !! i = Some r -> i < n /\ 1 <= r <= n)
  /\ (forall i, i < n -> is_Some (lk !! i))
  /\ (forall i j r, lk !! i = Some r -> lk !! j = Some r -> i = j)
  /\ (forall r, 1 <= r <= n -> exists i, lk !! i = Some r).

(** The fixed precedence of the bond-type codes. *)
Definition precedence : list string := ["ar"; "1"; "2"; "3"].

(** The order of the lines of the block: by the rank of the bond-type code in
    [precedence], then by the begin row. *)
Definition bond_line_le (l1 l2 : BondLine) : Prop :=
  exists r1 r2,
    list_index (line_bond_type l1) precedence = Some r1
    /\ list_index (line_bond_type l2) precedence = Some r2
    /\ (r1 < r2 \/ (r1 = r2 /\ begin l1 <= begin l2)).

(** [l] is the line of the bond [b]: its ends through the mapping [lk] and
    the code of its type. *)
Definition bond_line_of (lk : gmap nat nat) (b : Bond) (l : BondLine) : Prop :=
  lk !! GetBeginAtomIdx b = Some (begin l)
  /\ lk !! GetEndAtomIdx b = Some (end' l)
  /\ dict_get bond_types (str_bond_type (GetBondType b)) = Some (line_bond_type l).

(** The locals of two runs of the loop over the arguments agree but for the
    structure read from the PDB file. *)
Definition locals_agree {F} (st st' : InitLocals F) : Prop :=
  l_path_to_xyz st = l_path_to_xyz st'
  /\ l_xyz_mol st = l_xyz_mol st'
  /\ l_name st = l_name st'
  /\ l_index st = l_index st'
  /\ path_to_charges st = path_to_charges st'.

(** The code [atom_types] gives to a hybridization. *)
Definition sybyl_code (h : HybridizationType) : option string :=
  match h with
  | HYB_SP => Some "1"
  | HYB_SP2 => Some "2"
  | HYB_SP3 => Some "3"
  | HYB_S => Some ""
  | _ => None
  end.

(** The sybyl type [sy] is the one of the classification for [atom]; what
    it is for a carbon or a nitrogen that is not aromatic is left open. *)
Definition sybyl_classified (atom : Atom) (sy : string) : Prop :=
  ((GetSymbol atom = "C" \/ GetSymbol atom = "N") ->
     GetIsAromatic atom = true -> sy = GetSymbol atom +:+ ".ar")
  /\ (GetSymbol atom = "H" -> sy = "H")
  /\ (GetSymbol atom ∉ ["C"; "N"; "H"] ->
        exists code,
          sybyl_code (GetHybridization atom) = Some code
          /\ sy = GetSymbol atom +:+ "." +:+ code).

(** The row is the one of an atom of the molecule, with a sybyl type of the
    classification. *)
Definition row_classified {F} (all_atoms : list Atom) (r : AtomRow F) : Prop :=
  exists atom,
    all_atoms !! rdkit_index r = Some atom /\ sybyl_classified atom (sybyl r).


(** The classification of lines 185-191 assigns a sybyl type to the atom: a
    carbon or a nitrogen is aromatic, and an atom that is neither of them nor
    a hydrogen has a hybridization that [atom_types] maps. *)
Definition sybyl_assigned (atom : Atom) : Prop :=
  if String.eqb (GetSymbol atom) "C" || String.eqb (GetSymbol atom) "N"
  then GetIsAromatic atom = true
  else if String.eqb (GetSymbol atom) "H" then True
  else is_Some (sybyl_code (GetHybridization atom)).

(** ** [molecule_block] (lines 140-156) *)

(** [f'{o}'] for an attribute that may still be [None]. *)
Definition str_option {A} (str : A -> string) (o : option A) : string :=
  match o with
  | Some a => str a
  | None => "None"
  end.

Definition molecule_block {F} (self : Molecule F) : string :=
  let charge_type := if _CalculateCharges self then "GASTEIGER" else "DFT" in
  "@<TRIPOS>MOLECULE" +:+ newline
  +:+ str_option id (name self) +:+ newline
  +:+ str_option pretty (num_atoms self) +:+ " "
  +:+ str_option pretty (num_bonds self) +:+ " "
  +:+ pretty NO_SUBSTRUCTS +:+ " 0 0" +:+ newline
  +:+ MOLECULE_TYPE +:+ newline
  +:+ charge_type +:+ newline.

(** ** More vocabulary *)

(** The branch of the loop of [__init__] that an argument takes. *)
Definition reads_pdb (arg : string) : Prop := endswith arg ".pdb" = true.

Definition reads_xyz (arg : string) : Prop :=
  endswith arg ".pdb" = false /\ endswith arg ".xyz" = true.

Definition reads_other (arg : string) : Prop :=
  endswith arg ".pdb" = false /\ endswith arg ".xyz" = false.

(** The native indices, counted from [k], of the atoms of symbol [s]. *)
Fixpoint indices_from (k : nat) (atoms : list Atom) (s : string) : list nat :=
  match atoms with
  | [] => []
  | a :: atoms' =>
      if String.eqb s (GetSymbol a) then k :: indices_from (S k) atoms' s
      else indices_from (S k) atoms' s
  end.

(** The order of the rows of the ATOM block: by the place of the symbol in
    [categories], then by the label. *)
Definition atom_row_le {F} (categories : list string) (r1 r2 : AtomRow F) : Prop :=
  exists c1 c2,
    list_index (atom_symbol r1) categories = Some c1
    /\ list_index (atom_symbol r2) categories = Some c2
    /\ (c1 < c2 \/ (c1 = c2 /\ atom_index_label r1 <= atom_index_label r2)).

(** A carbon or a nitrogen that is not aromatic: the classification of
    lines 185-191 assigns it nothing. *)
Definition sybyl_unassigned (atom : Atom) : Prop :=
  (GetSymbol atom = "C" \/ GetSymbol atom = "N") /\ GetIsAromatic atom = false.

(** The row [r] of the ATOM frame holds what the molecule has for the atom of
    its native index: the symbol, the label (one more than the number of atoms
    of the same symbol before it), the name made of both, the position and the
    formatted charge. *)
Definition row_content {F} (w : World F) (self : Molecule F)
    (atoms : list Atom) (r : AtomRow F) : Prop :=
  exists a cs charge pos p,
    atoms !! rdkit_index r = Some a
    /\ charges self = Some cs
    /\ cs !! rdkit_index r = Some charge
    /\ coords self = Ok pos
    /\ pos !! rdkit_index r = Some p
    /\ atom_symbol r = GetSymbol a
    /\ atom_index_label r
       = S (length (filter (fun b => GetSymbol b = GetSymbol a)
                           (take (rdkit_index r) atoms)))
    /\ atom_name r = GetSymbol a +:+ pretty (atom_index_label r)
    /\ (x_coord r, y_coord r, z_coord r) = p
    /\ partial_charge r = format_3f w charge
    /\ substruct r = NO_SUBSTRUCTS
    /\ substruct_name r = name self.

(** In the frame in native order, the sybyl type of each row but the first
    is what the classification makes of the type of the row before it and of
    the atom of the row. *)
Definition sybyl_chain {F} (atoms : list Atom) (rows : list (AtomRow F)) : Prop :=
  forall j r0 r a,
    rows !! j = Some r0 -> rows !! S j = Some r -> atoms !! S j = Some a ->
    sybyl_step (Some (sybyl r0)) a = Ok (Some (sybyl r)).

(** The loop of [__init__] gets past the argument: a file it reads is read
    without an exception, and the name of a PDB file gives an index. *)
Definition loop_accepts {F} (w : World F) (arg : string) : Prop :=
  (reads_pdb arg
   /\ exists pdb i,
        MolFromPDBFile w arg = Ok pdb
        /\ py_int w (drop_first (drop_last4 (basename arg))) = Some i)
  \/ (reads_xyz arg /\ exists xyz, mol_from_xyz w arg = Ok xyz)
  \/ reads_other arg.

(** ** Example inputs *)

Module Ex.

Import Stdlib.QArith.QArith_base.
Local Close Scope Q_scope.

Definition atom (symbol : string) (num : nat) (aromatic : bool)
    (h : HybridizationType) : Atom :=
  {| GetSymbol := symbol; GetAtomicNum := num; GetIsAromatic := aromatic;
     GetHybridization := h |}.

Definition bond (b e : nat) (t : BondType) : Bond :=
  {| GetBeginAtomIdx := b; GetEndAtomIdx := e; GetBondType := t |}.

(** Water, written oxygen first and written hydrogen first. *)
Definition water_OHH : Mol Q :=
  {| GetAtoms := [atom "O" 8 false HYB_SP3; atom "H" 1 false HYB_S;
                  atom "H" 1 false HYB_S];
     GetBonds := [bond 0 1 SINGLE; bond 0 2 SINGLE];
     GetPositions := Some [(0, 0, 0.12); (0, 0.76, -0.48); (0, -0.76, -0.48)]%Q |}.

Definition water_HOH : Mol Q :=
  {| GetAtoms := [atom "H" 1 false HYB_S; atom "O" 8 false HYB_SP3;
                  atom "H" 1 false HYB_S];
     GetBonds := [bond 0 1 SINGLE; bond 2 1 SINGLE];
     GetPositions := Some [(0, 0.76, -0.48); (0, 0, 0.12); (0, -0.76, -0.48)]%Q |}.

(** A ring fragment: an aromatic carbon and nitrogen, two hydrogens, an
    oxygen. *)
Definition ring_fragment : Mol Q :=
  {| GetAtoms := [atom "C" 6 true HYB_SP2; atom "H" 1 false HYB_S;
                  atom "H" 1 false HYB_S; atom "N" 7 true HYB_SP2;
                  atom "O" 8 false HYB_SP3];
     GetBonds := [bond 0 1 SINGLE; bond 3 0 AROMATIC; bond 4 0 DOUBLE;
                  bond 3 2 SINGLE];
     GetPositions := Some [(0, 0, 0); (1, 0, 0); (2, 0, 0); (3, 0, 0);
                           (4, 0, 0)]%Q |}.

(** The atoms C, H, H, N, none aromatic. *)
Definition methanimine_atoms : list Atom :=
  [atom "C" 6 false HYB_SP2; atom "H" 1 false HYB_S; atom "H" 1 false HYB_S;
   atom "N" 7 false HYB_SP2].

(** An oxygen followed by a carbon that is not aromatic. *)
Definition methanol_heavy : Mol Q :=
  {| GetAtoms := [atom "O" 8 false HYB_SP3; atom "C" 6 false HYB_SP3];
     GetBonds := [bond 0 1 SINGLE];
     GetPositions := Some [(0, 0, 0); (1.43, 0, 0)]%Q |}.

(** A sulfur of hybridization SP3D2, as in sulfur hexafluoride. *)
Definition sulfur_sp3d2 : Mol Q :=
  {| GetAtoms := [atom "S" 16 false HYB_SP3D2];
     GetBonds := [];
     GetPositions := Some [(0, 0, 0)]%Q |}.

Definition files_xyz : list (string * Mol Q) :=
  [("m1.xyz", water_OHH); ("m2.xyz", water_HOH); ("m3.xyz", ring_fragment);
   ("m4.xyz", methanol_heavy); ("m5.xyz", sulfur_sp3d2)].

Definition files_csv : list (string * list (list string)) :=
  [("charges.csv", [["0.1"; "0.2"; "0.3"]; ["0.4"; "0.5"; "0.6"]]);
   ("short.csv", [["0.1"; "0.2"]; ["0.4"; "0.5"]])].

Definition floats : list (string * Q) :=
  [("0.1", 0.1); ("0.2", 0.2); ("0.3", 0.3); ("0.4", 0.4); ("0.5", 0.5);
   ("0.6", 0.6)]%Q.

(** The charges 0.4, 0.5, 0.6 and the charges 0.1, 0.2. *)
Definition charges_04_05_06 : list Q := [0.4; 0.5; 0.6]%Q.
Definition charges_01_02 : list Q := [0.1; 0.2]%Q.

Definition ints : list (string * Z) :=
  [("1", 1); ("2", 2); ("3", 3); ("4", 4); ("5", 5)]%Z.

Definition show_bond_line (r : nat * BondLine) : string :=
  pretty r.1 +:+ " " +:+ pretty (begin r.2) +:+ " " +:+ pretty (end' r.2)
  +:+ " " +:+ line_bond_type r.2.

Definition show_atom_line (r : nat * AtomLine Q) : string :=
  pretty r.1 +:+ " " +:+ line_atom_name r.2 +:+ " " +:+ line_sybyl r.2
  +:+ " " +:+ line_partial_charge r.2.

Fixpoint join_lines (l : list string) : string :=
  match l with
  | [] => ""
  | [s] => s
  | s :: l' => s +:+ newline +:+ join_lines l'
  end.

(** A world with five structures, two files of charges, the few numerals
    these need and a plain rendering of the frames. *)
Definition world : World Q :=
  {| MolFromPDBFile := fun _ => Ok None;
     mol_from_xyz := fun path => Ok (dict_get files_xyz path);
     ComputeGasteigerCharges := fun _ => Ok (fun _ => 0%Q);
     csv_rows := fun path => or_raise OSError (dict_get files_csv path);
     py_int := dict_get ints;
     py_float := dict_get floats;
     format_3f := fun _ => "0.000";
     atoms_to_string := fun rows => join_lines (show_atom_line <$> rows);
     bonds_to_string := fun rows => join_lines (show_bond_line <$> rows) |}.

(** No call of [atom_block] has run yet. *)
Definition fresh : Globals := {| index_lookup := None |}.

(** The object the constructor returns for the structure [m] read from the
    file [xyz]. *)
Definition molecule (nm : option string) (idx : option Z) (xyz : string)
    (m : Mol Q) (CalculateCharges : bool) (ch : list Q) : Molecule Q :=
  {| path_to_xyz := Some xyz;
     _mol := Some m;
     _pdb_mol := None;
     _xyz_mol := Some m;
     charges := Some ch;
     name := nm;
     num_bonds := Some (length (GetBonds m));
     num_atoms := Some (length (GetAtoms m));
     index := idx;
     _CalculateCharges := CalculateCharges |}.

Definition ring : Molecule Q :=
  molecule None None "m3.xyz" ring_fragment true [0; 0; 0; 0; 0]%Q.

Definition water1 : Molecule Q :=
  molecule (Some "m1") (Some 1%Z) "m1.xyz" water_OHH false [0.1; 0.2]%Q.

Definition water2 : Molecule Q :=
  molecule (Some "m2") (Some 2%Z) "m2.xyz" water_HOH true [0; 0; 0]%Q.

Definition methanimine : Molecule Q :=
  molecule None None "methanimine.xyz"
    {| GetAtoms := methanimine_atoms; GetBonds := []; GetPositions := None |}
    true [0; 0; 0; 0]%Q.

(** What [atom_block] on [ring] leaves in [index_lookup]. *)
Definition ring_lookup : gmap nat nat :=
  dict_of_pairs [(0, 1); (3, 2); (4, 3); (1, 4); (2, 5)].

Definition ring_block : string :=
  "@<TRIPOS>ATOM" +:+ newline +:+ "1 C1 C.ar 0.000" +:+ newline
  +:+ "2 N1 N.ar 0.000" +:+ newline +:+ "3 O1 O.3 0.000" +:+ newline
  +:+ "4 H1 H 0.000" +:+ newline +:+ "5 H2 H 0.000" +:+ newline.

(** The locals of the constructor after the arguments [m1.pdb], [m1.xyz]
    and [short.csv]. *)
Definition water1_locals : InitLocals Q :=
  {| l_path_to_xyz := Some "m1.xyz"; l_pdb_mol := None;
     l_xyz_mol := Some water_OHH; l_name := Some "m1"; l_index := Some 1%Z;
     path_to_charges := Some "short.csv" |}.

End Ex.

(** ** More example inputs *)

Module Ex2.

Import Stdlib.QArith.QArith_base.
Local Close Scope Q_scope.

(** The world of [Ex] with every CSV file holding the given rows. *)
Definition world_csv (rows : list (list string)) : World Q :=
  {| MolFromPDBFile := MolFromPDBFile Ex.world;
     mol_from_xyz := mol_from_xyz Ex.world;
     ComputeGasteigerCharges := ComputeGasteigerCharges Ex.world;
     csv_rows := fun _ => Ok rows;
     py_int := py_int Ex.world;
     py_float := py_float Ex.world;
     format_3f := format_3f Ex.world;
     atoms_to_string := atoms_to_string Ex.world;
     bonds_to_string := bonds_to_string Ex.world |}.

Definition two_rows : list (list string) :=
  [["0.1"; "0.2"; "0.3"]; ["0.4"; "0.5"; "0.6"]].

(** A row with a field that is no number. *)
Definition bad_rows : list (list string) := [["0.1"; "n/a"; "0.3"]].

(** Water from [m0.pdb] and from [m3.pdb]: the indices 0 and 3. *)
Definition water0 : Molecule Q :=
  Ex.molecule (Some "m0") (Some 0%Z) "m1.xyz" Ex.water_OHH false [].

Definition water3 : Molecule Q :=
  Ex.molecule (Some "m3") (Some 3%Z) "m1.xyz" Ex.water_OHH false [].

(** Water from [m2.pdb] and [m2.xyz] with the charges of the second row of
    [charges.csv]. *)
Definition water2_dft : Molecule Q :=
  Ex.molecule (Some "m2") (Some 2%Z) "m2.xyz" Ex.water_HOH false
    Ex.charges_04_05_06.

(** The atoms C, H, H, N of [Ex.methanimine_atoms] with positions. *)
Definition methanimine_positions : list (Q * Q * Q) :=
  [(0, 0, 0); (1, 0, 0); (0, 1, 0); (0, 0, 1)]%Q.

Definition methanimine_xyz : Mol Q :=
  {| GetAtoms := Ex.methanimine_atoms;
     GetBonds := [Ex.bond 0 1 SINGLE; Ex.bond 0 2 SINGLE; Ex.bond 0 3 DOUBLE];
     GetPositions := Some methanimine_positions |}.

Definition methanimine : Molecule Q :=
  Ex.molecule None None "methanimine.xyz" methanimine_xyz true [0; 0; 0; 0]%Q.

(** The oxygen and the carbon of [m4.xyz], and the two rows of their ATOM
    frame. *)
Definition methanol : Molecule Q :=
  Ex.molecule None None "m4.xyz" Ex.methanol_heavy true [0; 0]%Q.

Definition methanol_O_row : AtomRow Q :=
  {| rdkit_index := 0; atom_name := "O1";
     x_coord := 0%Q; y_coord := 0%Q; z_coord := 0%Q;
     sybyl := "O.3"; substruct := 1; substruct_name := None;
     partial_charge := "0.000"; atom_symbol := "O"; atom_index_label := 1 |}.

Definition methanol_C_row : AtomRow Q :=
  {| rdkit_index := 1; atom_name := "C1";
     x_coord := 1.43%Q; y_coord := 0%Q; z_coord := 0%Q;
     sybyl := "O.3"; substruct := 1; substruct_name := None;
     partial_charge := "0.000"; atom_symbol := "C"; atom_index_label := 1 |}.

(** The sulfur of [m5.xyz]. *)
Definition sulfur : Molecule Q :=
  Ex.molecule None None "m5.xyz" Ex.sulfur_sp3d2 true [0]%Q.

(** A nitrogen and a boron joined by a dative bond. *)
Definition dative_pair : Mol Q :=
  {| GetAtoms := [Ex.atom "N" 7 true HYB_SP3; Ex.atom "B" 5 false HYB_SP3];
     GetBonds := [Ex.bond 0 1 DATIVE];
     GetPositions := Some [(0, 0, 0); (1.6, 0, 0)]%Q |}.

Definition dative : Molecule Q :=
  Ex.molecule None None "dative.xyz" dative_pair true [0; 0]%Q.

(** The positions of [Ex.sulfur_sp3d2], of [Ex.water_OHH] and of
    [Ex.ring_fragment], and the charges of [Ex.ring]. *)
Definition origin : list (Q * Q * Q) := [(0, 0, 0)]%Q.

Definition water_positions : list (Q * Q * Q) :=
  [(0, 0, 0.12); (0, 0.76, -0.48); (0, -0.76, -0.48)]%Q.

Definition ring_positions : list (Q * Q * Q) :=
  [(0, 0, 0); (1, 0, 0); (2, 0, 0); (3, 0, 0); (4, 0, 0)]%Q.

Definition ring_charges : list Q := [0; 0; 0; 0; 0]%Q.

(** What [atom_block] on a water leaves in [index_lookup]. *)
Definition water_lookup : gmap nat nat := dict_of_pairs [(0, 1); (1, 2); (2, 3)].

End Ex2.
(** * Properties *)

(** ** The stable sort *)

Section StableSort.

Context {A : Type} (le : A -> A -> bool).

Lemma insert_by_perm (x : A) (l : list A) : insert_by le x l ≡ₚ x :: l.
Proof.
  induction l as [|y l IH]; simpl; [done|].
  destruct (le x y); [done|].
  rewrite IH. apply Permutation_swap.
Qed.

Lemma stable_sort_perm (l : list A) : stable_sort le l ≡ₚ l.
Proof.
  induction l as [|x l IH]; simpl; [done|].
  fold (stable_sort le l). by rewrite insert_by_perm, IH.
Qed.

Lemma stable_sort_length (l : list A) : length (stable_sort le l) = length l.
Proof. by rewrite stable_sort_perm. Qed.

Hypothesis le_total : forall x y, le x y = true \/ le y x = true.
Hypothesis le_trans : forall x y z, le x y = true -> le y z = true -> le x z = true.

Lemma insert_by_sorted (x : A) (l : list A) :
  StronglySorted (fun a b => le a b = true) l ->
  StronglySorted (fun a b => le a b = true) (insert_by le x l).
Proof.
  induction 1 as [|y l Hs IH Hy]; simpl.
  - repeat constructor.
  - destruct (le x y) eqn:Hxy.
    + constructor; [by constructor|].
      constructor; [done|].
      eapply Forall_impl; [exact Hy|]. intros z Hz. by eapply le_trans.
    + constructor; [done|].
      rewrite insert_by_perm. constructor; [|done].
      destruct (le_total x y); congruence.
Qed.

Lemma stable_sort_sorted (l : list A) :
  StronglySorted (fun a b => le a b = true) (stable_sort le l).
Proof.
  induction l as [|x l IH]; simpl; [constructor|].
  by apply insert_by_sorted.
Qed.

End StableSort.

Lemma key_le_total (k1 k2 : option nat * nat) :
  key_le k1 k2 = true \/ key_le k2 k1 = true.
Proof.
  destruct k1 as [[a|] m], k2 as [[b|] n]; unfold key_le, code_lt, code_le; simpl;
    repeat match goal with
           | |- context [(?x <=? ?y)%nat] => destruct (Nat.leb_spec x y)
           end; simpl; auto; lia.
Qed.

Lemma key_le_trans (k1 k2 k3 : option nat * nat) :
  key_le k1 k2 = true -> key_le k2 k3 = true -> key_le k1 k3 = true.
Proof.
  destruct k1 as [[a|] m], k2 as [[b|] n], k3 as [[c|] p];
    unfold key_le, code_lt, code_le; simpl;
    repeat match goal with
           | |- context [(?x <=? ?y)%nat] => destruct (Nat.leb_spec x y)
           end; simpl; auto; try discriminate; lia.
Qed.

(** What [key_le] says of two keys whose codes are not NaN. *)
Lemma key_le_Some (a b m n : nat) :
  key_le (Some a, m) (Some b, n) = true <-> a < b \/ (a = b /\ m <= n).
Proof.
  unfold key_le, code_lt, code_le; simpl.
  repeat match goal with
         | |- context [(?x <=? ?y)%nat] => destruct (Nat.leb_spec x y)
         end; simpl; split; intros; try discriminate; auto; lia.
Qed.

(** ** Dicts and lists *)

Lemma dict_get_elem_of {V} (d : list (string * V)) k v :
  dict_get d k = Some v -> (k, v) ∈ d.
Proof.
  induction d as [|[k' v'] d IH]; simpl; [done|].
  destruct (String.eqb_spec k k') as [->|Hne].
  - intros [= ->]. left.
  - intros H. right. auto.
Qed.

Lemma dict_get_None {V} (d : list (string * V)) k :
  dict_get d k = None <-> k ∉ d.*1.
Proof.
  induction d as [|[k' v'] d IH]; simpl.
  - split; [intros _; apply not_elem_of_nil|done].
  - rewrite not_elem_of_cons. destruct (String.eqb_spec k k') as [->|Hne].
    + split; [done|]. by intros [? _].
    + rewrite IH. tauto.
Qed.

Lemma dict_contains_spec {V} (d : list (string * V)) k :
  dict_contains d k = true <-> k ∈ d.*1.
Proof.
  unfold dict_contains. rewrite bool_decide_eq_true.
  destruct (dict_get d k) as [v|] eqn:E.
  - split; [intros _|by eauto].
    apply dict_get_elem_of in E. apply list_elem_of_fmap. by exists (k, v).
  - split; [by intros [? ?]|]. intros H. by apply dict_get_None in E.
Qed.

Lemma dict_get_NoDup {V} (d : list (string * V)) k v :
  NoDup d.*1 -> (k, v) ∈ d -> dict_get d k = Some v.
Proof.
  induction d as [|[k' v'] d IH]; simpl; [by intros _ ?%elem_of_nil|].
  rewrite NoDup_cons, elem_of_cons. intros [Hk Hd] [[= <- <-]|Hin].
  - by rewrite String.eqb_refl.
  - destruct (String.eqb_spec k k') as [->|Hne]; [|by auto].
    destruct Hk. apply list_elem_of_fmap. by exists (k', v).
Qed.

Lemma dict_set_fresh {V} (d : list (string * V)) k v :
  k ∉ d.*1 -> dict_set d k v = d ++ [(k, v)].
Proof.
  induction d as [|[k' v'] d IH]; simpl; [done|].
  rewrite not_elem_of_cons. intros [Hne Hd].
  destruct (String.eqb_spec k k'); [done|]. by rewrite IH.
Qed.

Lemma list_remove_sublist `{EqDecision A} (x : A) (l : list A) :
  list_remove x l `sublist_of` l.
Proof.
  induction l as [|y l IH]; simpl; [done|].
  destruct (decide (x = y)); [by apply sublist_cons|by apply sublist_skip].
Qed.

Lemma list_remove_perm `{EqDecision A} (x : A) (l : list A) :
  x ∈ l -> list_remove x l ++ [x] ≡ₚ l.
Proof.
  induction l as [|y l IH]; simpl; [by intros ?%elem_of_nil|].
  destruct (decide (x = y)) as [->|Hne].
  - intros _. by rewrite Permutation_app_comm.
  - rewrite elem_of_cons. intros [?|Hin]; [done|]. simpl. by rewrite IH.
Qed.

Lemma list_remove_not_elem `{EqDecision A} (x : A) (l : list A) :
  NoDup l -> x ∉ list_remove x l.
Proof.
  induction l as [|y l IH]; simpl; [intros _; apply not_elem_of_nil|].
  rewrite NoDup_cons. intros [Hy Hl].
  destruct (decide (x = y)) as [->|Hne]; [done|].
  rewrite not_elem_of_cons. auto.
Qed.

Lemma StronglySorted_sublist {A} (R : A -> A -> Prop) (l1 l2 : list A) :
  l1 `sublist_of` l2 -> StronglySorted R l2 -> StronglySorted R l1.
Proof.
  induction 1 as [|x l1 l2 Hsub IH|x l1 l2 Hsub IH]; [done| |].
  - intros [Hs Hall]%StronglySorted_inv. constructor; [auto|].
    rewrite Forall_forall in Hall |- *. intros y Hy.
    apply Hall. by eapply elem_of_sublist.
  - intros [Hs _]%StronglySorted_inv. auto.
Qed.

Lemma StronglySorted_fmap_impl {A B} (R : A -> A -> Prop) (Q : B -> B -> Prop)
    (f : A -> B) (l : list A) :
  (forall x y, x ∈ l -> y ∈ l -> R x y -> Q (f x) (f y)) ->
  StronglySorted R l -> StronglySorted Q (f <$> l).
Proof.
  intros HRQ. induction 1 as [|x l Hs IH Hall]; simpl; [constructor|].
  constructor.
  - apply IH. intros a b Ha Hb. apply HRQ; by right.
  - apply Forall_fmap, Forall_forall. intros y Hy. simpl.
    rewrite Forall_forall in Hall. apply HRQ; [left|by right|by apply Hall].
Qed.

Lemma StronglySorted_NoDup_strict {A} (R : A -> A -> Prop) (l : list A) :
  NoDup l -> StronglySorted R l ->
  StronglySorted (fun x y => R x y /\ x <> y) l.
Proof.
  intros Hnd. induction 1 as [|x l Hs IH Hall]; [constructor|].
  apply NoDup_cons in Hnd as [Hx Hnd]. constructor; [auto|].
  rewrite Forall_forall in Hall |- *. intros y Hy. split; [auto|].
  intros ->. done.
Qed.

Lemma StronglySorted_weaken {A} (R Q : A -> A -> Prop) (l : list A) :
  (forall x y, R x y -> Q x y) -> StronglySorted R l -> StronglySorted Q l.
Proof.
  intros HRQ. induction 1 as [|x l Hs IH Hall]; constructor; [done|].
  eapply Forall_impl; [exact Hall|]. intros y. apply HRQ.
Qed.

Lemma StronglySorted_weaken_in {A} (R Q : A -> A -> Prop) (l : list A) :
  (forall x y, x ∈ l -> y ∈ l -> R x y -> Q x y) ->
  StronglySorted R l -> StronglySorted Q l.
Proof.
  intros HRQ Hs. rewrite <- (list_fmap_id l).
  by apply (StronglySorted_fmap_impl R Q id).
Qed.

Lemma map_result_Ok {A B} (f : A -> Result B) (l : list A) (ys : list B) :
  map_result f l = Ok ys <-> Forall2 (fun x y => f x = Ok y) l ys.
Proof.
  revert ys. induction l as [|x l IH]; intros ys; simpl.
  - split; [intros [= <-]; constructor|by intros ->%Forall2_nil_inv_l].
  - destruct (f x) as [y|e] eqn:Hx; simpl.
    + destruct (map_result f l) as [ys'|e] eqn:Hl; simpl.
      * split.
        -- intros [= <-]. constructor; [done|]. by apply IH.
        -- intros (y' & ys'' & Hy & Hys & ->)%Forall2_cons_inv_l.
           apply IH in Hys. congruence.
      * split; [done|].
        intros (y' & ys'' & Hy & Hys & ->)%Forall2_cons_inv_l.
        apply IH in Hys. done.
    + split; [done|].
      intros (y' & ys'' & Hy & Hys & ->)%Forall2_cons_inv_l. congruence.
Qed.

Lemma map_result_total {A B} (f : A -> Result B) (l : list A) :
  Forall (fun x => exists y, f x = Ok y) l -> exists ys, map_result f l = Ok ys.
Proof.
  induction 1 as [|x l [y Hy] Hl [ys IH]]; simpl; [by eexists|].
  rewrite Hy. simpl. rewrite IH. simpl. by eexists.
Qed.

(** ** [elements] *)

Lemma element_dict_acc (atoms : list Atom) (d : list (string * nat)) :
  NoDup d.*1 ->
  let r := foldl (fun d atom =>
                    if dict_contains d (GetSymbol atom) then d
                    else dict_set d (GetSymbol atom) (GetAtomicNum atom))
                 d atoms in
  NoDup r.*1
  /\ (forall s, s ∈ r.*1 <-> s ∈ d.*1 \/ exists a, a ∈ atoms /\ GetSymbol a = s)
  /\ (forall s n, (s, n) ∈ r ->
        (s, n) ∈ d \/ exists a, a ∈ atoms /\ GetSymbol a = s /\ GetAtomicNum a = n).
Proof.
  revert d. induction atoms as [|a atoms IH]; intros d Hnd; simpl.
  - split; [done|]. split; [|by auto].
    intros s. split; [by auto|]. intros [?|(? & ?%elem_of_nil & _)]; done.
  - destruct (dict_contains d (GetSymbol a)) eqn:Hc.
    + apply dict_contains_spec in Hc.
      destruct (IH d Hnd) as (H1 & H2 & H3). split; [done|]. split.
      * intros s. rewrite H2. split.
        -- intros [?|(b & Hb & Hs)]; [by left|]. right. exists b. split; [by right|done].
        -- intros [?|(b & Hb & Hs)]; [by left|].
           apply elem_of_cons in Hb as [->|Hb]; [left; by rewrite <- Hs|].
           right. by exists b.
      * intros s n Hin. destruct (H3 s n Hin) as [?|(b & Hb & Hs)]; [by left|].
        right. exists b. split; [by right|done].
    + assert (Hfresh : GetSymbol a ∉ d.*1).
      { intros Hin. apply dict_contains_spec in Hin. congruence. }
      rewrite (dict_set_fresh _ _ _ Hfresh).
      assert (Hnd' : NoDup (d ++ [(GetSymbol a, GetAtomicNum a)]).*1).
      { rewrite fmap_app. apply NoDup_app. split; [done|]. split.
        - intros s Hs ->%list_elem_of_singleton. done.
        - apply NoDup_singleton. }
      destruct (IH _ Hnd') as (H1 & H2 & H3). split; [done|]. split.
      * intros s. rewrite H2, fmap_app, elem_of_app. simpl.
        rewrite list_elem_of_singleton. split.
        -- intros [[?| ->]|(b & Hb & Hs)]; [by left| |].
           ++ right. exists a. split; [left|done].
           ++ right. exists b. split; [by right|done].
        -- intros [?|(b & Hb & Hs)]; [by left; left|].
           apply elem_of_cons in Hb as [->|Hb]; [left; by right|].
           right. by exists b.
      * intros s n Hin. destruct (H3 s n Hin) as [Hd|(b & Hb & Hs)].
        -- apply elem_of_app in Hd as [?|[= -> ->]%list_elem_of_singleton]; [by left|].
           right. exists a. split; [left|done].
        -- right. exists b. split; [by right|done].
Qed.

Lemma element_dict_spec (atoms : list Atom) :
  NoDup (element_dict atoms).*1
  /\ (forall s, s ∈ (element_dict atoms).*1 <-> exists a, a ∈ atoms /\ GetSymbol a = s)
  /\ (forall s n, (s, n) ∈ element_dict atoms ->
        exists a, a ∈ atoms /\ GetSymbol a = s /\ GetAtomicNum a = n).
Proof.
  destruct (element_dict_acc atoms [] (NoDup_nil_2 (A:=string))) as (H1 & H2 & H3).
  split; [done|]. split.
  - intros s. rewrite (H2 s). split; [|by auto].
    intros [?%elem_of_nil|?]; done.
  - intros s n Hin. destruct (H3 s n Hin) as [?%elem_of_nil|?]; done.
Qed.

(** What [elements] computes from the atoms: every symbol once; then the
    symbols but ["H"] by ascending atomic number; then ["H"] when an atom has
    it. *)
Lemma elements_of_spec (atoms : list Atom) :
  symbols_valid atoms ->
  exists heavy,
    elements_of atoms
      = heavy ++ (if bool_decide ("H" ∈ elements_of atoms) then ["H"] else [])
    /\ NoDup (elements_of atoms)
    /\ (forall s, s ∈ elements_of atoms <-> exists a, a ∈ atoms /\ GetSymbol a = s)
    /\ ("H" ∉ heavy)
    /\ StronglySorted (atomic_num_lt atoms) heavy.
Proof.
  intros Hvalid.
  destruct (element_dict_spec atoms) as (Hnd & Hkeys & Hvals).
  unfold elements_of.
  set (le := fun x y : string * nat => (x.2 <=? y.2)%nat).
  set (sorted := stable_sort le (element_dict atoms)).
  assert (Hperm : sorted ≡ₚ element_dict atoms) by apply stable_sort_perm.
  assert (Hnd' : NoDup sorted.*1) by by rewrite Hperm.
  assert (Hkeys' : forall s, s ∈ sorted.*1 <-> exists a, a ∈ atoms /\ GetSymbol a = s).
  { intros s. rewrite Hperm. apply Hkeys. }
  assert (Hsorted : StronglySorted (atomic_num_lt atoms) sorted.*1).
  { eapply StronglySorted_weaken;
      [|apply (StronglySorted_NoDup_strict
                 (fun s1 s2 => forall a1 a2, a1 ∈ atoms -> a2 ∈ atoms ->
                    GetSymbol a1 = s1 -> GetSymbol a2 = s2 ->
                    GetAtomicNum a1 <= GetAtomicNum a2)); [done|]].
    - intros s1 s2 [Hle Hne] a1 a2 Ha1 Ha2 Hs1 Hs2.
      assert (GetAtomicNum a1 <> GetAtomicNum a2).
      { intros Heq. apply Hne. rewrite <- Hs1, <- Hs2. by apply Hvalid. }
      specialize (Hle a1 a2 Ha1 Ha2 Hs1 Hs2). lia.
    - eapply (StronglySorted_fmap_impl (fun x y => le x y = true)).
      + intros [s1 n1] [s2 n2] Hx Hy Hxy a1 a2 Ha1 Ha2 Hs1 Hs2. simpl in *.
        rewrite Hperm in Hx, Hy.
        destruct (Hvals _ _ Hx) as (b1 & Hb1 & Hbs1 & <-).
        destruct (Hvals _ _ Hy) as (b2 & Hb2 & Hbs2 & <-).
        unfold le in Hxy. simpl in Hxy. apply Nat.leb_le in Hxy.
        assert (GetAtomicNum a1 = GetAtomicNum b1) as ->
          by (apply Hvalid; [done|done|congruence]).
        assert (GetAtomicNum a2 = GetAtomicNum b2) as ->
          by (apply Hvalid; [done|done|congruence]).
        done.
      + apply stable_sort_sorted.
        * intros x y. unfold le.
          destruct (Nat.leb_spec x.2 y.2), (Nat.leb_spec y.2 x.2); auto; lia.
        * intros x y z. unfold le. rewrite !Nat.leb_le. lia. }
  destruct (bool_decide ("H" ∈ sorted.*1)) eqn:HH.
  - apply bool_decide_eq_true in HH.
    assert (Hp : list_remove "H" sorted.*1 ++ ["H"] ≡ₚ sorted.*1)
      by by apply list_remove_perm.
    exists (list_remove "H" sorted.*1).
    rewrite bool_decide_eq_true_2
      by (apply elem_of_app; right; apply list_elem_of_singleton; done).
    split; [done|]. split; [by rewrite Hp|].
    split; [intros s; rewrite Hp; apply Hkeys'|].
    split; [by apply list_remove_not_elem|].
    eapply StronglySorted_sublist; [apply list_remove_sublist|done].
  - apply bool_decide_eq_false in HH.
    exists sorted.*1. rewrite bool_decide_eq_false_2 by done.
    rewrite app_nil_r. done.
Qed.

(** C3.  On a molecule whose atoms have consistent symbols and atomic
    numbers, [elements()] returns a list in which every symbol that an atom
    of the molecule has occurs, and occurs once; the list is the symbols other
    than ["H"] by ascending atomic number, followed by ["H"] when an atom has
    it. *)
Theorem elements_distinct_ascending_H_last {F} (self : Molecule F) (mol : Mol F) :
  _mol self = Some mol ->
  symbols_valid (GetAtoms mol) ->
  exists es heavy,
    elements self = Ok es
    /\ NoDup es
    /\ (forall s, s ∈ es <-> exists a, a ∈ GetAtoms mol /\ GetSymbol a = s)
    /\ es = heavy ++ (if bool_decide ("H" ∈ es) then ["H"] else [])
    /\ ("H" ∉ heavy)
    /\ StronglySorted (atomic_num_lt (GetAtoms mol)) heavy.
Proof.
  intros Hmol Hvalid.
  destruct (elements_of_spec (GetAtoms mol) Hvalid) as (heavy & H1 & H2 & H3 & H4 & H5).
  exists (elements_of (GetAtoms mol)), heavy.
  unfold elements, the_mol. rewrite Hmol. simpl. done.
Qed.

(** ** The loop of [atom_block] *)

Section AtomRows.

Context {F : Type} (w : World F) (self : Molecule F).

(** What one turn of the loop appends and leaves in [sybyl]. *)
Lemma atom_row_Ok (mbe : list (string * list nat)) st idx atom st' :
  atom_row w self mbe st (idx, atom) = Ok st' ->
  exists r,
    st'.1 = st.1 ++ [r]
    /\ rdkit_index r = idx
    /\ atom_symbol r = GetSymbol atom
    /\ sybyl_step st.2 atom = Ok (Some (sybyl r))
    /\ st'.2 = Some (sybyl r).
Proof.
  unfold atom_row. simpl.
  destruct (charges self) as [cs|]; simpl; [|done].
  destruct (cs !! idx) as [charge|]; simpl; [|done].
  destruct (coords self) as [pos|]; simpl; [|done].
  destruct (pos !! idx) as [p|]; simpl; [|done].
  destruct (dict_getitem mbe (GetSymbol atom)) as [ids|]; simpl; [|done].
  destruct (list_index idx ids) as [k|]; simpl; [|done].
  destruct (sybyl_step st.2 atom) as [[sy|]|]; simpl; [|done|done].
  intros [= <-]. simpl. eexists. repeat split; reflexivity.
Qed.

Lemma for_each_atom_row_indices (mbe : list (string * list nat)) atoms k st st' :
  for_each (atom_row w self mbe) (enumerate_from k atoms) st = Ok st' ->
  rdkit_index <$> st'.1 = (rdkit_index <$> st.1) ++ seq k (length atoms).
Proof.
  revert k st. induction atoms as [|a atoms IH]; intros k st; simpl.
  - intros [= <-]. by rewrite app_nil_r.
  - destruct (atom_row w self mbe st (k, a)) as [st1|] eqn:E; simpl; [|done].
    intros Hrest. apply IH in Hrest. rewrite Hrest.
    apply atom_row_Ok in E as (r & -> & <- & _).
    by rewrite fmap_app, <- app_assoc.
Qed.

Lemma atom_rows_indices (mol : Mol F) rows :
  _mol self = Some mol ->
  atom_rows w self = Ok rows ->
  rdkit_index <$> rows = seq 0 (length (GetAtoms mol)).
Proof.
  intros Hmol. unfold atom_rows, elements_by_index, the_mol. rewrite Hmol. simpl.
  destruct (for_each _ _ _) as [st|] eqn:E; simpl; [|done].
  intros [= <-]. by apply for_each_atom_row_indices in E.
Qed.

Lemma tripos_atom_indices (mol : Mol F) rows :
  _mol self = Some mol ->
  tripos_atom w self = Ok rows ->
  rdkit_index <$> rows ≡ₚ seq 0 (length (GetAtoms mol)).
Proof.
  intros Hmol. unfold tripos_atom.
  destruct (atom_rows w self) as [rows0|] eqn:E; simpl; [|done].
  destruct (elements self) as [cats|]; simpl; [|done].
  intros [= <-]. rewrite stable_sort_perm. by erewrite atom_rows_indices.
Qed.

End AtomRows.

(** ** The index mapping *)

Lemma lookup_dict_of_pairs (p : list nat) (i r : nat) :
  NoDup p ->
  dict_of_pairs (zip p (seq 1 (length p))) !! i = Some r
  <-> exists j, p !! j = Some i /\ r = S j.
Proof.
  intros Hnd. unfold dict_of_pairs.
  assert (Hfst : (zip p (seq 1 (length p))).*1 = p)
    by (apply fst_zip; by rewrite length_seq).
  rewrite <- elem_of_list_to_map
    by (rewrite fmap_reverse, Hfst, reverse_Permutation; done).
  rewrite elem_of_reverse, list_elem_of_lookup.
  split.
  - intros [j Hj]. exists j.
    apply lookup_zip_with_Some in Hj as (x & y & [= <- <-] & Hx & Hy).
    apply lookup_seq in Hy as [-> _]. done.
  - intros (j & Hj & ->). exists j.
    apply lookup_zip_with_Some. exists i, (S j). split; [done|]. split; [done|].
    apply lookup_seq. split; [done|]. by eapply lookup_lt_Some.
Qed.

Lemma dict_of_pairs_bijection (p : list nat) (n : nat) :
  p ≡ₚ seq 0 n ->
  index_bijection (dict_of_pairs (zip p (seq 1 (length p)))) n.
Proof.
  intros Hp.
  assert (Hnd : NoDup p) by (rewrite Hp; apply NoDup_seq).
  assert (Hlen : length p = n) by (by rewrite Hp, length_seq).
  assert (Hin : forall i, i ∈ p <-> i < n).
  { intros i. rewrite Hp, elem_of_seq. lia. }
  repeat split.
  - apply lookup_dict_of_pairs in H as (j & Hj & ->); [|done].
    apply Hin. by eapply list_elem_of_lookup_2.
  - apply lookup_dict_of_pairs in H as (j & Hj & ->); [|done]. lia.
  - apply lookup_dict_of_pairs in H as (j & Hj & ->); [|done].
    apply lookup_lt_Some in Hj. lia.
  - intros i Hi. apply Hin, list_elem_of_lookup in Hi as [j Hj].
    exists (S j). apply lookup_dict_of_pairs; [done|]. by exists j.
  - intros i j r Hi Hj.
    apply lookup_dict_of_pairs in Hi as (a & Ha & ->); [|done].
    apply lookup_dict_of_pairs in Hj as (b & Hb & [= <-]); [|done].
    congruence.
  - intros r [Hr1 Hr2]. destruct r as [|j]; [lia|].
    destruct (lookup_lt_is_Some_2 p j) as [i Hi]; [lia|].
    exists i. apply lookup_dict_of_pairs; [done|]. by exists j.
Qed.

(** C1.  When [atom_block()] returns on a molecule, the mapping it leaves in
    [index_lookup] is a bijection from the native atom indices
    [0 .. atom_count-1] onto the output rows [1 .. atom_count]. *)
Theorem atom_block_index_bijection {F} (w : World F) (self : Molecule F)
    (mol : Mol F) (g g' : Globals) (block : string) :
  _mol self = Some mol ->
  atom_block w self g = (Ok block, g') ->
  exists lk,
    index_lookup g' = Some lk
    /\ index_bijection lk (length (GetAtoms mol)).
Proof.
  intros Hmol. unfold atom_block.
  destruct (tripos_atom w self) as [rows|] eqn:E; [|done].
  intros [= _ <-]. simpl. eexists. split; [done|].
  pose proof (tripos_atom_indices w self mol rows Hmol E) as Hp.
  replace (length rows) with (length (rdkit_index <$> rows))
    by apply length_fmap.
  by apply dict_of_pairs_bijection.
Qed.

(** ** [bond_block] *)

Lemma bond_types_values_precedence : bond_types.*2 = precedence.
Proof. reflexivity. Qed.

Lemma bond_type_code_rank (k t : string) :
  dict_get bond_types k = Some t -> exists r, list_index t precedence = Some r.
Proof.
  unfold bond_types. simpl.
  repeat (destruct (String.eqb k _); [intros [= <-]; by eexists|]). done.
Qed.

Lemma bond_row_mapped (b : Bond) :
  GetBondType b ∈ [AROMATIC; SINGLE; DOUBLE; TRIPLE] -> exists r, bond_row b = Ok r.
Proof.
  unfold bond_row. rewrite !elem_of_cons.
  intros [->|[->|[->|[->|?%elem_of_nil]]]]; [by eexists..|done].
Qed.

Lemma bond_row_Ok (b : Bond) (r : BondRow) :
  bond_row b = Ok r ->
  begin_atom_rdkit r = GetBeginAtomIdx b
  /\ end_atom_rdkit r = GetEndAtomIdx b
  /\ dict_get bond_types (str_bond_type (GetBondType b)) = Some (bond_type r).
Proof.
  unfold bond_row, dict_getitem.
  destruct (dict_get bond_types _) as [t|] eqn:E; [|done].
  intros [= <-]. done.
Qed.

Lemma lookup_row_Ok (g : Globals) (lk : gmap nat nat) (k x : nat) :
  index_lookup g = Some lk -> lookup_row g k = Ok x <-> lk !! k = Some x.
Proof.
  intros Hg. unfold lookup_row. rewrite Hg. simpl.
  destruct (lk !! k); simpl; split; congruence.
Qed.

Lemma bond_lines_Forall2 (g : Globals) (lk : gmap nat nat)
    (bonds : list Bond) (rows : list BondRow) (begins ends : list nat) :
  index_lookup g = Some lk ->
  Forall2 (fun b r => bond_row b = Ok r) bonds rows ->
  Forall2 (fun r x => lookup_row g (begin_atom_rdkit r) = Ok x) rows begins ->
  Forall2 (fun r x => lookup_row g (end_atom_rdkit r) = Ok x) rows ends ->
  Forall2 (bond_line_of lk) bonds
    (zip_with (fun r be => {| begin := be.1; end' := be.2;
                              line_bond_type := bond_type r |})
              rows (zip begins ends)).
Proof.
  intros Hg H1. revert begins ends.
  induction H1 as [|b r bonds rows Hb _ IH]; intros begins ends H2 H3.
  - apply Forall2_nil_inv_l in H2 as ->. constructor.
  - apply Forall2_cons_inv_l in H2 as (x & begins' & Hx & H2 & ->).
    apply Forall2_cons_inv_l in H3 as (y & ends' & Hy & H3 & ->).
    simpl. constructor; [|by apply IH].
    apply bond_row_Ok in Hb as (Hb1 & Hb2 & Hb3).
    apply (lookup_row_Ok g lk) in Hx, Hy; [|done..].
    unfold bond_line_of. simpl. rewrite <- Hb1, <- Hb2. done.
Qed.

(** C2.  On a molecule with at least one bond whose bonds are all aromatic,
    single, double or triple, and with a mapping in [index_lookup] that has
    the two ends of every bond, [bond_block()] returns the block of the lines
    of the bonds: they are the lines of the bonds in another order, sorted by
    the rank of the bond-type code in the order ar, 1, 2, 3 and then by the
    begin row, and numbered from 1 to the number of bonds in that order. *)
Theorem bond_block_sorted {F} (w : World F) (self : Molecule F) (mol : Mol F)
    (lk : gmap nat nat) :
  _mol self = Some mol ->
  GetBonds mol <> [] ->
  Forall (fun b => GetBondType b ∈ [AROMATIC; SINGLE; DOUBLE; TRIPLE])
         (GetBonds mol) ->
  Forall (fun b => is_Some (lk !! GetBeginAtomIdx b)
                   /\ is_Some (lk !! GetEndAtomIdx b)) (GetBonds mol) ->
  exists lines unsorted,
    bond_block w self {| index_lookup := Some lk |}
      = Ok ("@<TRIPOS>BOND" +:+ newline
            +:+ bonds_to_string w (zip (seq 1 (length (GetBonds mol))) lines)
            +:+ newline)
    /\ Forall2 (bond_line_of lk) (GetBonds mol) unsorted
    /\ lines ≡ₚ unsorted
    /\ StronglySorted bond_line_le lines.
Proof.
  intros Hmol Hne Htypes Hends.
  set (g := {| index_lookup := Some lk |}).
  assert (Hg : index_lookup g = Some lk) by done. clearbody g.
  destruct (map_result_total bond_row (GetBonds mol)) as [rows Hrows].
  { eapply Forall_impl; [exact Htypes|]. intros b. apply bond_row_mapped. }
  pose proof (proj1 (map_result_Ok _ _ _) Hrows) as Hrows2.
  assert (Hrow_ends : Forall (fun r => is_Some (lk !! begin_atom_rdkit r)
                                      /\ is_Some (lk !! end_atom_rdkit r)) rows).
  { clear Hrows Hne Htypes. induction Hrows2 as [|b r bonds rows Hb _ IH]; [constructor|].
    apply Forall_cons in Hends as [Hb_ends Hends]. constructor; [|by apply IH].
    apply bond_row_Ok in Hb as (-> & -> & _). done. }
  destruct (map_result_total (fun r => lookup_row g (begin_atom_rdkit r)) rows)
    as [begins Hbegins].
  { eapply Forall_impl; [exact Hrow_ends|]. intros r [[x Hx] _].
    exists x. by apply (lookup_row_Ok g lk). }
  destruct (map_result_total (fun r => lookup_row g (end_atom_rdkit r)) rows)
    as [ends Hends'].
  { eapply Forall_impl; [exact Hrow_ends|]. intros r [_ [x Hx]].
    exists x. by apply (lookup_row_Ok g lk). }
  set (unsorted := zip_with (fun r be => {| begin := be.1; end' := be.2;
                                            line_bond_type := bond_type r |})
                            rows (zip begins ends)).
  set (lines := stable_sort (fun l1 l2 => key_le (bond_key l1) (bond_key l2)) unsorted).
  assert (Hlines : Forall2 (bond_line_of lk) (GetBonds mol) unsorted).
  { apply (bond_lines_Forall2 g); [done|done| |]; by apply map_result_Ok. }
  assert (Hperm : lines ≡ₚ unsorted) by apply stable_sort_perm.
  assert (Htb : tripos_bond self g = Ok lines).
  { unfold tripos_bond, the_mol. rewrite Hmol. cbn -[map_result].
    rewrite Hrows. cbn -[map_result].
    destruct rows as [|r rows].
    - apply Forall2_nil_inv_r in Hrows2. done.
    - rewrite Hbegins. cbn -[map_result]. by rewrite Hends'. }
  exists lines, unsorted. split; [|split; [done|split; [done|]]].
  - assert (Hlen : length lines = length (GetBonds mol)).
    { unfold lines. rewrite stable_sort_length. symmetry.
      by eapply Forall2_length. }
    unfold bond_block. rewrite Htb. simpl. unfold number_rows.
    by rewrite Hlen.
  - eapply StronglySorted_weaken_in;
      [|apply (stable_sort_sorted _ (fun x y => key_le_total _ _)
                 (fun x y z => key_le_trans _ _ _))].
    intros l1 l2 Hl1 Hl2 Hle. fold lines in Hl1, Hl2.
    rewrite Hperm in Hl1, Hl2.
    assert (Hrank : forall l, l ∈ unsorted ->
              exists r, list_index (line_bond_type l) precedence = Some r).
    { intros l Hl. apply list_elem_of_lookup in Hl as [i Hi].
      destruct (Forall2_lookup_r _ _ _ _ _ Hlines Hi) as (b & _ & _ & _ & Hb).
      by eapply bond_type_code_rank. }
    destruct (Hrank l1 Hl1) as [r1 Hr1], (Hrank l2 Hl2) as [r2 Hr2].
    exists r1, r2. split; [done|]. split; [done|].
    unfold bond_key, cat_code in Hle. rewrite bond_types_values_precedence in Hle.
    rewrite Hr1, Hr2 in Hle. by apply key_le_Some.
Qed.

(** ** [get_external_charges] *)

(** C4.  [get_external_charges(path)] takes the row of the CSV file at
    position index - 1, for an index of 1 or more, applies [float] to each of
    its fields and stores the list of the results as the charges of the
    molecule.  The function does not look at the charge-computation mode; the
    constructor calls it when the mode is disabled. *)
Theorem get_external_charges_selects_row {F} (w : World F) (self : Molecule F)
    (filename : string) (all_charges : list (list string)) (i : Z)
    (row : list string) (parsed : list F) :
  csv_rows w filename = Ok all_charges ->
  index self = Some i ->
  (1 <= i)%Z ->
  all_charges !! Z.to_nat (i - 1) = Some row ->
  Forall2 (fun field x => py_float w field = Some x) row parsed ->
  get_external_charges w self filename = Ok (set_charges self parsed)
  /\ charges (set_charges self parsed) = Some parsed.
Proof.
  intros Hcsv Hidx Hi Hrow Hparsed. split; [|done].
  unfold get_external_charges. rewrite Hcsv, Hidx. cbn -[map_result].
  unfold py_getitem. destruct (Z.leb_spec 0 (i - 1)) as [_|?]; [|lia].
  rewrite Hrow. cbn -[map_result].
  assert (Hmap : map_result (fun charge => or_raise ValueError (py_float w charge)) row
                 = Ok parsed).
  { apply map_result_Ok. eapply Forall2_impl; [exact Hparsed|].
    intros field x Hx. simpl in Hx. by rewrite Hx. }
  by rewrite Hmap.
Qed.

(** ** [__init__] *)

Lemma init_arg_other {F} (w : World F) (cc : bool) (st : InitLocals F) (arg : string) :
  endswith arg ".pdb" = false -> endswith arg ".xyz" = false ->
  init_arg w cc st arg
  = Ok (if negb cc
        then {| l_path_to_xyz := l_path_to_xyz st; l_pdb_mol := l_pdb_mol st;
                l_xyz_mol := l_xyz_mol st; l_name := l_name st;
                l_index := l_index st; path_to_charges := Some arg |}
        else st).
Proof. intros Hpdb Hxyz. unfold init_arg. rewrite Hpdb, Hxyz. by destruct cc. Qed.

Lemma init_loop_no_structure {F} (w : World F) (cc : bool) (args : list string)
    (st : InitLocals F) :
  Forall (fun arg => endswith arg ".pdb" = false /\ endswith arg ".xyz" = false)
         args ->
  exists st', for_each (init_arg w cc) args st = Ok st'
              /\ l_xyz_mol st' = l_xyz_mol st.
Proof.
  intros Hargs. revert st.
  induction Hargs as [|arg args [Hpdb Hxyz] _ IH]; intros st; cbn [for_each].
  - by exists st.
  - rewrite (init_arg_other w cc st arg Hpdb Hxyz). cbn [mbind Result_bind].
    match goal with
    | |- context [for_each _ args ?st1] =>
        destruct (IH st1) as (st' & -> & Hst')
    end.
    exists st'. split; [done|]. rewrite Hst'. by destruct cc.
Qed.

(** C7, as the code has it.  Constructing a [Molecule] from arguments none
    of which ends in [.pdb] or in [.xyz] raises [AttributeError]: [_mol] is
    still [None] when its bonds are counted. *)
Theorem init_without_structure_raises {F} (w : World F) (args : list string)
    (CalculateCharges : bool) :
  Forall (fun arg => endswith arg ".pdb" = false /\ endswith arg ".xyz" = false)
         args ->
  __init__ w args CalculateCharges = Raise AttributeError.
Proof.
  intros Hargs.
  destruct (init_loop_no_structure w CalculateCharges args init_locals Hargs)
    as (st & Hst & Hxyz).
  unfold __init__. rewrite Hst. simpl. simpl in Hxyz. by rewrite Hxyz.
Qed.

(** C7 as stated fails: with the one argument [charges.csv] and the charge
    computation disabled the constructor raises [AttributeError], which is
    not [ParseError]. *)
Lemma init_without_structure_not_ParseError :
  __init__ Ex.world ["charges.csv"] false = Raise AttributeError
  /\ __init__ Ex.world ["charges.csv"] false <> Raise ParseError.
Proof. split; [reflexivity|discriminate]. Qed.

(** C8, as the code has it.  With the charge computation disabled the
    constructor does not compare the length of the selected row with the
    number of atoms: when the loop over the arguments leaves a structure read
    from an XYZ file, an index and a path of charges, the row of that index
    exists and [float] accepts its fields, the constructor returns a molecule
    whose charges are the parsed row, whatever its length. *)
Theorem init_external_charges_unchecked {F} (w : World F) (args : list string)
    (st : InitLocals F) (mol : Mol F) (path : string)
    (rows : list (list string)) (i : Z) (row : list string) (parsed : list F) :
  for_each (init_arg w false) args init_locals = Ok st ->
  l_xyz_mol st = Some mol ->
  path_to_charges st = Some path ->
  l_index st = Some i ->
  csv_rows w path = Ok rows ->
  py_getitem rows (i - 1) = Ok row ->
  Forall2 (fun field x => py_float w field = Some x) row parsed ->
  exists self,
    __init__ w args false = Ok self
    /\ charges self = Some parsed
    /\ num_atoms self = Some (length (GetAtoms mol)).
Proof.
  intros Hst Hxyz Hpath Hidx Hcsv Hrow Hparsed.
  assert (Hmap : map_result (fun charge => or_raise ValueError (py_float w charge)) row
                 = Ok parsed).
  { apply map_result_Ok. eapply Forall2_impl; [exact Hparsed|].
    intros field x Hx. simpl in Hx. by rewrite Hx. }
  unfold __init__. rewrite Hst. cbn -[map_result py_getitem].
  rewrite Hxyz. cbn -[map_result py_getitem]. rewrite Hpath.
  cbn -[map_result py_getitem]. unfold get_external_charges.
  rewrite Hcsv. cbn -[map_result py_getitem]. rewrite Hidx.
  cbn -[map_result py_getitem]. rewrite Hrow. cbn -[map_result py_getitem].
  rewrite Hmap. cbn. eexists. split; [reflexivity|]. done.
Qed.

(** C8 as stated fails: water has three atoms, the first row of [short.csv]
    has two fields, and the constructor returns a molecule with two
    charges. *)
Lemma init_short_row_constructs :
  exists self,
    __init__ Ex.world ["m1.pdb"; "m1.xyz"; "short.csv"] false = Ok self
    /\ num_atoms self = Some 3
    /\ length <$> charges self = Some 2
    /\ __init__ Ex.world ["m1.pdb"; "m1.xyz"; "short.csv"] false
       <> Raise ParseError.
Proof. eexists. split; [reflexivity|]. repeat split. discriminate. Qed.

(** ** [bond_block] while [index_lookup] is unbound *)

(** C9, as the code has it.  While no call of [atom_block()] has assigned
    [index_lookup], [bond_block()] on a molecule with at least one bond, all
    of whose bonds are aromatic, single, double or triple, raises
    [NameError]. *)
Theorem bond_block_before_atom_block {F} (w : World F) (self : Molecule F)
    (mol : Mol F) :
  _mol self = Some mol ->
  GetBonds mol <> [] ->
  Forall (fun b => GetBondType b ∈ [AROMATIC; SINGLE; DOUBLE; TRIPLE])
         (GetBonds mol) ->
  bond_block w self {| index_lookup := None |} = Raise NameError.
Proof.
  intros Hmol Hne Htypes.
  destruct (map_result_total bond_row (GetBonds mol)) as [rows Hrows].
  { eapply Forall_impl; [exact Htypes|]. intros b. apply bond_row_mapped. }
  unfold bond_block, tripos_bond, the_mol. rewrite Hmol. cbn -[map_result].
  rewrite Hrows. cbn -[map_result].
  destruct rows as [|r rows]; [|done].
  apply map_result_Ok, Forall2_nil_inv_r in Hrows. done.
Qed.

(** C9 as stated fails: on water, before any [atom_block()],
    [bond_block()] raises [NameError], which is not [StateError]. *)
Lemma bond_block_unbound_not_StateError :
  exists self,
    __init__ Ex.world ["m2.xyz"] true = Ok self
    /\ bond_block Ex.world self Ex.fresh = Raise NameError
    /\ bond_block Ex.world self Ex.fresh <> Raise StateError.
Proof. eexists. split; [reflexivity|]. split; [reflexivity|discriminate]. Qed.

(** ** The structure that is used *)

Section Precedence.

Context {F : Type} (w : World F).

(** A constructed molecule has the structure read from the XYZ file in
    [_mol], and its counts. *)
Lemma init_Ok_structure (args : list string) (cc : bool) (self : Molecule F) :
  __init__ w args cc = Ok self ->
  exists xyz,
    _xyz_mol self = Some xyz
    /\ _mol self = Some xyz
    /\ num_atoms self = Some (length (GetAtoms xyz))
    /\ num_bonds self = Some (length (GetBonds xyz))
    /\ (cc = true ->
        exists charge_of,
          ComputeGasteigerCharges w xyz = Ok charge_of
          /\ charges self = Some (charge_of <$> seq 0 (length (GetAtoms xyz)))).
Proof.
  unfold __init__.
  destruct (for_each (init_arg w cc) args init_locals) as [st|]; [|done].
  cbn [mbind Result_bind].
  destruct (l_xyz_mol st) as [xyz|] eqn:Hxyz; [|done].
  cbn [or_raise mbind Result_bind]. destruct cc.
  - destruct (ComputeGasteigerCharges w xyz) as [charge_of|] eqn:Hc; [|done].
    cbn [mbind Result_bind]. intros [= <-]. exists xyz. simpl.
    repeat split; try done. intros _. by exists charge_of.
  - destruct (path_to_charges st) as [path|]; [|done].
    cbn [or_raise mbind Result_bind]. unfold get_external_charges.
    destruct (csv_rows w path) as [rows|]; [|done]. cbn [mbind Result_bind].
    cbn [index]. destruct (l_index st) as [i|]; [|done].
    cbn [or_raise mbind Result_bind].
    destruct (py_getitem rows (i - 1)) as [row|]; [|done].
    cbn [mbind Result_bind].
    destruct (map_result _ row) as [parsed|]; [|done].
    cbn [mbind Result_bind]. intros [= <-]. exists xyz. simpl.
    repeat split; done.
Qed.

Variable reader : string -> Result (option (Mol F)).
Hypothesis reader_outcome : forall path, same_outcome (reader path) (MolFromPDBFile w path).

Lemma init_arg_reader (cc : bool) (st st' : InitLocals F) (arg : string) :
  locals_agree st st' ->
  match init_arg w cc st arg, init_arg (with_pdb_reader w reader) cc st' arg with
  | Ok st1, Ok st1' => locals_agree st1 st1'
  | Raise e, Raise e' => e = e'
  | _, _ => False
  end.
Proof.
  intros (H1 & H2 & H3 & H4 & H5). unfold init_arg. cbn [MolFromPDBFile with_pdb_reader mol_from_xyz py_int].
  destruct (endswith arg ".pdb").
  - pose proof (reader_outcome arg) as Hr. unfold same_outcome in Hr.
    destruct (MolFromPDBFile w arg), (reader arg); try done.
    cbn [mbind Result_bind].
    destruct (py_int w _); [|done]. simpl. by repeat split.
  - destruct (endswith arg ".xyz").
    + destruct (mol_from_xyz w arg); [|done]. simpl. by repeat split.
    + destruct (negb cc); simpl; by repeat split.
Qed.

Lemma init_loop_reader (cc : bool) (args : list string) (st st' : InitLocals F) :
  locals_agree st st' ->
  match for_each (init_arg w cc) args st,
        for_each (init_arg (with_pdb_reader w reader) cc) args st' with
  | Ok st1, Ok st1' => locals_agree st1 st1'
  | Raise e, Raise e' => e = e'
  | _, _ => False
  end.
Proof.
  revert st st'. induction args as [|arg args IH]; intros st st' Hagree.
  - done.
  - cbn [for_each]. pose proof (init_arg_reader cc st st' arg Hagree) as Harg.
    destruct (init_arg w cc st arg), (init_arg _ cc st' arg); try done.
    cbn [mbind Result_bind]. by apply IH.
Qed.

(** With another reader of PDB files that succeeds on the same files, the
    constructor returns the same molecule but for [_pdb_mol]. *)
Lemma init_reader (args : list string) (cc : bool) (self : Molecule F) :
  __init__ w args cc = Ok self ->
  exists pdb, __init__ (with_pdb_reader w reader) args cc = Ok (with_pdb_mol self pdb).
Proof.
  unfold __init__.
  pose proof (init_loop_reader cc args init_locals init_locals) as Hloop.
  destruct (for_each (init_arg w cc) args init_locals) as [st|]; [|done].
  destruct (for_each (init_arg (with_pdb_reader w reader) cc) args init_locals)
    as [st'|]; [|by destruct Hloop].
  destruct Hloop as (H1 & H2 & H3 & H4 & H5); [by repeat split|].
  cbn [mbind Result_bind]. rewrite <- H1, <- H2, <- H3, <- H4, <- H5.
  destruct (l_xyz_mol st) as [xyz|]; [|done].
  cbn [or_raise mbind Result_bind]. destruct cc.
  - cbn [ComputeGasteigerCharges with_pdb_reader].
    destruct (ComputeGasteigerCharges w xyz) as [charge_of|]; [|done].
    cbn [mbind Result_bind]. intros [= <-]. by exists (l_pdb_mol st').
  - destruct (path_to_charges st) as [path|]; [|done].
    cbn [or_raise mbind Result_bind]. unfold get_external_charges.
    cbn [csv_rows py_float with_pdb_reader].
    destruct (csv_rows w path) as [rows|]; [|done]. cbn [mbind Result_bind index].
    destruct (l_index st) as [i|]; [|done]. cbn [or_raise mbind Result_bind].
    destruct (py_getitem rows (i - 1)) as [row|]; [|done].
    cbn [mbind Result_bind].
    destruct (map_result _ row) as [parsed|]; [|done].
    cbn [mbind Result_bind]. intros [= <-]. by exists (l_pdb_mol st').
Qed.

End Precedence.

(** No method reads [_pdb_mol]. *)
Lemma methods_ignore_pdb_mol {F} (w : World F) (self : Molecule F)
    (pdb : option (Mol F)) (g : Globals) :
  coords (with_pdb_mol self pdb) = coords self
  /\ elements (with_pdb_mol self pdb) = elements self
  /\ elements_by_index (with_pdb_mol self pdb) = elements_by_index self
  /\ atom_block w (with_pdb_mol self pdb) g = atom_block w self g
  /\ bond_block w (with_pdb_mol self pdb) g = bond_block w self g.
Proof. repeat split; reflexivity. Qed.

(** C5.  A constructed molecule has a structure read from an XYZ file, and
    whatever the PDB file holds that structure is the one in [_mol], the one
    whose atoms and bonds are counted and enumerated, the one [coords]
    returns the positions of and the one whose Gasteiger charges are computed.
    The structure read from the PDB file is only stored: no method reads it,
    and with another reader of PDB files that succeeds on the same files the
    constructor returns the same molecule but for the field [_pdb_mol]. *)
Theorem xyz_structure_takes_precedence {F} (w : World F)
    (reader : string -> Result (option (Mol F)))
    (args : list string) (CalculateCharges : bool) (self : Molecule F) :
  (forall path, same_outcome (reader path) (MolFromPDBFile w path)) ->
  __init__ w args CalculateCharges = Ok self ->
  exists xyz,
    _xyz_mol self = Some xyz
    /\ _mol self = Some xyz
    /\ num_atoms self = Some (length (GetAtoms xyz))
    /\ num_bonds self = Some (length (GetBonds xyz))
    /\ coords self = positions_of xyz
    /\ elements self = Ok (elements_of (GetAtoms xyz))
    /\ elements_by_index self = Ok (mol_by_elements_of (GetAtoms xyz))
    /\ (CalculateCharges = true ->
        exists charge_of,
          ComputeGasteigerCharges w xyz = Ok charge_of
          /\ charges self = Some (charge_of <$> seq 0 (length (GetAtoms xyz))))
    /\ (forall pdb g,
          coords (with_pdb_mol self pdb) = coords self
          /\ elements (with_pdb_mol self pdb) = elements self
          /\ elements_by_index (with_pdb_mol self pdb) = elements_by_index self
          /\ atom_block w (with_pdb_mol self pdb) g = atom_block w self g
          /\ bond_block w (with_pdb_mol self pdb) g = bond_block w self g)
    /\ exists pdb,
         __init__ (with_pdb_reader w reader) args CalculateCharges
         = Ok (with_pdb_mol self pdb).
Proof.
  intros Hreader Hinit.
  destruct (init_Ok_structure w args CalculateCharges self Hinit)
    as (xyz & Hxyz & Hmol & Hatoms & Hbonds & Hcharges).
  exists xyz. do 4 (split; [done|]).
  split; [by unfold coords; rewrite Hxyz|].
  split; [by unfold elements, the_mol; rewrite Hmol|].
  split; [by unfold elements_by_index, the_mol; rewrite Hmol|].
  split; [done|].
  split; [intros pdb g; apply methods_ignore_pdb_mol|].
  by apply init_reader.
Qed.

(** ** The sybyl code *)

Lemma atom_types_sybyl_code (h : HybridizationType) :
  dict_get atom_types (str_hybridization h) = sybyl_code h.
Proof. by destruct h. Qed.

Lemma sybyl_step_classified (prev : option string) (atom : Atom) (sy : string) :
  sybyl_step prev atom = Ok (Some sy) -> sybyl_classified atom sy.
Proof.
  unfold sybyl_step, sybyl_classified, dict_getitem.
  rewrite atom_types_sybyl_code, !not_elem_of_cons.
  destruct (String.eqb_spec (GetSymbol atom) "C") as [HC|HC];
    destruct (String.eqb_spec (GetSymbol atom) "N") as [HN|HN];
    cbn [orb];
    try (destruct (GetIsAromatic atom); intros Hs;
         (split; [intros _ Har; congruence|]);
         (split; [intros HH; congruence|]); intros (? & ? & ? & _); done).
  destruct (String.eqb_spec (GetSymbol atom) "H") as [HH|HH].
  - intros [= <-]. split; [by intros [?|?]|]. split; [done|].
    intros (_ & _ & ? & _). done.
  - destruct (sybyl_code (GetHybridization atom)) as [code|]; [|done].
    cbn [or_raise mbind Result_bind]. intros [= <-].
    split; [by intros [?|?]|]. split; [done|]. intros _. by exists code.
Qed.

Lemma sybyl_step_KeyError (prev : option string) (atom : Atom) :
  GetSymbol atom ∉ ["C"; "N"; "H"] ->
  sybyl_code (GetHybridization atom) = None ->
  sybyl_step prev atom = Raise KeyError.
Proof.
  rewrite !not_elem_of_cons. intros (HC & HN & HH & _) Hcode.
  unfold sybyl_step, dict_getitem. rewrite atom_types_sybyl_code, Hcode.
  destruct (String.eqb_spec (GetSymbol atom) "C"); [done|].
  destruct (String.eqb_spec (GetSymbol atom) "N"); [done|].
  destruct (String.eqb_spec (GetSymbol atom) "H"); done.
Qed.

Section SybylRows.

Context {F : Type} (w : World F) (self : Molecule F) (all_atoms : list Atom).

Lemma for_each_atom_row_classified (mbe : list (string * list nat))
    (atoms : list Atom) (k : nat) st st' :
  atoms = drop k all_atoms ->
  for_each (atom_row w self mbe) (enumerate_from k atoms) st = Ok st' ->
  Forall (row_classified all_atoms) st.1 ->
  Forall (row_classified all_atoms) st'.1.
Proof.
  revert k st. induction atoms as [|a atoms IH]; intros k st Hdrop; cbn [enumerate_from for_each].
  - by intros [= <-].
  - destruct (atom_row w self mbe st (k, a)) as [st1|] eqn:E; [|done].
    cbn [mbind Result_bind]. intros Hrest Hst.
    apply atom_row_Ok in E as (r & Hrows & Hidx & _ & Hstep & _).
    apply (IH (S k) st1); [|done|].
    + replace (S k) with (k + 1) by lia.
      by rewrite <- drop_drop, <- Hdrop.
    + rewrite Hrows. apply Forall_app. split; [done|].
      apply Forall_singleton. exists a. split.
      * rewrite Hidx. rewrite <- (Nat.add_0_r k), <- lookup_drop, <- Hdrop. done.
      * by eapply sybyl_step_classified.
Qed.

End SybylRows.

(** C6, as the code has it.  In the rows of the frame that [atom_block()]
    prints, an aromatic carbon or nitrogen has the sybyl type
    [<symbol>.ar], a hydrogen has ["H"], and an atom of another element has
    [<symbol>.<code>] with the code "1" for SP, "2" for SP2, "3" for SP3 and
    the empty string for S; on an atom of another element whose hybridization
    is none of these four the classification raises [KeyError].  The carbons
    and nitrogens that are not aromatic are left out. *)
Theorem sybyl_classification {F} (w : World F) (self : Molecule F)
    (mol : Mol F) :
  _mol self = Some mol ->
  (forall rows, tripos_atom w self = Ok rows ->
     Forall (row_classified (GetAtoms mol)) rows)
  /\ (forall prev atom,
        GetSymbol atom ∉ ["C"; "N"; "H"] ->
        sybyl_code (GetHybridization atom) = None ->
        sybyl_step prev atom = Raise KeyError).
Proof.
  intros Hmol. split; [|apply sybyl_step_KeyError].
  intros rows. unfold tripos_atom.
  destruct (atom_rows w self) as [rows0|] eqn:E; [|done].
  cbn [mbind Result_bind]. destruct (elements self) as [cats|]; [|done].
  cbn [mbind Result_bind]. intros [= <-]. rewrite stable_sort_perm.
  revert E. unfold atom_rows, elements_by_index, the_mol. rewrite Hmol.
  cbn [or_raise mbind Result_bind].
  destruct (for_each _ _ _) as [st|] eqn:E; [|done].
  cbn [mbind Result_bind]. intros [= <-].
  eapply (for_each_atom_row_classified w self (GetAtoms mol)); [|exact E|].
  - done.
  - constructor.
Qed.

(** C6 as stated fails.  On an oxygen followed by a carbon that is not
    aromatic [atom_block()] returns a block, in which the carbon has the
    sybyl type of the oxygen; on a sulfur of hybridization SP3D2 it raises
    [KeyError], where the claim has the type ["S."]. *)
Lemma sybyl_gaps :
  (exists self,
     __init__ Ex.world ["m4.xyz"] true = Ok self
     /\ (atom_block Ex.world self Ex.fresh).1 <> Raise ParseError
     /\ exists rows,
          tripos_atom Ex.world self = Ok rows
          /\ (fun r => (atom_name r, sybyl r)) <$> rows
             = [("C1", "O.3"); ("O1", "O.3")])
  /\ (exists self,
        __init__ Ex.world ["m5.xyz"] true = Ok self
        /\ (atom_block Ex.world self Ex.fresh).1 = Raise KeyError).
Proof.
  split.
  - eexists. split; [reflexivity|]. split; [discriminate|].
    eexists. split; reflexivity.
  - eexists. split; reflexivity.
Qed.

(** ** One [index_lookup] for all the molecules *)

(** C10 fails on the code.  Two waters, [a] written O, H, H and [b] written
    H, O, H.  After [b.atom_block()] the bonds of [b] go from rows 2 and 3 to
    row 1; after a further [a.atom_block()] the same call on [b] gives
    bonds from rows 1 and 3 to row 2. *)
Lemma atom_block_of_another_molecule_changes_bond_block :
  exists a b,
    __init__ Ex.world ["m1.xyz"] true = Ok a
    /\ __init__ Ex.world ["m2.xyz"] true = Ok b
    /\ let g1 := (atom_block Ex.world b Ex.fresh).2 in
       let g2 := (atom_block Ex.world a g1).2 in
       tripos_bond b g1
       = Ok [ {| begin := 2; end' := 1; line_bond_type := "1" |};
              {| begin := 3; end' := 1; line_bond_type := "1" |} ]
       /\ tripos_bond b g2
          = Ok [ {| begin := 1; end' := 2; line_bond_type := "1" |};
                 {| begin := 3; end' := 2; line_bond_type := "1" |} ]
       /\ bond_block Ex.world b g1 <> bond_block Ex.world b g2.
Proof.
  eexists. eexists. split; [reflexivity|]. split; [reflexivity|].
  split; [reflexivity|]. split; [reflexivity|]. vm_compute. discriminate.
Qed.

(** ** When [atom_block] returns *)

Lemma dict_get_set {V} (d : list (string * V)) (k k' : string) (v : V) :
  dict_get (dict_set d k v) k' = if String.eqb k' k then Some v else dict_get d k'.
Proof.
  induction d as [|[k0 v0] d IH]; simpl.
  - done.
  - destruct (String.eqb_spec k k0) as [->|Hne]; simpl.
    + by destruct (String.eqb_spec k' k0).
    + destruct (String.eqb_spec k' k0) as [->|Hne'].
      * destruct (String.eqb_spec k0 k); [congruence|done].
      * apply IH.
Qed.

Lemma list_index_elem_of `{EqDecision A} (x : A) (l : list A) :
  x ∈ l -> is_Some (list_index x l).
Proof.
  induction l as [|y l IH]; simpl; [by intros ?%elem_of_nil|].
  destruct (decide (x = y)); [by eexists|].
  intros [?|Hin]%elem_of_cons; [done|].
  destruct (IH Hin) as [i ->]. by eexists.
Qed.

(** What one turn of the loop of [elements_by_index] does to the dict. *)
Lemma mol_by_elements_step (d : list (string * list nat)) (idx : nat)
    (atom : Atom) (s : string) :
  dict_get
    (dict_set (if dict_contains d (GetSymbol atom) then d
               else dict_set d (GetSymbol atom) [])
       (GetSymbol atom)
       (default [] (dict_get (if dict_contains d (GetSymbol atom) then d
                              else dict_set d (GetSymbol atom) [])
                             (GetSymbol atom)) ++ [idx]))
    s
  = if String.eqb s (GetSymbol atom)
    then Some (default [] (dict_get d (GetSymbol atom)) ++ [idx])
    else dict_get d s.
Proof.
  rewrite dict_get_set.
  destruct (String.eqb_spec s (GetSymbol atom)) as [->|Hne].
  - f_equal. f_equal.
    destruct (dict_contains d (GetSymbol atom)) eqn:Hc; [done|].
    rewrite dict_get_set, String.eqb_refl.
    destruct (dict_get d (GetSymbol atom)) eqn:Hg; [|done].
    unfold dict_contains in Hc. rewrite Hg in Hc.
    apply bool_decide_eq_false in Hc. destruct Hc. by eexists.
  - destruct (dict_contains d (GetSymbol atom)); [done|].
    rewrite dict_get_set. by destruct (String.eqb_spec s (GetSymbol atom)).
Qed.

Lemma mol_by_elements_acc (atoms : list Atom) (k : nat)
    (d : list (string * list nat)) :
  let r := foldl (fun d '(idx, atom) =>
                    let symbol := GetSymbol atom in
                    let d := if dict_contains d symbol then d
                             else dict_set d symbol [] in
                    dict_set d symbol (default [] (dict_get d symbol) ++ [idx]))
                 d (enumerate_from k atoms) in
  (forall s ids i, dict_get d s = Some ids -> i ∈ ids ->
     exists ids', dict_get r s = Some ids' /\ i ∈ ids')
  /\ (forall j atom, atoms !! j = Some atom ->
        exists ids, dict_get r (GetSymbol atom) = Some ids /\ (k + j) ∈ ids).
Proof.
  revert k d. induction atoms as [|a atoms IH]; intros k d; cbn [enumerate_from foldl].
  - split; [by eauto|]. intros j atom Hj. by rewrite lookup_nil in Hj.
  - match goal with
    | |- context [foldl _ ?d1 (enumerate_from (S k) atoms)] =>
        destruct (IH (S k) d1) as [Hold Hnew];
        assert (Hstep : forall s, dict_get d1 s
                  = if String.eqb s (GetSymbol a)
                    then Some (default [] (dict_get d (GetSymbol a)) ++ [k])
                    else dict_get d s)
          by (intros s; apply mol_by_elements_step)
    end.
    split.
    + intros s ids i Hs Hi. specialize (Hstep s).
      destruct (String.eqb_spec s (GetSymbol a)) as [Heq|_].
      * subst s. rewrite Hs in Hstep. eapply Hold; [exact Hstep|].
        apply elem_of_app. by left.
      * rewrite Hs in Hstep. by eapply Hold.
    + intros [|j] atom Hj.
      * injection Hj as ->. rewrite Nat.add_0_r.
        eapply (Hold (GetSymbol atom)).
        -- rewrite Hstep, String.eqb_refl. reflexivity.
        -- apply elem_of_app. right. by apply list_elem_of_singleton.
      * replace (k + S j) with (S k + j) by lia. by apply Hnew.
Qed.

Lemma mol_by_elements_of_spec (atoms : list Atom) (i : nat) (atom : Atom) :
  atoms !! i = Some atom ->
  exists ids, dict_get (mol_by_elements_of atoms) (GetSymbol atom) = Some ids
              /\ i ∈ ids.
Proof.
  intros Hi. destruct (mol_by_elements_acc atoms 0 []) as [_ Hnew].
  by apply Hnew in Hi.
Qed.

Lemma sybyl_step_assigned (prev : option string) (atom : Atom) :
  sybyl_assigned atom -> exists sy, sybyl_step prev atom = Ok (Some sy).
Proof.
  unfold sybyl_assigned, sybyl_step, dict_getitem.
  rewrite atom_types_sybyl_code.
  destruct (_ || _).
  - intros ->. by eexists.
  - destruct (String.eqb (GetSymbol atom) "H"); [by eexists|].
    intros [code ->]. by eexists.
Qed.

Section AtomBlockReturns.

Context {F : Type} (w : World F) (self : Molecule F).

Lemma for_each_atom_row_total (mbe : list (string * list nat))
    (cs : list F) (pos : list (F * F * F)) (atoms : list Atom) (k : nat) st :
  charges self = Some cs ->
  coords self = Ok pos ->
  k + length atoms <= length cs ->
  k + length atoms <= length pos ->
  (forall j atom, atoms !! j = Some atom ->
     exists ids, dict_get mbe (GetSymbol atom) = Some ids /\ (k + j) ∈ ids) ->
  Forall sybyl_assigned atoms ->
  exists st', for_each (atom_row w self mbe) (enumerate_from k atoms) st = Ok st'.
Proof.
  intros Hcs Hpos. revert k st.
  induction atoms as [|a atoms IH]; intros k st Hlen1 Hlen2 Hmbe Hsy;
    cbn [enumerate_from for_each].
  - by eexists.
  - simpl in Hlen1, Hlen2. apply Forall_cons in Hsy as [Ha Hsy].
    destruct (lookup_lt_is_Some_2 cs k) as [charge Hcharge]; [lia|].
    destruct (lookup_lt_is_Some_2 pos k) as [p Hp]; [lia|].
    destruct (Hmbe 0 a eq_refl) as (ids & Hids & Hin).
    rewrite Nat.add_0_r in Hin.
    destruct (list_index_elem_of k ids Hin) as [i Hi].
    destruct (sybyl_step_assigned st.2 a Ha) as [sy Hstep].
    assert (Hrow : exists st1, atom_row w self mbe st (k, a) = Ok st1).
    { unfold atom_row, dict_getitem. cbn [fst snd]. rewrite Hcs.
      cbn [or_raise mbind Result_bind]. rewrite Hcharge.
      cbn [or_raise mbind Result_bind]. rewrite Hpos.
      cbn [or_raise mbind Result_bind]. rewrite Hp.
      cbn [or_raise mbind Result_bind]. rewrite Hids.
      cbn [or_raise mbind Result_bind]. rewrite Hi.
      cbn [or_raise mbind Result_bind]. rewrite Hstep.
      cbn [or_raise mbind Result_bind]. by eexists. }
    destruct Hrow as [st1 ->]. cbn [mbind Result_bind].
    apply IH; [lia|lia| |done].
    intros j atom Hj. replace (S k + j) with (k + S j) by lia.
    by apply Hmbe.
Qed.

(** X20.  [atom_block()] returns, and assigns [index_lookup], on a molecule
    that has a charge and a position for each atom and whose atoms are all
    assigned a sybyl type by the classification. *)
Lemma atom_block_returns (mol : Mol F) (cs : list F) (pos : list (F * F * F))
    (g : Globals) :
  _mol self = Some mol ->
  charges self = Some cs ->
  coords self = Ok pos ->
  length (GetAtoms mol) <= length cs ->
  length (GetAtoms mol) <= length pos ->
  Forall sybyl_assigned (GetAtoms mol) ->
  exists block lk,
    atom_block w self g = (Ok block, {| index_lookup := Some lk |}).
Proof.
  intros Hmol Hcs Hpos Hlen1 Hlen2 Hsy.
  destruct (for_each_atom_row_total (mol_by_elements_of (GetAtoms mol)) cs pos
              (GetAtoms mol) 0 ([], None) Hcs Hpos Hlen1 Hlen2) as [st Hst];
    [|done|].
  { intros j atom Hj. by apply mol_by_elements_of_spec. }
  unfold atom_block, tripos_atom, atom_rows, elements_by_index, elements, the_mol.
  rewrite Hmol. cbn [or_raise mbind Result_bind]. unfold enumerate.
  rewrite Hst. cbn [mbind Result_bind]. by eexists _, _.
Qed.

End AtomBlockReturns.

(** ** The theorems on the example inputs *)

Lemma atom_block_index_bijection_witness :
  exists lk,
    index_lookup {| index_lookup := Some Ex.ring_lookup |} = Some lk
    /\ index_bijection lk 5.
Proof.
  apply (atom_block_index_bijection Ex.world Ex.ring Ex.ring_fragment Ex.fresh
           {| index_lookup := Some Ex.ring_lookup |} Ex.ring_block).
  - reflexivity.
  - vm_compute. reflexivity.
Defined.

Lemma bond_block_sorted_witness :
  exists lines unsorted,
    bond_block Ex.world Ex.ring {| index_lookup := Some Ex.ring_lookup |}
      = Ok ("@<TRIPOS>BOND" +:+ newline
            +:+ bonds_to_string Ex.world (zip (seq 1 4) lines) +:+ newline)
    /\ Forall2 (bond_line_of Ex.ring_lookup) (GetBonds Ex.ring_fragment) unsorted
    /\ lines ≡ₚ unsorted
    /\ StronglySorted bond_line_le lines.
Proof.
  apply (bond_block_sorted Ex.world Ex.ring Ex.ring_fragment Ex.ring_lookup).
  - reflexivity.
  - discriminate.
  - apply (bool_decide_unpack (Forall _ _)). vm_compute. exact I.
  - apply (bool_decide_unpack (Forall _ _)). vm_compute. exact I.
Defined.

Lemma methanimine_symbols_valid : symbols_valid Ex.methanimine_atoms.
Proof.
  intros a b Ha Hb. unfold Ex.methanimine_atoms in Ha, Hb.
  repeat (apply elem_of_cons in Ha as [->|Ha]);
    try (by apply elem_of_nil in Ha);
    repeat (apply elem_of_cons in Hb as [->|Hb]);
    try (by apply elem_of_nil in Hb);
    split; intros H; first [reflexivity | discriminate H].
Defined.

Lemma elements_distinct_ascending_H_last_witness :
  exists es heavy,
    elements Ex.methanimine = Ok es
    /\ NoDup es
    /\ (forall s, s ∈ es <-> exists a, a ∈ Ex.methanimine_atoms /\ GetSymbol a = s)
    /\ es = heavy ++ (if bool_decide ("H" ∈ es) then ["H"] else [])
    /\ ("H" ∉ heavy)
    /\ StronglySorted (atomic_num_lt Ex.methanimine_atoms) heavy.
Proof.
  apply (elements_distinct_ascending_H_last Ex.methanimine
           {| GetAtoms := Ex.methanimine_atoms; GetBonds := [];
              GetPositions := None |}).
  - reflexivity.
  - exact methanimine_symbols_valid.
Defined.

Lemma get_external_charges_selects_row_witness :
  get_external_charges Ex.world Ex.water2 "charges.csv"
    = Ok (set_charges Ex.water2 Ex.charges_04_05_06)
  /\ charges (set_charges Ex.water2 Ex.charges_04_05_06) = Some Ex.charges_04_05_06.
Proof.
  apply (get_external_charges_selects_row Ex.world Ex.water2 "charges.csv"
           [["0.1"; "0.2"; "0.3"]; ["0.4"; "0.5"; "0.6"]] 2
           ["0.4"; "0.5"; "0.6"]).
  - reflexivity.
  - reflexivity.
  - lia.
  - reflexivity.
  - repeat constructor.
Defined.

Lemma xyz_structure_takes_precedence_witness :
  exists xyz,
    _xyz_mol Ex.water2 = Some xyz
    /\ _mol Ex.water2 = Some xyz
    /\ num_atoms Ex.water2 = Some (length (GetAtoms xyz))
    /\ num_bonds Ex.water2 = Some (length (GetBonds xyz))
    /\ coords Ex.water2 = positions_of xyz
    /\ elements Ex.water2 = Ok (elements_of (GetAtoms xyz))
    /\ elements_by_index Ex.water2 = Ok (mol_by_elements_of (GetAtoms xyz))
    /\ (true = true ->
        exists charge_of,
          ComputeGasteigerCharges Ex.world xyz = Ok charge_of
          /\ charges Ex.water2 = Some (charge_of <$> seq 0 (length (GetAtoms xyz))))
    /\ (forall pdb g,
          coords (with_pdb_mol Ex.water2 pdb) = coords Ex.water2
          /\ elements (with_pdb_mol Ex.water2 pdb) = elements Ex.water2
          /\ elements_by_index (with_pdb_mol Ex.water2 pdb)
             = elements_by_index Ex.water2
          /\ atom_block Ex.world (with_pdb_mol Ex.water2 pdb) g
             = atom_block Ex.world Ex.water2 g
          /\ bond_block Ex.world (with_pdb_mol Ex.water2 pdb) g
             = bond_block Ex.world Ex.water2 g)
    /\ exists pdb,
         __init__ (with_pdb_reader Ex.world (fun _ => Ok (Some Ex.ring_fragment)))
                  ["m2.pdb"; "m2.xyz"] true
         = Ok (with_pdb_mol Ex.water2 pdb).
Proof.
  apply (xyz_structure_takes_precedence Ex.world
           (fun _ => Ok (Some Ex.ring_fragment)) ["m2.pdb"; "m2.xyz"] true Ex.water2).
  - intros path. exact I.
  - reflexivity.
Defined.

Lemma sybyl_classification_witness :
  (forall rows, tripos_atom Ex.world Ex.ring = Ok rows ->
     Forall (row_classified (GetAtoms Ex.ring_fragment)) rows)
  /\ (forall prev atom,
        GetSymbol atom ∉ ["C"; "N"; "H"] ->
        sybyl_code (GetHybridization atom) = None ->
        sybyl_step prev atom = Raise KeyError).
Proof.
  apply (sybyl_classification Ex.world Ex.ring Ex.ring_fragment). reflexivity.
Defined.

Lemma init_without_structure_raises_witness :
  __init__ Ex.world ["charges.csv"] false = Raise AttributeError.
Proof.
  apply (init_without_structure_raises Ex.world ["charges.csv"] false).
  repeat constructor.
Defined.

Lemma init_external_charges_unchecked_witness :
  exists self,
    __init__ Ex.world ["m1.pdb"; "m1.xyz"; "short.csv"] false = Ok self
    /\ charges self = Some Ex.charges_01_02
    /\ num_atoms self = Some (length (GetAtoms Ex.water_OHH)).
Proof.
  apply (init_external_charges_unchecked Ex.world
           ["m1.pdb"; "m1.xyz"; "short.csv"] Ex.water1_locals Ex.water_OHH
           "short.csv" [["0.1"; "0.2"]; ["0.4"; "0.5"]] 1 ["0.1"; "0.2"]).
  - reflexivity.
  - reflexivity.
  - reflexivity.
  - reflexivity.
  - reflexivity.
  - reflexivity.
  - repeat constructor.
Defined.

Lemma bond_block_before_atom_block_witness :
  bond_block Ex.world Ex.water2 {| index_lookup := None |} = Raise NameError.
Proof.
  apply (bond_block_before_atom_block Ex.world Ex.water2 Ex.water_HOH).
  - reflexivity.
  - discriminate.
  - apply (bool_decide_unpack (Forall _ _)). vm_compute. exact I.
Defined.

(** * Further properties *)

(** ** The loop of [__init__] *)

(** A loop in which only the elements of [P] change the part [proj] of the
    state: after it, that part is as it was if no element is in [P], and is
    what the last element of [P] made it otherwise. *)
Lemma for_each_last {A St X} (body : St -> A -> Result St) (proj : St -> X)
    (P : A -> Prop) (Q : A -> X -> Prop) :
  (forall st a st', body st a = Ok st' ->
     (P a /\ Q a (proj st')) \/ (~ P a /\ proj st' = proj st)) ->
  forall l st st', for_each body l st = Ok st' ->
    (Forall (fun a => ~ P a) l /\ proj st' = proj st)
    \/ exists before a after,
         l = before ++ a :: after /\ P a /\ Forall (fun a => ~ P a) after
         /\ Q a (proj st').
Proof.
  intros Hbody. induction l as [|a l IH]; intros st st'; cbn [for_each].
  - intros [= <-]. left. by split.
  - destruct (body st a) as [st1|] eqn:Ha; [|done]. cbn [mbind Result_bind].
    intros Hl. destruct (IH st1 st' Hl) as [[Hnone Heq]|(before & b & after & -> & Hb & Hafter & HQ)].
    + destruct (Hbody st a st1 Ha) as [[HP HQ]|[HnP Hst]].
      * right. exists [], a, l. rewrite Heq. by repeat split.
      * left. split; [by constructor|]. by rewrite Heq.
    + right. exists (a :: before), b, after. by repeat split.
Qed.

Section InitLoop.

Context {F : Type} (w : World F) (cc : bool).

(** The three branches of one turn of the loop. *)
Lemma init_arg_Ok (st st' : InitLocals F) (arg : string) :
  init_arg w cc st arg = Ok st' ->
  (reads_pdb arg
   /\ exists pdb i,
        MolFromPDBFile w arg = Ok pdb
        /\ py_int w (drop_first (drop_last4 (basename arg))) = Some i
        /\ st' = {| l_path_to_xyz := l_path_to_xyz st; l_pdb_mol := pdb;
                    l_xyz_mol := l_xyz_mol st;
                    l_name := Some (drop_last4 (basename arg));
                    l_index := Some i;
                    path_to_charges := path_to_charges st |})
  \/ (reads_xyz arg
      /\ exists xyz,
           mol_from_xyz w arg = Ok xyz
           /\ st' = {| l_path_to_xyz := Some arg; l_pdb_mol := l_pdb_mol st;
                       l_xyz_mol := xyz; l_name := l_name st;
                       l_index := l_index st;
                       path_to_charges := path_to_charges st |})
  \/ (reads_other arg
      /\ st' = if negb cc
               then {| l_path_to_xyz := l_path_to_xyz st;
                       l_pdb_mol := l_pdb_mol st; l_xyz_mol := l_xyz_mol st;
                       l_name := l_name st; l_index := l_index st;
                       path_to_charges := Some arg |}
               else st).
Proof.
  unfold init_arg, reads_pdb, reads_xyz, reads_other.
  destruct (endswith arg ".pdb") eqn:Hpdb.
  - destruct (MolFromPDBFile w arg) as [pdb|]; [|done]. cbn [mbind Result_bind].
    destruct (py_int w _) as [i|] eqn:Hi; [|done]. cbn [or_raise mbind Result_bind].
    intros [= <-]. left. split; [done|]. by exists pdb, i.
  - destruct (endswith arg ".xyz") eqn:Hxyz.
    + destruct (mol_from_xyz w arg) as [xyz|]; [|done]. cbn [mbind Result_bind].
      intros [= <-]. right. left. split; [done|]. by exists xyz.
    + intros Hst. right. right. split; [done|].
      destruct cc; cbn [negb] in *; congruence.
Qed.

Lemma init_loop_xyz (args : list string) (st : InitLocals F) :
  for_each (init_arg w cc) args init_locals = Ok st ->
  (Forall (fun a => ~ reads_xyz a) args /\ l_xyz_mol st = None)
  \/ exists before arg after,
       args = before ++ arg :: after /\ reads_xyz arg
       /\ Forall (fun a => ~ reads_xyz a) after
       /\ l_path_to_xyz st = Some arg
       /\ mol_from_xyz w arg = Ok (l_xyz_mol st).
Proof.
  intros Hloop.
  destruct (for_each_last (init_arg w cc)
              (fun st => (l_path_to_xyz st, l_xyz_mol st)) reads_xyz
              (fun arg x => x.1 = Some arg /\ mol_from_xyz w arg = Ok x.2))
    with (l := args) (st := @init_locals F) (st' := st)
    as [[Hnone Heq]|(before & arg & after & Hargs & Harg & Hafter & Hp & Hm)];
    [|done| |].
  - intros st0 a st1 Ha.
    destruct (init_arg_Ok st0 st1 a Ha)
      as [[Hpdb (pdb & i & _ & _ & ->)]|[[Hxyz (xyz & Hm & ->)]|[Hother ->]]].
    + right. split; [|done]. unfold reads_pdb in Hpdb. intros [? _]. congruence.
    + left. split; [exact Hxyz|]. by split.
    + right. split; [destruct Hother; intros [_ ?]; congruence|].
      by destruct (negb cc).
  - left. split; [done|]. by injection Heq as _ ->.
  - right. by exists before, arg, after.
Qed.

Lemma init_loop_pdb (args : list string) (st : InitLocals F) :
  for_each (init_arg w cc) args init_locals = Ok st ->
  (Forall (fun a => ~ reads_pdb a) args /\ l_name st = None /\ l_index st = None)
  \/ exists before arg after i,
       args = before ++ arg :: after /\ reads_pdb arg
       /\ Forall (fun a => ~ reads_pdb a) after
       /\ l_name st = Some (drop_last4 (basename arg))
       /\ l_index st = Some i
       /\ py_int w (drop_first (drop_last4 (basename arg))) = Some i.
Proof.
  intros Hloop.
  destruct (for_each_last (init_arg w cc)
              (fun st => (l_name st, l_index st)) reads_pdb
              (fun arg x =>
                 x.1 = Some (drop_last4 (basename arg))
                 /\ exists i, x.2 = Some i
                      /\ py_int w (drop_first (drop_last4 (basename arg))) = Some i))
    with (l := args) (st := @init_locals F) (st' := st)
    as [[Hnone Heq]|(before & arg & after & Hargs & Harg & Hafter & Hn & i & Hi & Hint)];
    [|done| |].
  - intros st0 a st1 Ha.
    destruct (init_arg_Ok st0 st1 a Ha)
      as [[Hpdb (pdb & i & _ & Hint & ->)]|[[Hxyz (xyz & Hm & ->)]|[Hother ->]]].
    + left. split; [done|]. split; [done|]. by exists i.
    + right. split; [|done]. destruct Hxyz. unfold reads_pdb. congruence.
    + right. split; [destruct Hother; unfold reads_pdb; congruence|].
      by destruct (negb cc).
  - left. split; [done|]. by injection Heq as -> ->.
  - right. by exists before, arg, after, i.
Qed.

End InitLoop.

Lemma init_loop_charges {F} (w : World F) (args : list string) (st : InitLocals F) :
  for_each (init_arg w false) args init_locals = Ok st ->
  (Forall (fun a => ~ reads_other a) args /\ path_to_charges st = None)
  \/ exists before path after,
       args = before ++ path :: after /\ reads_other path
       /\ Forall (fun a => ~ reads_other a) after
       /\ path_to_charges st = Some path.
Proof.
  intros Hloop.
  destruct (for_each_last (init_arg w false) path_to_charges reads_other
              (fun arg x => x = Some arg))
    with (l := args) (st := @init_locals F) (st' := st)
    as [[Hnone Heq]|(before & arg & after & Hargs & Harg & Hafter & Hp)];
    [|done| |].
  - intros st0 a st1 Ha.
    destruct (init_arg_Ok w false st0 st1 a Ha)
      as [[Hpdb (pdb & i & _ & _ & ->)]|[[Hxyz (xyz & Hm & ->)]|[Hother ->]]].
    + right. split; [|done]. unfold reads_pdb in Hpdb. intros [? _]. congruence.
    + right. split; [|done]. destruct Hxyz. intros [_ ?]. congruence.
    + left. by split.
  - left. by split.
  - right. by exists before, arg, after.
Qed.

(** What a returned object holds, in terms of the locals of the loop. *)
Lemma init_Ok_inv {F} (w : World F) (args : list string) (cc : bool)
    (self : Molecule F) :
  __init__ w args cc = Ok self ->
  exists st xyz,
    for_each (init_arg w cc) args init_locals = Ok st
    /\ l_xyz_mol st = Some xyz
    /\ _mol self = Some xyz
    /\ _xyz_mol self = Some xyz
    /\ path_to_xyz self = l_path_to_xyz st
    /\ name self = l_name st
    /\ index self = l_index st
    /\ num_atoms self = Some (length (GetAtoms xyz))
    /\ num_bonds self = Some (length (GetBonds xyz))
    /\ _CalculateCharges self = cc
    /\ if cc
       then exists charge_of,
              ComputeGasteigerCharges w xyz = Ok charge_of
              /\ charges self = Some (charge_of <$> seq 0 (length (GetAtoms xyz)))
       else exists path rows i row cs,
              path_to_charges st = Some path
              /\ csv_rows w path = Ok rows
              /\ l_index st = Some i
              /\ py_getitem rows (i - 1) = Ok row
              /\ Forall2 (fun field x => py_float w field = Some x) row cs
              /\ charges self = Some cs.
Proof.
  unfold __init__.
  destruct (for_each (init_arg w cc) args init_locals) as [st|]; [|done].
  cbn [mbind Result_bind].
  destruct (l_xyz_mol st) as [xyz|] eqn:Hxyz; [|done].
  cbn [or_raise mbind Result_bind]. destruct cc.
  - destruct (ComputeGasteigerCharges w xyz) as [charge_of|] eqn:Hc; [|done].
    cbn [mbind Result_bind]. intros [= <-]. exists st, xyz. simpl.
    repeat split; try done. by exists charge_of.
  - destruct (path_to_charges st) as [path|] eqn:Hpath; [|done].
    cbn [or_raise mbind Result_bind]. unfold get_external_charges.
    destruct (csv_rows w path) as [rows|] eqn:Hcsv; [|done].
    cbn [mbind Result_bind index].
    destruct (l_index st) as [i|] eqn:Hidx; [|done].
    cbn [or_raise mbind Result_bind].
    destruct (py_getitem rows (i - 1)) as [row|] eqn:Hrow; [|done].
    cbn [mbind Result_bind].
    destruct (map_result _ row) as [cs|] eqn:Hmap; [|done].
    cbn [mbind Result_bind]. intros [= <-]. exists st, xyz. simpl.
    repeat split; try done. exists path, rows, i, row, cs.
    repeat split; try done.
    apply map_result_Ok in Hmap. eapply Forall2_impl; [exact Hmap|].
    intros field x. simpl. by destruct (py_float w field); intros [= ->].
Qed.

(** X1.  A constructed molecule has its structure from an XYZ file: one of
    the arguments ends in [.xyz], and the structure in [_mol] is the one
    [mol_from_xyz] returns for the last such argument.  A PDB file alone
    gives no molecule. *)
Theorem init_structure_from_last_xyz {F} (w : World F) (args : list string)
    (CalculateCharges : bool) (self : Molecule F) :
  __init__ w args CalculateCharges = Ok self ->
  exists before arg after xyz,
    args = before ++ arg :: after
    /\ reads_xyz arg
    /\ Forall (fun a => ~ reads_xyz a) after
    /\ mol_from_xyz w arg = Ok (Some xyz)
    /\ path_to_xyz self = Some arg
    /\ _mol self = Some xyz.
Proof.
  intros Hinit.
  destruct (init_Ok_inv w args CalculateCharges self Hinit)
    as (st & xyz & Hloop & Hxyz & Hmol & _ & Hpath & _).
  destruct (init_loop_xyz w CalculateCharges args st Hloop)
    as [[_ Hnone]|(before & arg & after & Hargs & Harg & Hafter & Hp & Hm)];
    [congruence|].
  exists before, arg, after, xyz. rewrite Hxyz in Hm.
  repeat split; try done; try apply Harg. congruence.
Qed.

(** X2.  In a constructed molecule the name and the index are both absent
    when no argument ends in [.pdb]; otherwise the name is the base name of
    the last such argument without its last four characters and the index is
    [int] of the name without its first character. *)
Theorem init_name_and_index {F} (w : World F) (args : list string)
    (CalculateCharges : bool) (self : Molecule F) :
  __init__ w args CalculateCharges = Ok self ->
  (Forall (fun a => ~ reads_pdb a) args /\ name self = None /\ index self = None)
  \/ exists before arg after i,
       args = before ++ arg :: after
       /\ reads_pdb arg
       /\ Forall (fun a => ~ reads_pdb a) after
       /\ name self = Some (drop_last4 (basename arg))
       /\ index self = Some i
       /\ py_int w (drop_first (drop_last4 (basename arg))) = Some i.
Proof.
  intros Hinit.
  destruct (init_Ok_inv w args CalculateCharges self Hinit)
    as (st & xyz & Hloop & _ & _ & _ & _ & Hname & Hindex & _).
  rewrite Hname, Hindex. by apply (init_loop_pdb w CalculateCharges).
Qed.

(** X3.  A molecule constructed with the charge computation disabled had an
    argument that ends neither in [.pdb] nor in [.xyz] and an argument that
    ends in [.pdb]: its charges are [float] of the fields of the row at
    position index - 1 of the CSV file named by the last argument of the
    first kind. *)
Theorem init_external_charges_source {F} (w : World F) (args : list string)
    (self : Molecule F) :
  __init__ w args false = Ok self ->
  exists before path after i rows row cs,
    args = before ++ path :: after
    /\ reads_other path
    /\ Forall (fun a => ~ reads_other a) after
    /\ Exists reads_pdb args
    /\ index self = Some i
    /\ csv_rows w path = Ok rows
    /\ py_getitem rows (i - 1) = Ok row
    /\ Forall2 (fun field x => py_float w field = Some x) row cs
    /\ charges self = Some cs.
Proof.
  intros Hinit.
  destruct (init_Ok_inv w args false self Hinit)
    as (st & xyz & Hloop & _ & _ & _ & _ & _ & Hindex & _ & _ & _
        & path & rows & i & row & cs & Hpath & Hcsv & Hi & Hrow & Hcs & Hch).
  destruct (init_loop_charges w args st Hloop)
    as [[_ Hnone]|(before & path' & after & Hargs & Hother & Hafter & Hp)];
    [congruence|].
  assert (path' = path) as -> by congruence.
  exists before, path, after, i, rows, row, cs.
  repeat split; try done; try apply Hother; [|congruence].
  destruct (init_loop_pdb w false args st Hloop)
    as [(_ & _ & Hnone)|(b & arg & a & _ & -> & Harg & _)]; [congruence|].
  apply Exists_app. right. by left.
Qed.

(** X4.  A molecule constructed with the charge computation enabled has one
    charge for each atom of its structure. *)
Theorem init_computed_charges_length {F} (w : World F) (args : list string)
    (self : Molecule F) :
  __init__ w args true = Ok self ->
  exists cs, charges self = Some cs /\ num_atoms self = Some (length cs).
Proof.
  intros Hinit.
  destruct (init_Ok_inv w args true self Hinit)
    as (st & xyz & _ & _ & _ & _ & _ & _ & _ & Hn & _ & _ & charge_of & _ & Hch).
  eexists. split; [exact Hch|]. by rewrite length_fmap, length_seq.
Qed.

(** ** Errors of [get_external_charges] *)

Lemma map_result_Raise {A B} (f : A -> Result B) (e : exn) (l : list A) :
  Forall (fun x => (exists y, f x = Ok y) \/ f x = Raise e) l ->
  Exists (fun x => f x = Raise e) l ->
  map_result f l = Raise e.
Proof.
  induction 1 as [|x l Hx Hl IH]; [by intros ?%Exists_nil|].
  intros Hex. cbn [map_result]. destruct Hx as [[y Hy]|Hx].
  - rewrite Hy. cbn [mbind Result_bind].
    apply Exists_cons in Hex as [Hex|Hex]; [congruence|].
    by rewrite (IH Hex).
  - by rewrite Hx.
Qed.

(** X5.  When the CSV file has fewer rows than the index of the molecule, or
    the index is so far below 1 that it falls off the front of the rows,
    [get_external_charges] raises [IndexError]. *)
Theorem get_external_charges_IndexError {F} (w : World F) (self : Molecule F)
    (filename : string) (rows : list (list string)) (i : Z) :
  csv_rows w filename = Ok rows ->
  index self = Some i ->
  (Z.of_nat (length rows) < i \/ i <= - Z.of_nat (length rows))%Z ->
  get_external_charges w self filename = Raise IndexError.
Proof.
  intros Hcsv Hidx Hi. unfold get_external_charges.
  rewrite Hcsv, Hidx. cbn [or_raise mbind Result_bind]. unfold py_getitem.
  destruct (Z.leb_spec 0 (i - 1)) as [Hpos|Hneg].
  - rewrite (lookup_ge_None_2 rows (Z.to_nat (i - 1))) by lia. done.
  - destruct (Z.leb_spec 0 (i - 1 + Z.of_nat (length rows))) as [?|?]; [lia|done].
Qed.

(** X6.  An index of 0 or less counts the rows from the end: as long as
    it stays within the rows, [get_external_charges] takes the row at
    position index - 1 + number of rows; the index 0 takes the last row. *)
Theorem get_external_charges_wraps {F} (w : World F) (self : Molecule F)
    (filename : string) (rows : list (list string)) (i : Z)
    (row : list string) (parsed : list F) :
  csv_rows w filename = Ok rows ->
  index self = Some i ->
  (- Z.of_nat (length rows) < i <= 0)%Z ->
  rows !! Z.to_nat (i - 1 + Z.of_nat (length rows)) = Some row ->
  Forall2 (fun field x => py_float w field = Some x) row parsed ->
  get_external_charges w self filename = Ok (set_charges self parsed).
Proof.
  intros Hcsv Hidx Hi Hrow Hparsed. unfold get_external_charges.
  rewrite Hcsv, Hidx. cbn [or_raise mbind Result_bind]. unfold py_getitem.
  destruct (Z.leb_spec 0 (i - 1)) as [?|_]; [lia|].
  destruct (Z.leb_spec 0 (i - 1 + Z.of_nat (length rows))) as [_|?]; [|lia].
  rewrite Hrow. cbn [or_raise mbind Result_bind].
  assert (Hmap : map_result (fun charge => or_raise ValueError (py_float w charge)) row
                 = Ok parsed).
  { apply map_result_Ok. eapply Forall2_impl; [exact Hparsed|].
    intros field x Hx. simpl in Hx. by rewrite Hx. }
  by rewrite Hmap.
Qed.

(** X7.  When [float] rejects a field of the selected row,
    [get_external_charges] raises [ValueError]. *)
Theorem get_external_charges_ValueError {F} (w : World F) (self : Molecule F)
    (filename : string) (rows : list (list string)) (i : Z) (row : list string) :
  csv_rows w filename = Ok rows ->
  index self = Some i ->
  py_getitem rows (i - 1) = Ok row ->
  Exists (fun field => py_float w field = None) row ->
  get_external_charges w self filename = Raise ValueError.
Proof.
  intros Hcsv Hidx Hrow Hbad. unfold get_external_charges.
  rewrite Hcsv, Hidx. cbn [or_raise mbind Result_bind]. rewrite Hrow.
  cbn [mbind Result_bind].
  rewrite (map_result_Raise _ ValueError row); [done| |].
  - apply Forall_forall. intros field _.
    destruct (py_float w field); [left; by eexists|by right].
  - eapply Exists_impl; [exact Hbad|]. intros field Hf. simpl in Hf. by rewrite Hf.
Qed.

(** ** [elements_by_index] *)

Lemma indices_from_elem_of (atoms : list Atom) (k : nat) (s : string) (i : nat) :
  i ∈ indices_from k atoms s
  <-> exists j a, i = k + j /\ atoms !! j = Some a /\ GetSymbol a = s.
Proof.
  revert k. induction atoms as [|a0 atoms IH]; intros k; cbn [indices_from].
  - split; [by intros ?%elem_of_nil|]. by intros (j & a & _ & ? & _).
  - assert (Htail : i ∈ indices_from (S k) atoms s
                    <-> exists j a, i = k + S j /\ atoms !! j = Some a
                                    /\ GetSymbol a = s).
    { rewrite IH. split; intros (j & a & -> & Hj & Ha); exists j, a;
        (split; [lia|done]). }
    destruct (String.eqb_spec s (GetSymbol a0)) as [->|Hne].
    + rewrite elem_of_cons, Htail. split.
      * intros [->|(j & a & -> & Hj & Ha)].
        -- exists 0, a0. split; [lia|done].
        -- by exists (S j), a.
      * intros ([|j] & a & -> & Hj & Ha).
        -- left. lia.
        -- right. by exists j, a.
    + rewrite Htail. split.
      * intros (j & a & -> & Hj & Ha). by exists (S j), a.
      * intros ([|j] & a & -> & Hj & Ha).
        -- simpl in Hj. injection Hj as ->. congruence.
        -- by exists j, a.
Qed.

Lemma indices_from_sorted (atoms : list Atom) (k : nat) (s : string) :
  StronglySorted lt (indices_from k atoms s).
Proof.
  revert k. induction atoms as [|a0 atoms IH]; intros k; cbn [indices_from].
  - constructor.
  - destruct (String.eqb s (GetSymbol a0)); [|apply IH].
    constructor; [apply IH|]. apply Forall_forall. intros i Hi.
    apply indices_from_elem_of in Hi as (j & a & -> & _). lia.
Qed.

(** The position of an index in the list of its symbol is the number of
    atoms of that symbol before it. *)
Lemma indices_from_index (atoms : list Atom) (k j : nat) (a : Atom) :
  atoms !! j = Some a ->
  list_index (k + j) (indices_from k atoms (GetSymbol a))
  = Some (length (filter (fun b => GetSymbol b = GetSymbol a) (take j atoms))).
Proof.
  revert k j. induction atoms as [|a0 atoms IH]; intros k j Hj; [done|].
  cbn [indices_from]. destruct j as [|j].
  - injection Hj as ->. rewrite String.eqb_refl, Nat.add_0_r. cbn [list_index].
    by rewrite decide_True.
  - cbn [lookup list_lookup] in Hj. cbn [take]. rewrite filter_cons.
    replace (k + S j) with (S k + j) by lia.
    destruct (String.eqb_spec (GetSymbol a) (GetSymbol a0)) as [Heq|Hne].
    + rewrite decide_True by done. cbn [list_index length].
      rewrite decide_False by lia. by rewrite (IH (S k) j Hj).
    + rewrite decide_False by congruence. by apply IH.
Qed.

Lemma mol_by_elements_get_acc (atoms : list Atom) (k : nat)
    (d : list (string * list nat)) (s : string) :
  dict_get
    (foldl (fun d '(idx, atom) =>
              let symbol := GetSymbol atom in
              let d := if dict_contains d symbol then d
                       else dict_set d symbol [] in
              dict_set d symbol (default [] (dict_get d symbol) ++ [idx]))
           d (enumerate_from k atoms)) s
  = match indices_from k atoms s with
    | [] => dict_get d s
    | new => Some (default [] (dict_get d s) ++ new)
    end.
Proof.
  revert k d. induction atoms as [|a atoms IH]; intros k d;
    cbn [enumerate_from foldl indices_from]; [done|].
  rewrite IH, mol_by_elements_step.
  destruct (String.eqb_spec s (GetSymbol a)) as [->|Hne]; [|done].
  destruct (indices_from (S k) atoms (GetSymbol a)) as [|i new]; [done|].
  unfold default. cbn [from_option id]. by rewrite <- app_assoc.
Qed.

Lemma mol_by_elements_of_get (atoms : list Atom) (s : string) :
  dict_get (mol_by_elements_of atoms) s
  = match indices_from 0 atoms s with
    | [] => None
    | new => Some new
    end.
Proof.
  unfold mol_by_elements_of, enumerate. rewrite mol_by_elements_get_acc.
  by destruct (indices_from 0 atoms s).
Qed.

(** X8.  [elements_by_index()] groups the native indices by symbol: the
    list of a symbol is not empty, ascending, and holds exactly the indices of
    the atoms of that symbol; a symbol has a list exactly when an atom has
    it. *)
Theorem elements_by_index_groups {F} (self : Molecule F) (mol : Mol F) :
  _mol self = Some mol ->
  exists d,
    elements_by_index self = Ok d
    /\ (forall s ids, dict_get d s = Some ids ->
          ids <> []
          /\ StronglySorted lt ids
          /\ forall i, i ∈ ids
               <-> exists a, GetAtoms mol !! i = Some a /\ GetSymbol a = s)
    /\ (forall s, is_Some (dict_get d s)
          <-> exists a, a ∈ GetAtoms mol /\ GetSymbol a = s).
Proof.
  intros Hmol. exists (mol_by_elements_of (GetAtoms mol)).
  split; [by unfold elements_by_index, the_mol; rewrite Hmol|].
  assert (Hin : forall s i, i ∈ indices_from 0 (GetAtoms mol) s
            <-> exists a, GetAtoms mol !! i = Some a /\ GetSymbol a = s).
  { intros s i. rewrite indices_from_elem_of. split.
    - intros (j & a & -> & Hj & Ha). by exists a.
    - intros (a & Hi & Ha). by exists i, a. }
  split.
  - intros s ids. rewrite mol_by_elements_of_get.
    destruct (indices_from 0 (GetAtoms mol) s) as [|i new] eqn:E; [done|].
    intros [= <-]. split; [done|]. rewrite <- E.
    split; [apply indices_from_sorted|apply Hin].
  - intros s. rewrite mol_by_elements_of_get. split.
    + destruct (indices_from 0 (GetAtoms mol) s) as [|i new] eqn:E;
        [by intros [? ?]|].
      intros _. destruct (proj1 (Hin s i)) as (a & Hi & Ha);
        [rewrite E; left|].
      exists a. split; [by eapply list_elem_of_lookup_2|done].
    + intros (a & [i Hi]%list_elem_of_lookup & Ha).
      destruct (indices_from 0 (GetAtoms mol) s) as [|i0 new] eqn:E;
        [|by eexists].
      destruct (not_elem_of_nil i). rewrite <- E. apply Hin. by exists a.
Qed.

(** ** The symbols of [elements] and of [elements_by_index] *)

Lemma dict_set_keys {V} (d : list (string * V)) (k : string) (v : V) :
  (dict_set d k v).*1 = if dict_contains d k then d.*1 else d.*1 ++ [k].
Proof.
  destruct (dict_contains d k) eqn:Hc.
  - apply dict_contains_spec in Hc. induction d as [|[k0 v0] d IH]; simpl.
    + by apply elem_of_nil in Hc.
    + destruct (String.eqb_spec k k0) as [->|Hne]; [done|]. simpl. f_equal.
      apply IH. simpl in Hc. apply elem_of_cons in Hc as [?|?]; done.
  - rewrite dict_set_fresh; [by rewrite fmap_app|].
    intros Hin. apply dict_contains_spec in Hin. congruence.
Qed.

Lemma dict_contains_keys {V W} (d1 : list (string * V)) (d2 : list (string * W))
    (k : string) :
  d1.*1 = d2.*1 -> dict_contains d1 k = dict_contains d2 k.
Proof.
  intros Hkeys.
  destruct (dict_contains d1 k) eqn:H1, (dict_contains d2 k) eqn:H2; try done.
  - apply dict_contains_spec in H1. rewrite Hkeys in H1.
    apply dict_contains_spec in H1. congruence.
  - apply dict_contains_spec in H2. rewrite <- Hkeys in H2.
    apply dict_contains_spec in H2. congruence.
Qed.

Lemma mol_by_elements_keys_acc (atoms : list Atom) (k : nat)
    (d1 : list (string * nat)) (d2 : list (string * list nat)) :
  d1.*1 = d2.*1 ->
  (foldl (fun d atom =>
            if dict_contains d (GetSymbol atom) then d
            else dict_set d (GetSymbol atom) (GetAtomicNum atom))
         d1 atoms).*1
  = (foldl (fun d '(idx, atom) =>
              let symbol := GetSymbol atom in
              let d := if dict_contains d symbol then d
                       else dict_set d symbol [] in
              dict_set d symbol (default [] (dict_get d symbol) ++ [idx]))
           d2 (enumerate_from k atoms)).*1.
Proof.
  revert k d1 d2. induction atoms as [|a atoms IH]; intros k d1 d2 Hkeys;
    cbn [enumerate_from foldl]; [done|].
  apply IH.
  assert (Hc1 : dict_contains d1 (GetSymbol a) = dict_contains d2 (GetSymbol a))
    by by apply dict_contains_keys.
  rewrite Hc1. destruct (dict_contains d2 (GetSymbol a)) eqn:Hc.
  - rewrite (dict_set_keys d2), Hc. done.
  - assert (Hc' : dict_contains (dict_set d2 (GetSymbol a) []) (GetSymbol a) = true).
    { apply dict_contains_spec. rewrite dict_set_keys, Hc.
      apply elem_of_app. right. by apply list_elem_of_singleton. }
    rewrite (dict_set_keys (dict_set d2 (GetSymbol a) [])), Hc'.
    rewrite (dict_set_keys d1), Hc1, (dict_set_keys d2), Hc. by rewrite Hkeys.
Qed.

Lemma elements_of_perm (atoms : list Atom) :
  elements_of atoms ≡ₚ (element_dict atoms).*1.
Proof.
  unfold elements_of.
  set (sorted := stable_sort _ (element_dict atoms)).
  assert (Hperm : sorted.*1 ≡ₚ (element_dict atoms).*1)
    by (unfold sorted; by rewrite stable_sort_perm).
  destruct (bool_decide ("H" ∈ sorted.*1)) eqn:HH; [|done].
  apply bool_decide_eq_true in HH. by rewrite list_remove_perm.
Qed.

(** X9.  [elements()] and [elements_by_index()] have the same symbols:
    the list of the first is a rearrangement of the keys of the second, and
    no symbol is twice among these keys. *)
Theorem elements_are_the_keys_of_elements_by_index {F} (self : Molecule F)
    (mol : Mol F) :
  _mol self = Some mol ->
  exists es d,
    elements self = Ok es
    /\ elements_by_index self = Ok d
    /\ es ≡ₚ d.*1
    /\ NoDup d.*1.
Proof.
  intros Hmol.
  exists (elements_of (GetAtoms mol)), (mol_by_elements_of (GetAtoms mol)).
  unfold elements, elements_by_index, the_mol. rewrite Hmol.
  split; [done|]. split; [done|].
  assert (Hkeys : (element_dict (GetAtoms mol)).*1
                  = (mol_by_elements_of (GetAtoms mol)).*1)
    by by apply mol_by_elements_keys_acc.
  rewrite <- Hkeys. split; [apply elements_of_perm|].
  apply element_dict_spec.
Qed.

(** ** The rows of the ATOM block *)

Section AtomRowContent.

Context {F : Type} (w : World F) (self : Molecule F) (all_atoms : list Atom).

(** All that one turn of the loop reads and appends. *)
Lemma atom_row_Ok_full (mbe : list (string * list nat)) st idx atom st' :
  atom_row w self mbe st (idx, atom) = Ok st' ->
  exists cs charge pos p ids k sy,
    charges self = Some cs
    /\ cs !! idx = Some charge
    /\ coords self = Ok pos
    /\ pos !! idx = Some p
    /\ dict_get mbe (GetSymbol atom) = Some ids
    /\ list_index idx ids = Some k
    /\ sybyl_step st.2 atom = Ok (Some sy)
    /\ st' = (st.1 ++ [ {| rdkit_index := idx;
                           atom_name := GetSymbol atom +:+ pretty (k + 1);
                           x_coord := p.1.1;
                           y_coord := p.1.2;
                           z_coord := p.2;
                           sybyl := sy;
                           substruct := NO_SUBSTRUCTS;
                           substruct_name := name self;
                           partial_charge := format_3f w charge;
                           atom_symbol := GetSymbol atom;
                           atom_index_label := k + 1 |} ],
              Some sy).
Proof.
  unfold atom_row, dict_getitem. cbn [fst snd].
  destruct (charges self) as [cs|] eqn:Hcs; [|done].
  cbn [or_raise mbind Result_bind].
  destruct (cs !! idx) as [charge|] eqn:Hcharge; [|done].
  cbn [or_raise mbind Result_bind].
  destruct (coords self) as [pos|] eqn:Hpos; [|done]. cbn [mbind Result_bind].
  destruct (pos !! idx) as [p|] eqn:Hp; [|done].
  cbn [or_raise mbind Result_bind].
  destruct (dict_get mbe (GetSymbol atom)) as [ids|] eqn:Hids; [|done].
  cbn [or_raise mbind Result_bind].
  destruct (list_index idx ids) as [k|] eqn:Hk; [|done].
  cbn [or_raise mbind Result_bind].
  destruct (sybyl_step st.2 atom) as [[sy|]|] eqn:Hsy; [|done|done].
  cbn [or_raise mbind Result_bind]. intros [= <-].
  exists cs, charge, pos, p, ids, k, sy. by repeat split.
Qed.

Lemma for_each_atom_row_content (atoms : list Atom) (k : nat) st st' :
  atoms = drop k all_atoms ->
  for_each (atom_row w self (mol_by_elements_of all_atoms))
           (enumerate_from k atoms) st = Ok st' ->
  Forall (row_content w self all_atoms) st.1 ->
  Forall (row_content w self all_atoms) st'.1.
Proof.
  revert k st. induction atoms as [|a atoms IH]; intros k st Hdrop;
    cbn [enumerate_from for_each].
  - by intros [= <-].
  - destruct (atom_row w self _ st (k, a)) as [st1|] eqn:E; [|done].
    cbn [mbind Result_bind]. intros Hrest Hst.
    apply atom_row_Ok_full in E
      as (cs & charge & pos & p & ids & j & sy & Hcs & Hcharge & Hpos & Hp
          & Hids & Hj & _ & ->).
    assert (Ha : all_atoms !! k = Some a).
    { rewrite <- (Nat.add_0_r k), <- lookup_drop, <- Hdrop. done. }
    eapply (IH (S k)); [|exact Hrest|].
    + replace (S k) with (k + 1) by lia. by rewrite <- drop_drop, <- Hdrop.
    + cbn [fst]. apply Forall_app. split; [done|]. apply Forall_singleton.
      rewrite mol_by_elements_of_get in Hids.
      destruct (indices_from 0 all_atoms (GetSymbol a)) as [|i0 new] eqn:Hind;
        [done|].
      injection Hids as <-. rewrite <- Hind in Hj.
      pose proof (indices_from_index all_atoms 0 k a Ha) as Hcount.
      cbn [Nat.add] in Hcount. rewrite Hcount in Hj. injection Hj as <-.
      exists a, cs, charge, pos, p. cbn.
      rewrite Nat.add_1_r. destruct p as [[x y] z]. by repeat split.
Qed.

End AtomRowContent.

(** X10.  Every row of the frame that [atom_block()] prints holds the data
    of the atom of its native index: its symbol; as label one more than the
    number of atoms of that symbol before it; as name the symbol followed by
    the label; its own position and its own charge, formatted. *)
Theorem atom_block_rows_content {F} (w : World F) (self : Molecule F)
    (mol : Mol F) (rows : list (AtomRow F)) :
  _mol self = Some mol ->
  tripos_atom w self = Ok rows ->
  Forall (row_content w self (GetAtoms mol)) rows.
Proof.
  intros Hmol. unfold tripos_atom.
  destruct (atom_rows w self) as [rows0|] eqn:E; [|done].
  cbn [mbind Result_bind]. destruct (elements self) as [cats|]; [|done].
  cbn [mbind Result_bind]. intros [= <-]. rewrite stable_sort_perm.
  revert E. unfold atom_rows, elements_by_index, the_mol. rewrite Hmol.
  cbn [or_raise mbind Result_bind].
  destruct (for_each _ _ _) as [st|] eqn:E; [|done].
  cbn [mbind Result_bind]. intros [= <-].
  by eapply (for_each_atom_row_content w self (GetAtoms mol) (GetAtoms mol) 0
               ([], None)).
Qed.

Lemma elements_of_elem_of (atoms : list Atom) (a : Atom) :
  a ∈ atoms -> GetSymbol a ∈ elements_of atoms.
Proof.
  intros Ha. rewrite elements_of_perm.
  apply (proj1 (proj2 (element_dict_spec atoms))). by exists a.
Qed.

(** X11.  The rows of the frame that [atom_block()] prints are one row for
    each atom, in the order of the symbols in [elements()] (so the hydrogens
    come last) and, within a symbol, by ascending label. *)
Theorem atom_block_rows_sorted {F} (w : World F) (self : Molecule F)
    (mol : Mol F) (rows : list (AtomRow F)) :
  _mol self = Some mol ->
  tripos_atom w self = Ok rows ->
  rdkit_index <$> rows ≡ₚ seq 0 (length (GetAtoms mol))
  /\ StronglySorted (atom_row_le (elements_of (GetAtoms mol))) rows.
Proof.
  intros Hmol Hrows. split; [by eapply tripos_atom_indices|].
  pose proof (atom_block_rows_content w self mol rows Hmol Hrows) as Hcontent.
  revert Hrows Hcontent. unfold tripos_atom.
  destruct (atom_rows w self) as [rows0|]; [|done]. cbn [mbind Result_bind].
  unfold elements, the_mol. rewrite Hmol. cbn [or_raise mbind Result_bind].
  intros [= <-] Hcontent.
  eapply StronglySorted_weaken_in;
    [|apply (stable_sort_sorted _ (fun x y => key_le_total _ _)
               (fun x y z => key_le_trans _ _ _))].
  intros r1 r2 Hr1 Hr2 Hle.
  assert (Hcat : forall r, r ∈ stable_sort
                    (fun r1 r2 => key_le (atom_key (elements_of (GetAtoms mol)) r1)
                                         (atom_key (elements_of (GetAtoms mol)) r2))
                    rows0 ->
            exists c, list_index (atom_symbol r) (elements_of (GetAtoms mol)) = Some c).
  { intros r Hr. rewrite Forall_forall in Hcontent.
    destruct (Hcontent r Hr)
      as (a & cs & charge & pos & p & Ha & _ & _ & _ & _ & Hsym & _).
    apply list_index_elem_of. rewrite Hsym. apply elements_of_elem_of.
    by eapply list_elem_of_lookup_2. }
  destruct (Hcat r1 Hr1) as [c1 Hc1], (Hcat r2 Hr2) as [c2 Hc2].
  exists c1, c2. split; [done|]. split; [done|].
  unfold atom_key, cat_code in Hle. rewrite Hc1, Hc2 in Hle.
  by apply key_le_Some.
Qed.

(** ** Where [atom_block] raises *)

Lemma for_each_app {A St} (body : St -> A -> Result St) (l1 l2 : list A) (st : St) :
  for_each body (l1 ++ l2) st = st1 ← for_each body l1 st; for_each body l2 st1.
Proof.
  revert st. induction l1 as [|x l1 IH]; intros st; cbn [app for_each]; [done|].
  destruct (body st x) as [st1|]; [|done]. cbn [mbind Result_bind]. apply IH.
Qed.

Lemma enumerate_from_app {A} (k : nat) (l1 l2 : list A) :
  enumerate_from k (l1 ++ l2)
  = enumerate_from k l1 ++ enumerate_from (k + length l1) l2.
Proof.
  revert k. induction l1 as [|x l1 IH]; intros k; cbn [app enumerate_from length].
  - by rewrite Nat.add_0_r.
  - rewrite IH. by replace (S k + length l1) with (k + S (length l1)) by lia.
Qed.

Lemma sybyl_step_unassigned (prev : option string) (atom : Atom) :
  sybyl_unassigned atom -> sybyl_step prev atom = Ok prev.
Proof.
  intros [Hsym Har]. unfold sybyl_step. rewrite Har.
  destruct Hsym as [-> | ->]; done.
Qed.

Section AtomBlockRaises.

Context {F : Type} (w : World F) (self : Molecule F).

(** The loop raises what its first failing turn raises. *)
Lemma atom_block_first_failure (mol : Mol F) (pre post : list Atom) (a : Atom)
    (cs : list F) (pos : list (F * F * F)) (e : exn) (g : Globals) :
  _mol self = Some mol ->
  GetAtoms mol = pre ++ a :: post ->
  charges self = Some cs ->
  coords self = Ok pos ->
  length pre <= length cs ->
  length pre <= length pos ->
  Forall sybyl_assigned pre ->
  (forall st, atom_row w self (mol_by_elements_of (GetAtoms mol)) st
                (length pre, a) = Raise e) ->
  atom_block w self g = (Raise e, g).
Proof.
  intros Hmol Hatoms Hcs Hpos Hlen1 Hlen2 Hsy Hfail.
  destruct (for_each_atom_row_total w self (mol_by_elements_of (GetAtoms mol))
              cs pos pre 0 ([], None) Hcs Hpos) as [st1 Hst1]; [done|done| |done|].
  { intros j atom Hj. apply mol_by_elements_of_spec.
    rewrite Hatoms. by apply lookup_app_l_Some. }
  unfold atom_block, tripos_atom, atom_rows, elements_by_index, the_mol.
  rewrite Hmol. cbn [or_raise mbind Result_bind]. unfold enumerate.
  rewrite Hatoms at 2. rewrite enumerate_from_app, for_each_app, Hst1.
  cbn [mbind Result_bind enumerate_from for_each Nat.add].
  by rewrite Hfail.
Qed.

(** X12.  When the first atom is a carbon or a nitrogen that is not
    aromatic, [atom_block()] raises [UnboundLocalError] and leaves
    [index_lookup] as it was: the variable [sybyl] has no value yet. *)
Theorem atom_block_first_atom_unassigned (mol : Mol F) (a : Atom)
    (rest : list Atom) (cs : list F) (pos : list (F * F * F)) (g : Globals) :
  _mol self = Some mol ->
  GetAtoms mol = a :: rest ->
  sybyl_unassigned a ->
  charges self = Some cs -> cs <> [] ->
  coords self = Ok pos -> pos <> [] ->
  atom_block w self g = (Raise UnboundLocalError, g).
Proof.
  intros Hmol Hatoms Ha Hcs Hcs1 Hpos Hpos1.
  destruct cs as [|charge cs']; [done|]. destruct pos as [|p pos']; [done|].
  destruct (mol_by_elements_of_spec (GetAtoms mol) 0 a) as (ids & Hids & Hin);
    [by rewrite Hatoms|].
  destruct (list_index_elem_of 0 ids Hin) as [k Hk].
  assert (Hrow : atom_row w self (mol_by_elements_of (GetAtoms mol)) ([], None) (0, a)
                 = Raise UnboundLocalError).
  { unfold atom_row, dict_getitem. cbn [fst snd]. rewrite Hcs.
    cbn [or_raise mbind Result_bind lookup list_lookup]. rewrite Hpos.
    cbn [or_raise mbind Result_bind lookup list_lookup]. rewrite Hids.
    cbn [or_raise mbind Result_bind]. rewrite Hk.
    cbn [or_raise mbind Result_bind].
    by rewrite (sybyl_step_unassigned None a Ha). }
  unfold atom_block, tripos_atom, atom_rows, elements_by_index, the_mol.
  rewrite Hmol. cbn [or_raise mbind Result_bind]. unfold enumerate.
  remember (mol_by_elements_of (GetAtoms mol)) as mbe.
  rewrite Hatoms. cbn [enumerate_from for_each]. by rewrite Hrow.
Qed.

(** X14.  When the molecule has fewer charges than atoms, and the atoms
    that have a charge are all assigned a sybyl type and have a position,
    [atom_block()] raises [IndexError] and leaves [index_lookup] as it
    was. *)
Theorem atom_block_too_few_charges (mol : Mol F) (cs : list F)
    (pos : list (F * F * F)) (g : Globals) :
  _mol self = Some mol ->
  charges self = Some cs ->
  coords self = Ok pos ->
  length cs < length (GetAtoms mol) ->
  length cs <= length pos ->
  Forall sybyl_assigned (take (length cs) (GetAtoms mol)) ->
  atom_block w self g = (Raise IndexError, g).
Proof.
  intros Hmol Hcs Hpos Hlen1 Hlen2 Hsy.
  destruct (lookup_lt_is_Some_2 (GetAtoms mol) (length cs) Hlen1) as [a Ha].
  assert (Hpre : length (take (length cs) (GetAtoms mol)) = length cs)
    by (rewrite length_take; lia).
  apply (atom_block_first_failure mol (take (length cs) (GetAtoms mol))
           (drop (S (length cs)) (GetAtoms mol)) a cs pos);
    try done; try lia.
  - by rewrite <- (take_drop_middle _ _ _ Ha) at 1.
  - intros st. rewrite Hpre. unfold atom_row. cbn [fst snd]. rewrite Hcs.
    cbn [or_raise mbind Result_bind].
    by rewrite (lookup_ge_None_2 cs (length cs)).
Qed.

(** X15.  When the first atom that the classification cannot type is an
    atom of an element other than carbon, nitrogen and hydrogen whose
    hybridization is none of SP, SP2, SP3 and S, and that atom and those
    before it have a charge and a position, [atom_block()] raises [KeyError]
    and leaves [index_lookup] as it was. *)
Theorem atom_block_unmapped_hybridization (mol : Mol F) (pre post : list Atom)
    (a : Atom) (cs : list F) (pos : list (F * F * F)) (g : Globals) :
  _mol self = Some mol ->
  GetAtoms mol = pre ++ a :: post ->
  charges self = Some cs ->
  coords self = Ok pos ->
  length pre < length cs ->
  length pre < length pos ->
  Forall sybyl_assigned pre ->
  GetSymbol a ∉ ["C"; "N"; "H"] ->
  sybyl_code (GetHybridization a) = None ->
  atom_block w self g = (Raise KeyError, g).
Proof.
  intros Hmol Hatoms Hcs Hpos Hlen1 Hlen2 Hsy Hsym Hcode.
  apply (atom_block_first_failure mol pre post a cs pos); try done; try lia.
  intros st.
  destruct (lookup_lt_is_Some_2 cs (length pre) Hlen1) as [charge Hcharge].
  destruct (lookup_lt_is_Some_2 pos (length pre) Hlen2) as [p Hp].
  destruct (mol_by_elements_of_spec (GetAtoms mol) (length pre) a)
    as (ids & Hids & Hin).
  { rewrite Hatoms. by apply list_lookup_middle. }
  destruct (list_index_elem_of (length pre) ids Hin) as [k Hk].
  unfold atom_row, dict_getitem. cbn [fst snd]. rewrite Hcs.
  cbn [or_raise mbind Result_bind]. rewrite Hcharge.
  cbn [or_raise mbind Result_bind]. rewrite Hpos.
  cbn [or_raise mbind Result_bind]. rewrite Hp.
  cbn [or_raise mbind Result_bind]. rewrite Hids.
  cbn [or_raise mbind Result_bind]. rewrite Hk.
  cbn [or_raise mbind Result_bind].
  by rewrite (sybyl_step_KeyError st.2 a Hsym Hcode).
Qed.

End AtomBlockRaises.

(** ** The sybyl type that is carried over *)

Section SybylChain.

Context {F : Type} (w : World F) (self : Molecule F) (all_atoms : list Atom).

Lemma for_each_atom_row_chain (mbe : list (string * list nat))
    (atoms : list Atom) (k : nat) st st' :
  atoms = drop k all_atoms ->
  for_each (atom_row w self mbe) (enumerate_from k atoms) st = Ok st' ->
  length st.1 = k ->
  st.2 = sybyl <$> last st.1 ->
  sybyl_chain all_atoms st.1 ->
  sybyl_chain all_atoms st'.1.
Proof.
  revert k st. induction atoms as [|a atoms IH]; intros k st Hdrop;
    cbn [enumerate_from for_each].
  - by intros [= <-].
  - destruct (atom_row w self mbe st (k, a)) as [st1|] eqn:E; [|done].
    cbn [mbind Result_bind]. intros Hrest Hlen Hlast Hchain.
    apply atom_row_Ok in E as (r & Hrows & _ & _ & Hstep & Hcur).
    assert (Ha : all_atoms !! k = Some a).
    { rewrite <- (Nat.add_0_r k), <- lookup_drop, <- Hdrop. done. }
    apply (IH (S k) st1); [|done| | |].
    + replace (S k) with (k + 1) by lia. by rewrite <- drop_drop, <- Hdrop.
    + rewrite Hrows, length_app. simpl. lia.
    + by rewrite Hrows, last_snoc.
    + rewrite Hrows. intros j r0 r' a' Hj HSj Ha'.
      destruct (decide (S j < k)) as [Hlt|Hge].
      * rewrite lookup_app_l in Hj, HSj by lia. by eapply Hchain.
      * assert (S j = k) as <-.
        { apply lookup_lt_Some in HSj. rewrite length_app in HSj.
          simpl in HSj. lia. }
        rewrite lookup_app_l in Hj by lia.
        rewrite lookup_app_r in HSj by lia.
        rewrite Hlen, Nat.sub_diag in HSj. injection HSj as <-.
        assert (a' = a) as -> by congruence.
        rewrite last_lookup, Hlen in Hlast. cbn [pred] in Hlast.
        rewrite Hj in Hlast. cbn in Hlast. by rewrite <- Hlast.
Qed.

End SybylChain.

Lemma atom_rows_chain {F} (w : World F) (self : Molecule F) (mol : Mol F)
    (rows : list (AtomRow F)) :
  _mol self = Some mol ->
  atom_rows w self = Ok rows ->
  sybyl_chain (GetAtoms mol) rows.
Proof.
  intros Hmol. unfold atom_rows, elements_by_index, the_mol. rewrite Hmol.
  cbn [or_raise mbind Result_bind].
  destruct (for_each _ _ _) as [st|] eqn:E; [|done].
  cbn [mbind Result_bind]. intros [= <-].
  eapply (for_each_atom_row_chain w self (GetAtoms mol) _ (GetAtoms mol) 0
            ([], None)); [done|exact E|done|done|].
  intros j r0 r a Hj. cbn [fst] in Hj. by rewrite lookup_nil in Hj.
Qed.

(** X13.  A carbon or a nitrogen that is not aromatic and is not the first
    atom gets, in the frame that [atom_block()] prints, the sybyl type of the
    row of the atom just before it in native order. *)
Theorem atom_block_carries_sybyl_over {F} (w : World F) (self : Molecule F)
    (mol : Mol F) (rows : list (AtomRow F)) (r0 r : AtomRow F) (a : Atom) :
  _mol self = Some mol ->
  tripos_atom w self = Ok rows ->
  r0 ∈ rows ->
  r ∈ rows ->
  rdkit_index r = S (rdkit_index r0) ->
  GetAtoms mol !! rdkit_index r = Some a ->
  sybyl_unassigned a ->
  sybyl r = sybyl r0.
Proof.
  intros Hmol Hrows Hr0 Hr Hidx Ha Hun. revert Hrows Hr0 Hr. unfold tripos_atom.
  destruct (atom_rows w self) as [rows0|] eqn:E; [|done].
  cbn [mbind Result_bind]. destruct (elements self) as [cats|]; [|done].
  cbn [mbind Result_bind]. intros [= <-]. rewrite !stable_sort_perm.
  intros [p0 Hp0]%list_elem_of_lookup [p Hp]%list_elem_of_lookup.
  pose proof (atom_rows_indices w self mol rows0 Hmol E) as Hind.
  assert (Hpos : forall q x, rows0 !! q = Some x -> rdkit_index x = q).
  { intros q x Hq.
    assert (Hq' : (rdkit_index <$> rows0) !! q = Some (rdkit_index x))
      by by rewrite list_lookup_fmap, Hq.
    rewrite Hind in Hq'. apply lookup_seq in Hq' as [-> _]. done. }
  rewrite (Hpos _ _ Hp0), (Hpos _ _ Hp) in Hidx. subst p.
  rewrite (Hpos _ _ Hp) in Ha.
  pose proof (atom_rows_chain w self mol rows0 Hmol E p0 r0 r a Hp0 Hp Ha) as Hstep.
  rewrite (sybyl_step_unassigned _ a Hun) in Hstep. congruence.
Qed.

(** ** More on [bond_block] *)

Lemma map_result_Ok_or_Raise {A B} (f : A -> Result B) (e : exn) (l : list A) :
  Forall (fun x => (exists y, f x = Ok y) \/ f x = Raise e) l ->
  (exists ys, map_result f l = Ok ys) \/ map_result f l = Raise e.
Proof.
  induction 1 as [|x l Hx Hl IH]; cbn [map_result]; [left; by eexists|].
  destruct Hx as [[y ->]| ->]; [|by right]. cbn [mbind Result_bind].
  destruct IH as [[ys ->]| ->]; [left; by eexists|by right].
Qed.

Lemma bond_row_Ok_or_KeyError (b : Bond) :
  (exists r, bond_row b = Ok r) \/ bond_row b = Raise KeyError.
Proof.
  unfold bond_row, dict_getitem.
  destruct (dict_get bond_types _); [left; by eexists|by right].
Qed.

Lemma bond_row_unmapped (b : Bond) :
  GetBondType b ∉ [AROMATIC; SINGLE; DOUBLE; TRIPLE] ->
  bond_row b = Raise KeyError.
Proof.
  rewrite !not_elem_of_cons. intros (H1 & H2 & H3 & H4 & _).
  unfold bond_row. by destruct (GetBondType b).
Qed.

Lemma lookup_row_Ok_or_KeyError (g : Globals) (lk : gmap nat nat) (k : nat) :
  index_lookup g = Some lk ->
  (exists x, lookup_row g k = Ok x) \/ lookup_row g k = Raise KeyError.
Proof.
  intros Hg. unfold lookup_row. rewrite Hg. cbn [or_raise mbind Result_bind].
  destruct (lk !! k); [left; by eexists|by right].
Qed.

(** [tripos_bond] with a mapping that has the ends of every bond. *)
Lemma tripos_bond_returns {F} (self : Molecule F) (mol : Mol F) (g : Globals)
    (lk : gmap nat nat) :
  _mol self = Some mol ->
  index_lookup g = Some lk ->
  GetBonds mol <> [] ->
  Forall (fun b => GetBondType b ∈ [AROMATIC; SINGLE; DOUBLE; TRIPLE])
         (GetBonds mol) ->
  Forall (fun b => is_Some (lk !! GetBeginAtomIdx b)
                   /\ is_Some (lk !! GetEndAtomIdx b)) (GetBonds mol) ->
  exists lines unsorted,
    tripos_bond self g = Ok lines
    /\ Forall2 (bond_line_of lk) (GetBonds mol) unsorted
    /\ lines ≡ₚ unsorted.
Proof.
  intros Hmol Hg Hne Htypes Hends.
  destruct (map_result_total bond_row (GetBonds mol)) as [rows Hrows].
  { eapply Forall_impl; [exact Htypes|]. intros b. apply bond_row_mapped. }
  pose proof (proj1 (map_result_Ok _ _ _) Hrows) as Hrows2.
  assert (Hrow_ends : Forall (fun r => is_Some (lk !! begin_atom_rdkit r)
                                      /\ is_Some (lk !! end_atom_rdkit r)) rows).
  { clear Hrows Hne Htypes.
    induction Hrows2 as [|b r bonds rows Hb _ IH]; [constructor|].
    apply Forall_cons in Hends as [Hb_ends Hends]. constructor; [|by apply IH].
    apply bond_row_Ok in Hb as (-> & -> & _). done. }
  destruct (map_result_total (fun r => lookup_row g (begin_atom_rdkit r)) rows)
    as [begins Hbegins].
  { eapply Forall_impl; [exact Hrow_ends|]. intros r [[x Hx] _].
    exists x. by apply (lookup_row_Ok g lk). }
  destruct (map_result_total (fun r => lookup_row g (end_atom_rdkit r)) rows)
    as [ends Hends'].
  { eapply Forall_impl; [exact Hrow_ends|]. intros r [_ [x Hx]].
    exists x. by apply (lookup_row_Ok g lk). }
  exists (stable_sort (fun l1 l2 => key_le (bond_key l1) (bond_key l2))
            (zip_with (fun r be => {| begin := be.1; end' := be.2;
                                      line_bond_type := bond_type r |})
                      rows (zip begins ends))),
         (zip_with (fun r be => {| begin := be.1; end' := be.2;
                                   line_bond_type := bond_type r |})
                   rows (zip begins ends)).
  split; [|split; [|apply stable_sort_perm]].
  - unfold tripos_bond, the_mol. rewrite Hmol. cbn -[map_result].
    rewrite Hrows. cbn -[map_result].
    destruct rows as [|r rows].
    + apply Forall2_nil_inv_r in Hrows2. done.
    + rewrite Hbegins. cbn -[map_result]. by rewrite Hends'.
  - apply (bond_lines_Forall2 g); [done|done| |]; by apply map_result_Ok.
Qed.

(** X16.  Atom block and bond block agree: after [atom_block()] has
    returned on a molecule, [bond_block()] on the same molecule, when it has
    at least one bond, its bonds are all of a mapped type and join atoms of
    the molecule, returns one line for each bond, and the two rows of every
    line are row numbers of the atom block, between 1 and the number of
    atoms. *)
Theorem bond_block_rows_in_range {F} (w : World F) (self : Molecule F)
    (mol : Mol F) (g g' : Globals) (block : string) :
  _mol self = Some mol ->
  atom_block w self g = (Ok block, g') ->
  GetBonds mol <> [] ->
  Forall (fun b => GetBondType b ∈ [AROMATIC; SINGLE; DOUBLE; TRIPLE])
         (GetBonds mol) ->
  Forall (fun b => GetBeginAtomIdx b < length (GetAtoms mol)
                   /\ GetEndAtomIdx b < length (GetAtoms mol)) (GetBonds mol) ->
  exists lines,
    tripos_bond self g' = Ok lines
    /\ bond_block w self g'
       = Ok ("@<TRIPOS>BOND" +:+ newline
             +:+ bonds_to_string w (number_rows lines) +:+ newline)
    /\ length lines = length (GetBonds mol)
    /\ Forall (fun l => 1 <= begin l <= length (GetAtoms mol)
                        /\ 1 <= end' l <= length (GetAtoms mol)) lines.
Proof.
  intros Hmol Hblock Hne Htypes Hvalid.
  revert Hblock. unfold atom_block.
  destruct (tripos_atom w self) as [rows|] eqn:E; [|done].
  intros [= _ <-].
  pose proof (tripos_atom_indices w self mol rows Hmol E) as Hp.
  set (lk := dict_of_pairs (zip (rdkit_index <$> rows) (seq 1 (length rows)))).
  assert (Hbij : index_bijection lk (length (GetAtoms mol))).
  { unfold lk. replace (length rows) with (length (rdkit_index <$> rows))
      by apply length_fmap.
    by apply dict_of_pairs_bijection. }
  destruct Hbij as (Hrange & Htotal & _ & _).
  destruct (tripos_bond_returns self mol {| index_lookup := Some lk |} lk)
    as (lines & unsorted & Hlines & Hof & Hperm); try done.
  { eapply Forall_impl; [exact Hvalid|]. intros b [Hb He]. split; by apply Htotal. }
  exists lines. split; [done|].
  split; [by unfold bond_block; rewrite Hlines|].
  split; [rewrite Hperm; symmetry; by eapply Forall2_length|].
  rewrite Hperm. apply Forall_forall. intros l [i Hi]%list_elem_of_lookup.
  destruct (Forall2_lookup_r _ _ _ _ _ Hof Hi) as (b & _ & Hb & He & _).
  split; [by apply (Hrange _ _ Hb)|by apply (Hrange _ _ He)].
Qed.

(** X17.  A bond whose type is none of aromatic, single, double and
    triple makes [bond_block()] raise [KeyError], whatever [index_lookup]
    holds. *)
Theorem bond_block_unmapped_type {F} (w : World F) (self : Molecule F)
    (mol : Mol F) (g : Globals) :
  _mol self = Some mol ->
  Exists (fun b => GetBondType b ∉ [AROMATIC; SINGLE; DOUBLE; TRIPLE])
         (GetBonds mol) ->
  bond_block w self g = Raise KeyError.
Proof.
  intros Hmol Hex. unfold bond_block, tripos_bond, the_mol. rewrite Hmol.
  cbn -[map_result].
  rewrite (map_result_Raise bond_row KeyError (GetBonds mol)); [done| |].
  - apply Forall_forall. intros b _. apply bond_row_Ok_or_KeyError.
  - eapply Exists_impl; [exact Hex|]. intros b. apply bond_row_unmapped.
Qed.

(** X18.  When [index_lookup] holds a mapping that lacks an end of some
    bond, as the mapping of a smaller molecule does, [bond_block()] on a
    molecule whose bonds are all of a mapped type raises [KeyError]. *)
Theorem bond_block_unknown_atom {F} (w : World F) (self : Molecule F)
    (mol : Mol F) (lk : gmap nat nat) :
  _mol self = Some mol ->
  Forall (fun b => GetBondType b ∈ [AROMATIC; SINGLE; DOUBLE; TRIPLE])
         (GetBonds mol) ->
  Exists (fun b => lk !! GetBeginAtomIdx b = None
                   \/ lk !! GetEndAtomIdx b = None) (GetBonds mol) ->
  bond_block w self {| index_lookup := Some lk |} = Raise KeyError.
Proof.
  intros Hmol Htypes Hex.
  set (g := {| index_lookup := Some lk |}).
  assert (Hg : index_lookup g = Some lk) by done. clearbody g.
  destruct (map_result_total bond_row (GetBonds mol)) as [rows Hrows].
  { eapply Forall_impl; [exact Htypes|]. intros b. apply bond_row_mapped. }
  pose proof (proj1 (map_result_Ok _ _ _) Hrows) as Hrows2.
  unfold bond_block, tripos_bond, the_mol. rewrite Hmol. cbn -[map_result].
  rewrite Hrows. cbn -[map_result].
  destruct rows as [|r rows].
  { apply Forall2_nil_inv_r in Hrows2. rewrite Hrows2 in Hex.
    by apply Exists_nil in Hex. }
  destruct (map_result_Ok_or_Raise
              (fun r => lookup_row g (begin_atom_rdkit r)) KeyError (r :: rows))
    as [[begins Hbegins]|Hbegins].
  { apply Forall_forall. intros r' _. by apply (lookup_row_Ok_or_KeyError g lk). }
  2: { by rewrite Hbegins. }
  rewrite Hbegins. cbn -[map_result].
  destruct (map_result_Ok_or_Raise
              (fun r => lookup_row g (end_atom_rdkit r)) KeyError (r :: rows))
    as [[ends Hends]|Hends].
  { apply Forall_forall. intros r' _. by apply (lookup_row_Ok_or_KeyError g lk). }
  2: { by rewrite Hends. }
  exfalso. apply map_result_Ok in Hbegins, Hends.
  apply Exists_exists in Hex as (b & [i Hi]%list_elem_of_lookup & Hb).
  destruct (Forall2_lookup_l _ _ _ _ _ Hrows2 Hi) as (r' & Hr' & Hrow).
  apply bond_row_Ok in Hrow as (Hb1 & Hb2 & _).
  destruct (Forall2_lookup_l _ _ _ _ _ Hbegins Hr') as (x & _ & Hx).
  destruct (Forall2_lookup_l _ _ _ _ _ Hends Hr') as (y & _ & Hy).
  apply (lookup_row_Ok g lk) in Hx, Hy; [|done..].
  rewrite Hb1 in Hx. rewrite Hb2 in Hy. destruct Hb; congruence.
Qed.

(** ** [molecule_block] *)

Lemma map_result_length {A B} (f : A -> Result B) (l : list A) (ys : list B) :
  map_result f l = Ok ys -> length ys = length l.
Proof. intros H%map_result_Ok. symmetry. by eapply Forall2_length. Qed.

Lemma tripos_bond_length {F} (self : Molecule F) (mol : Mol F) (g : Globals)
    (lines : list BondLine) :
  _mol self = Some mol ->
  tripos_bond self g = Ok lines ->
  length lines = length (GetBonds mol).
Proof.
  intros Hmol. unfold tripos_bond, the_mol. rewrite Hmol. cbn -[map_result].
  destruct (map_result bond_row (GetBonds mol)) as [rows|] eqn:Hrows; [|done].
  cbn -[map_result]. destruct rows as [|r rows]; [done|].
  destruct (map_result (fun r => lookup_row g (begin_atom_rdkit r)) (r :: rows))
    as [begins|] eqn:Hbegins; [|by cbn].
  cbn [mbind Result_bind].
  destruct (map_result (fun r => lookup_row g (end_atom_rdkit r)) (r :: rows))
    as [ends|] eqn:Hends; [|by cbn].
  cbn [mbind Result_bind]. set (unsorted := zip_with _ (r :: rows) _).
  intros [= <-].
  apply map_result_length in Hrows, Hbegins, Hends.
  rewrite stable_sort_length. unfold unsorted.
  rewrite length_zip_with, length_zip. lia.
Qed.

(** X19.  The MOLECULE block of a constructed molecule announces what the
    other two blocks hold: its counts are the numbers of atoms and of bonds
    of the structure read from the XYZ file, which are the number of rows of
    the ATOM frame and the number of lines of the BOND frame whenever these
    are produced; its last line is GASTEIGER when the charges were computed
    and DFT when they were read. *)
Theorem molecule_block_counts {F} (w : World F) (args : list string)
    (CalculateCharges : bool) (self : Molecule F) :
  __init__ w args CalculateCharges = Ok self ->
  exists xyz,
    _mol self = Some xyz
    /\ molecule_block self
       = "@<TRIPOS>MOLECULE" +:+ newline
         +:+ str_option id (name self) +:+ newline
         +:+ pretty (length (GetAtoms xyz)) +:+ " "
         +:+ pretty (length (GetBonds xyz)) +:+ " 1 0 0" +:+ newline
         +:+ "SMALL" +:+ newline
         +:+ (if CalculateCharges then "GASTEIGER" else "DFT") +:+ newline
    /\ (forall rows, tripos_atom w self = Ok rows ->
          length rows = length (GetAtoms xyz))
    /\ (forall g lines, tripos_bond self g = Ok lines ->
          length lines = length (GetBonds xyz)).
Proof.
  intros Hinit.
  destruct (init_Ok_inv w args CalculateCharges self Hinit)
    as (st & xyz & _ & _ & Hmol & _ & _ & _ & _ & Hatoms & Hbonds & Hcc & _).
  exists xyz. split; [done|]. split; [|split].
  - unfold molecule_block. by rewrite Hatoms, Hbonds, Hcc.
  - intros rows Hrows.
    pose proof (tripos_atom_indices w self xyz rows Hmol Hrows) as Hp.
    apply Permutation_length in Hp. by rewrite length_fmap, length_seq in Hp.
  - intros g lines. by apply tripos_bond_length.
Qed.

(** ** Where [__init__] raises *)

Section InitRaises.

Context {F : Type} (w : World F) (cc : bool).

Lemma init_arg_accepts (st : InitLocals F) (arg : string) :
  loop_accepts w arg -> exists st', init_arg w cc st arg = Ok st'.
Proof.
  unfold loop_accepts, reads_pdb, reads_xyz, reads_other, init_arg.
  intros [[-> (pdb & i & -> & Hi)]|[[[-> ->] [xyz ->]]|[-> ->]]].
  - cbn [mbind Result_bind]. rewrite Hi. by eexists.
  - by eexists.
  - destruct cc; by eexists.
Qed.

Lemma init_loop_accepts (args : list string) (st : InitLocals F) :
  Forall (loop_accepts w) args ->
  exists st', for_each (init_arg w cc) args st = Ok st'.
Proof.
  intros Hargs. revert st.
  induction Hargs as [|arg args Harg _ IH]; intros st; cbn [for_each].
  - by eexists.
  - destruct (init_arg_accepts st arg Harg) as [st1 ->]. cbn [mbind Result_bind].
    apply IH.
Qed.

(** The state after the loop, read off the last element of [P]. *)
Lemma for_each_last_at {A St X} (body : St -> A -> Result St) (proj : St -> X)
    (P : A -> Prop) (Q : A -> X -> Prop) :
  (forall st a st', body st a = Ok st' ->
     (P a /\ Q a (proj st')) \/ (~ P a /\ proj st' = proj st)) ->
  forall before a after st st',
    for_each body (before ++ a :: after) st = Ok st' ->
    P a -> Forall (fun a => ~ P a) after -> Q a (proj st').
Proof.
  intros Hbody before a after st st' Hloop Ha Hafter.
  rewrite for_each_app in Hloop.
  destruct (for_each body before st) as [st1|]; [|done].
  cbn [mbind Result_bind for_each] in Hloop.
  destruct (body st1 a) as [st2|] eqn:Hstep; [|done].
  cbn [mbind Result_bind] in Hloop.
  destruct (Hbody _ _ _ Hstep) as [[_ HQ]|[HnP _]]; [|done].
  destruct (for_each_last body proj P Q Hbody after st2 st' Hloop)
    as [[_ ->]|(b & x & c & -> & Hx & _)]; [done|].
  apply Forall_app in Hafter as [_ Hafter]. by apply Forall_cons in Hafter as [? _].
Qed.

Lemma init_loop_xyz_at (before after : list string) (arg : string)
    (st : InitLocals F) :
  for_each (init_arg w cc) (before ++ arg :: after) init_locals = Ok st ->
  reads_xyz arg ->
  Forall (fun a => ~ reads_xyz a) after ->
  mol_from_xyz w arg = Ok (l_xyz_mol st).
Proof.
  intros Hloop Harg Hafter.
  apply (for_each_last_at (init_arg w cc) l_xyz_mol reads_xyz
           (fun arg x => mol_from_xyz w arg = Ok x))
    with (before := before) (after := after) (st := @init_locals F); try done.
  intros st0 a st1 Ha.
  destruct (init_arg_Ok w cc st0 st1 a Ha)
    as [[Hpdb (pdb & i & _ & _ & ->)]|[[Hxyz (xyz & Hm & ->)]|[Hother ->]]].
  - right. split; [|done]. unfold reads_pdb in Hpdb. intros [? _]. congruence.
  - left. by split.
  - right. split; [destruct Hother; intros [_ ?]; congruence|].
    by destruct (negb cc).
Qed.

End InitRaises.

Lemma init_loop_charges_at {F} (w : World F) (before after : list string)
    (path : string) (st : InitLocals F) :
  for_each (init_arg w false) (before ++ path :: after) init_locals = Ok st ->
  reads_other path ->
  Forall (fun a => ~ reads_other a) after ->
  path_to_charges st = Some path.
Proof.
  intros Hloop Hpath Hafter.
  destruct (init_loop_charges w _ st Hloop)
    as [[Hnone _]|(b & p & c & Heq & Hp & Hc & Hst)].
  - apply Forall_app in Hnone as [_ Hnone].
    by apply Forall_cons in Hnone as [? _].
  - apply (for_each_last_at (init_arg w false) path_to_charges reads_other
             (fun arg x => x = Some arg))
      with (before := before) (after := after) (st := @init_locals F); try done.
    intros st0 a st1 Ha.
    destruct (init_arg_Ok w false st0 st1 a Ha)
      as [[Hpdb (pdb & i & _ & _ & ->)]|[[Hxyz (xyz & Hm & ->)]|[Hother ->]]].
    + right. split; [|done]. unfold reads_pdb in Hpdb. intros [? _]. congruence.
    + right. split; [|done]. destruct Hxyz. intros [_ ?]. congruence.
    + left. by split.
Qed.

(** X21.  With the charge computation disabled and no argument other than
    PDB and XYZ files, the constructor has no file of charges to read: when
    the loop gets past every argument and the last XYZ file gives a
    structure, it raises [UnboundLocalError]. *)
Theorem init_without_charges_file {F} (w : World F) (before after : list string)
    (arg : string) (xyz : Mol F) :
  Forall (loop_accepts w) (before ++ arg :: after) ->
  Forall (fun a => ~ reads_other a) (before ++ arg :: after) ->
  reads_xyz arg ->
  Forall (fun a => ~ reads_xyz a) after ->
  mol_from_xyz w arg = Ok (Some xyz) ->
  __init__ w (before ++ arg :: after) false = Raise UnboundLocalError.
Proof.
  intros Hacc Hnone Harg Hafter Hxyz.
  destruct (init_loop_accepts w false _ init_locals Hacc) as [st Hst].
  pose proof (init_loop_xyz_at w false before after arg st Hst Harg Hafter) as Hm.
  rewrite Hxyz in Hm. injection Hm as Hm.
  assert (Hp : path_to_charges st = None).
  { destruct (init_loop_charges w _ st Hst)
      as [[_ ?]|(b & p & c & Heq & Hp & _)]; [done|].
    rewrite Heq in Hnone. apply Forall_app in Hnone as [_ Hnone].
    by apply Forall_cons in Hnone as [? _]. }
  unfold __init__. rewrite Hst. cbn [mbind Result_bind].
  rewrite <- Hm. cbn [or_raise mbind Result_bind]. by rewrite Hp.
Qed.

(** X22.  The name of a PDB file must be one character followed by an
    integer: when the loop gets past the arguments before a PDB file, the
    file is read, and [int] rejects its base name without the first character
    and the extension, the constructor raises [ValueError]. *)
Theorem init_pdb_name_without_number {F} (w : World F)
    (before after : list string) (arg : string) (cc : bool)
    (pdb : option (Mol F)) :
  Forall (loop_accepts w) before ->
  reads_pdb arg ->
  MolFromPDBFile w arg = Ok pdb ->
  py_int w (drop_first (drop_last4 (basename arg))) = None ->
  __init__ w (before ++ arg :: after) cc = Raise ValueError.
Proof.
  intros Hacc Harg Hpdb Hint.
  destruct (init_loop_accepts w cc _ init_locals Hacc) as [st Hst].
  assert (Hstep : init_arg w cc st arg = Raise ValueError).
  { unfold init_arg. unfold reads_pdb in Harg. rewrite Harg, Hpdb.
    cbn [mbind Result_bind]. by rewrite Hint. }
  unfold __init__. rewrite for_each_app, Hst. cbn [mbind Result_bind for_each].
  by rewrite Hstep.
Qed.

(** X23.  The external charges need the index that only a PDB file gives:
    with the charge computation disabled and no PDB file among the
    arguments, when the last XYZ file gives a structure and the last other
    argument is a CSV file that can be read, the constructor raises
    [TypeError]. *)
Theorem init_charges_without_pdb {F} (w : World F) (args before after : list string)
    (arg : string) (xyz : Mol F) (before' after' : list string) (path : string)
    (rows : list (list string)) :
  Forall (loop_accepts w) args ->
  Forall (fun a => ~ reads_pdb a) args ->
  args = before ++ arg :: after ->
  reads_xyz arg ->
  Forall (fun a => ~ reads_xyz a) after ->
  mol_from_xyz w arg = Ok (Some xyz) ->
  args = before' ++ path :: after' ->
  reads_other path ->
  Forall (fun a => ~ reads_other a) after' ->
  csv_rows w path = Ok rows ->
  __init__ w args false = Raise TypeError.
Proof.
  intros Hacc Hnone Hargs Harg Hafter Hxyz Hargs' Hpath Hafter' Hcsv.
  destruct (init_loop_accepts w false _ init_locals Hacc) as [st Hst].
  assert (Hm : l_xyz_mol st = Some xyz).
  { rewrite Hargs in Hst.
    pose proof (init_loop_xyz_at w false before after arg st Hst Harg Hafter) as Hm.
    rewrite Hxyz in Hm. by injection Hm. }
  assert (Hp : path_to_charges st = Some path).
  { rewrite Hargs' in Hst. by eapply init_loop_charges_at. }
  assert (Hi : l_index st = None).
  { destruct (init_loop_pdb w false _ st Hst)
      as [(_ & _ & ?)|(b & p & c & i & Heq & Hpdb & _)]; [done|].
    rewrite Heq in Hnone. apply Forall_app in Hnone as [_ Hnone].
    by apply Forall_cons in Hnone as [? _]. }
  unfold __init__. rewrite Hst. cbn [mbind Result_bind].
  rewrite Hm. cbn [or_raise mbind Result_bind]. rewrite Hp.
  cbn [or_raise mbind Result_bind]. unfold get_external_charges.
  rewrite Hcsv. cbn [mbind Result_bind index]. by rewrite Hi.
Qed.

(** ** The further theorems on the example inputs *)

Lemma init_structure_from_last_xyz_witness :
  exists before arg after xyz,
    ["m1.xyz"; "m2.pdb"; "m2.xyz"] = before ++ arg :: after
    /\ reads_xyz arg
    /\ Forall (fun a => ~ reads_xyz a) after
    /\ mol_from_xyz Ex.world arg = Ok (Some xyz)
    /\ path_to_xyz Ex.water2 = Some arg
    /\ _mol Ex.water2 = Some xyz.
Proof.
  apply (init_structure_from_last_xyz Ex.world ["m1.xyz"; "m2.pdb"; "m2.xyz"]
           true Ex.water2).
  reflexivity.
Defined.

Lemma init_name_and_index_witness :
  (Forall (fun a => ~ reads_pdb a) ["m2.pdb"; "m2.xyz"]
   /\ name Ex.water2 = None /\ index Ex.water2 = None)
  \/ exists before arg after i,
       ["m2.pdb"; "m2.xyz"] = before ++ arg :: after
       /\ reads_pdb arg
       /\ Forall (fun a => ~ reads_pdb a) after
       /\ name Ex.water2 = Some (drop_last4 (basename arg))
       /\ index Ex.water2 = Some i
       /\ py_int Ex.world (drop_first (drop_last4 (basename arg))) = Some i.
Proof.
  apply (init_name_and_index Ex.world ["m2.pdb"; "m2.xyz"] true Ex.water2).
  reflexivity.
Defined.

Lemma init_external_charges_source_witness :
  exists before path after i rows row cs,
    ["m2.pdb"; "m2.xyz"; "charges.csv"] = before ++ path :: after
    /\ reads_other path
    /\ Forall (fun a => ~ reads_other a) after
    /\ Exists reads_pdb ["m2.pdb"; "m2.xyz"; "charges.csv"]
    /\ index Ex2.water2_dft = Some i
    /\ csv_rows Ex.world path = Ok rows
    /\ py_getitem rows (i - 1) = Ok row
    /\ Forall2 (fun field x => py_float Ex.world field = Some x) row cs
    /\ charges Ex2.water2_dft = Some cs.
Proof.
  apply (init_external_charges_source Ex.world
           ["m2.pdb"; "m2.xyz"; "charges.csv"] Ex2.water2_dft).
  reflexivity.
Defined.

Lemma init_computed_charges_length_witness :
  exists cs, charges Ex.water2 = Some cs /\ num_atoms Ex.water2 = Some (length cs).
Proof.
  apply (init_computed_charges_length Ex.world ["m2.pdb"; "m2.xyz"] Ex.water2).
  reflexivity.
Defined.

Lemma get_external_charges_IndexError_witness :
  get_external_charges (Ex2.world_csv Ex2.two_rows) Ex2.water3 "charges.csv"
  = Raise IndexError.
Proof.
  apply (get_external_charges_IndexError (Ex2.world_csv Ex2.two_rows) Ex2.water3
           "charges.csv" Ex2.two_rows 3).
  - reflexivity.
  - reflexivity.
  - simpl. lia.
Defined.

Lemma get_external_charges_wraps_witness :
  get_external_charges (Ex2.world_csv Ex2.two_rows) Ex2.water0 "charges.csv"
  = Ok (set_charges Ex2.water0 Ex.charges_04_05_06).
Proof.
  apply (get_external_charges_wraps (Ex2.world_csv Ex2.two_rows) Ex2.water0
           "charges.csv" Ex2.two_rows 0 ["0.4"; "0.5"; "0.6"]).
  - reflexivity.
  - reflexivity.
  - simpl. lia.
  - reflexivity.
  - repeat constructor.
Defined.

Lemma get_external_charges_ValueError_witness :
  get_external_charges (Ex2.world_csv Ex2.bad_rows) Ex.water1 "charges.csv"
  = Raise ValueError.
Proof.
  apply (get_external_charges_ValueError (Ex2.world_csv Ex2.bad_rows) Ex.water1
           "charges.csv" Ex2.bad_rows 1 ["0.1"; "n/a"; "0.3"]).
  - reflexivity.
  - reflexivity.
  - reflexivity.
  - apply Exists_cons_tl, Exists_cons_hd. reflexivity.
Defined.

Lemma elements_by_index_groups_witness :
  exists d,
    elements_by_index Ex.ring = Ok d
    /\ (forall s ids, dict_get d s = Some ids ->
          ids <> []
          /\ StronglySorted lt ids
          /\ forall i, i ∈ ids
               <-> exists a, GetAtoms Ex.ring_fragment !! i = Some a
                             /\ GetSymbol a = s)
    /\ (forall s, is_Some (dict_get d s)
          <-> exists a, a ∈ GetAtoms Ex.ring_fragment /\ GetSymbol a = s).
Proof.
  apply (elements_by_index_groups Ex.ring Ex.ring_fragment). reflexivity.
Defined.

Lemma elements_are_the_keys_of_elements_by_index_witness :
  exists es d,
    elements Ex.water2 = Ok es
    /\ elements_by_index Ex.water2 = Ok d
    /\ es ≡ₚ d.*1
    /\ NoDup d.*1.
Proof.
  apply (elements_are_the_keys_of_elements_by_index Ex.water2 Ex.water_HOH).
  reflexivity.
Defined.

Lemma atom_block_rows_content_witness :
  Forall (row_content Ex.world Ex2.methanol (GetAtoms Ex.methanol_heavy))
         [Ex2.methanol_C_row; Ex2.methanol_O_row].
Proof.
  apply (atom_block_rows_content Ex.world Ex2.methanol Ex.methanol_heavy).
  - reflexivity.
  - reflexivity.
Defined.

Lemma atom_block_rows_sorted_witness :
  rdkit_index <$> [Ex2.methanol_C_row; Ex2.methanol_O_row]
    ≡ₚ seq 0 (length (GetAtoms Ex.methanol_heavy))
  /\ StronglySorted (atom_row_le (elements_of (GetAtoms Ex.methanol_heavy)))
                    [Ex2.methanol_C_row; Ex2.methanol_O_row].
Proof.
  apply (atom_block_rows_sorted Ex.world Ex2.methanol Ex.methanol_heavy).
  - reflexivity.
  - reflexivity.
Defined.

Lemma atom_block_first_atom_unassigned_witness :
  atom_block Ex.world Ex2.methanimine Ex.fresh = (Raise UnboundLocalError, Ex.fresh).
Proof.
  eapply (atom_block_first_atom_unassigned Ex.world Ex2.methanimine
            Ex2.methanimine_xyz _ _ _ Ex2.methanimine_positions Ex.fresh).
  - reflexivity.
  - reflexivity.
  - split; [by left|reflexivity].
  - reflexivity.
  - discriminate.
  - reflexivity.
  - discriminate.
Defined.

Lemma atom_block_carries_sybyl_over_witness :
  sybyl Ex2.methanol_C_row = sybyl Ex2.methanol_O_row.
Proof.
  eapply (atom_block_carries_sybyl_over Ex.world Ex2.methanol Ex.methanol_heavy
            [Ex2.methanol_C_row; Ex2.methanol_O_row]).
  - reflexivity.
  - reflexivity.
  - apply list_elem_of_further, list_elem_of_here.
  - apply list_elem_of_here.
  - reflexivity.
  - reflexivity.
  - split; [by left|reflexivity].
Defined.

Lemma atom_block_too_few_charges_witness :
  atom_block Ex.world Ex.water1 Ex.fresh = (Raise IndexError, Ex.fresh).
Proof.
  apply (atom_block_too_few_charges Ex.world Ex.water1 Ex.water_OHH
           Ex.charges_01_02 Ex2.water_positions Ex.fresh).
  - reflexivity.
  - reflexivity.
  - reflexivity.
  - simpl. lia.
  - simpl. lia.
  - repeat constructor; by eexists.
Defined.

Lemma atom_block_unmapped_hybridization_witness :
  atom_block Ex.world Ex2.sulfur Ex.fresh = (Raise KeyError, Ex.fresh).
Proof.
  eapply (atom_block_unmapped_hybridization Ex.world Ex2.sulfur Ex.sulfur_sp3d2
            [] [] _ _ Ex2.origin Ex.fresh).
  - reflexivity.
  - reflexivity.
  - reflexivity.
  - reflexivity.
  - simpl. lia.
  - simpl. lia.
  - constructor.
  - apply (bool_decide_unpack _). vm_compute. exact I.
  - reflexivity.
Defined.

Lemma bond_block_rows_in_range_witness :
  exists lines,
    tripos_bond Ex.ring {| index_lookup := Some Ex.ring_lookup |} = Ok lines
    /\ bond_block Ex.world Ex.ring {| index_lookup := Some Ex.ring_lookup |}
       = Ok ("@<TRIPOS>BOND" +:+ newline
             +:+ bonds_to_string Ex.world (number_rows lines) +:+ newline)
    /\ length lines = length (GetBonds Ex.ring_fragment)
    /\ Forall (fun l => 1 <= begin l <= length (GetAtoms Ex.ring_fragment)
                        /\ 1 <= end' l <= length (GetAtoms Ex.ring_fragment))
              lines.
Proof.
  apply (bond_block_rows_in_range Ex.world Ex.ring Ex.ring_fragment Ex.fresh
           {| index_lookup := Some Ex.ring_lookup |} Ex.ring_block).
  - reflexivity.
  - vm_compute. reflexivity.
  - discriminate.
  - apply (bool_decide_unpack (Forall _ _)). vm_compute. exact I.
  - apply (bool_decide_unpack (Forall _ _)). vm_compute. exact I.
Defined.

Lemma bond_block_unmapped_type_witness :
  bond_block Ex.world Ex2.dative Ex.fresh = Raise KeyError.
Proof.
  apply (bond_block_unmapped_type Ex.world Ex2.dative Ex2.dative_pair Ex.fresh).
  - reflexivity.
  - apply (bool_decide_unpack (Exists _ _)). vm_compute. exact I.
Defined.

Lemma bond_block_unknown_atom_witness :
  bond_block Ex.world Ex.ring {| index_lookup := Some Ex2.water_lookup |}
  = Raise KeyError.
Proof.
  apply (bond_block_unknown_atom Ex.world Ex.ring Ex.ring_fragment
           Ex2.water_lookup).
  - reflexivity.
  - apply (bool_decide_unpack (Forall _ _)). vm_compute. exact I.
  - apply (bool_decide_unpack (Exists _ _)). vm_compute. exact I.
Defined.

Lemma molecule_block_counts_witness :
  exists xyz,
    _mol Ex.water2 = Some xyz
    /\ molecule_block Ex.water2
       = "@<TRIPOS>MOLECULE" +:+ newline
         +:+ str_option id (name Ex.water2) +:+ newline
         +:+ pretty (length (GetAtoms xyz)) +:+ " "
         +:+ pretty (length (GetBonds xyz)) +:+ " 1 0 0" +:+ newline
         +:+ "SMALL" +:+ newline
         +:+ "GASTEIGER" +:+ newline
    /\ (forall rows, tripos_atom Ex.world Ex.water2 = Ok rows ->
          length rows = length (GetAtoms xyz))
    /\ (forall g lines, tripos_bond Ex.water2 g = Ok lines ->
          length lines = length (GetBonds xyz)).
Proof.
  apply (molecule_block_counts Ex.world ["m2.pdb"; "m2.xyz"] true Ex.water2).
  reflexivity.
Defined.

Lemma atom_block_returns_witness :
  exists block lk,
    atom_block Ex.world Ex.ring Ex.fresh
    = (Ok block, {| index_lookup := Some lk |}).
Proof.
  apply (atom_block_returns Ex.world Ex.ring Ex.ring_fragment Ex2.ring_charges
           Ex2.ring_positions Ex.fresh).
  - reflexivity.
  - reflexivity.
  - reflexivity.
  - simpl. lia.
  - simpl. lia.
  - repeat constructor; by eexists.
Defined.

Lemma init_without_charges_file_witness :
  __init__ Ex.world (["m2.pdb"] ++ "m2.xyz" :: []) false = Raise UnboundLocalError.
Proof.
  apply (init_without_charges_file Ex.world ["m2.pdb"] [] "m2.xyz" Ex.water_HOH).
  - apply Forall_cons. split.
    + left. split; [reflexivity|]. exists None, 2%Z. split; reflexivity.
    + apply Forall_cons. split; [|constructor].
      right. left. split; [split; reflexivity|]. eexists. reflexivity.
  - repeat constructor; intros [H1 H2]; vm_compute in H1, H2; discriminate.
  - split; reflexivity.
  - constructor.
  - reflexivity.
Defined.

Lemma init_pdb_name_without_number_witness :
  __init__ Ex.world ([] ++ "mol.pdb" :: ["m2.xyz"]) true = Raise ValueError.
Proof.
  apply (init_pdb_name_without_number Ex.world [] ["m2.xyz"] "mol.pdb" true None).
  - constructor.
  - reflexivity.
  - reflexivity.
  - reflexivity.
Defined.

Lemma init_charges_without_pdb_witness :
  __init__ Ex.world ["m2.xyz"; "charges.csv"] false = Raise TypeError.
Proof.
  apply (init_charges_without_pdb Ex.world ["m2.xyz"; "charges.csv"]
           [] ["charges.csv"] "m2.xyz" Ex.water_HOH
           ["m2.xyz"] [] "charges.csv" Ex2.two_rows).
  - apply Forall_cons. split.
    + right. left. split; [split; reflexivity|]. eexists. reflexivity.
    + apply Forall_cons. split; [|constructor]. right. right. split; reflexivity.
  - repeat constructor; intros H; vm_compute in H; discriminate.
  - reflexivity.
  - split; reflexivity.
  - repeat constructor. intros [H1 H2]; vm_compute in H1, H2; discriminate.
  - reflexivity.
  - reflexivity.
  - split; reflexivity.
  - constructor.
  - reflexivity.
Defined.
